(** * Verification of the smolagents demo tools

    A shallow embedding of the tool functions of [demo_tools.py],
    [local_multiple_tools.py], [simple_demo.py], [my_agent_demo.py],
    [my_gradio_demo.py] and [quick_start.py], and of the two demo
    drivers.

    Python [str] values are modelled as Rocq strings holding the UTF-8
    encoding.  The characters the code inspects (the allow-list of
    [calculate], the blank replaced by [search_wikipedia]) are ASCII, and
    a byte of a multi-byte UTF-8 sequence is never an ASCII byte, so the
    per-byte tests below agree with Python's per-character tests. *)

From Stdlib Require Import String Ascii List ZArith Lia Bool Arith DecimalString.
Import ListNotations.
Local Open Scope string_scope.

(** ** Exceptions

    An exception of the model is a subclass of [Exception]: the class
    decides which [except] clause catches it, the message is what
    [str(e)] gives.  What derives from [BaseException] only ([SystemExit],
    [KeyboardInterrupt], [GeneratorExit]) is no [exc]: no clause of the
    repository catches it, and the one place where the code can raise it,
    the evaluation of an unchecked expression, has an ending of its own
    ([Escapes], below). *)
Inductive exc_class :=
  | RequestException   (* requests.RequestException and its subclasses *)
  | KeyError
  | IndexError
  | TypeError
  | AttributeError
  | ValueError
  | OverflowError
  | MemoryError
  | OtherException.    (* any other subclass of Exception *)

Record exc := mkExc { exc_cls : exc_class; exc_msg : string }.

Definition is_request_exception (e : exc) : bool :=
  match exc_cls e with RequestException => true | _ => false end.

Inductive outcome (A : Type) :=
  | Return (a : A)
  | Raise (e : exc).
Arguments Return {A} a.
Arguments Raise {A} e.

(** Why [x * seq] builds no sequence: [x] is a [float]; [x] is an [int]
    that does not fit an index; the repeated sequence does not fit the
    memory. *)
Inductive repeat_failure :=
  | NonIntMultiplier
  | CountTooLarge
  | OutOfMemory.

Definition repeat_error (f : repeat_failure) : exc :=
  match f with
  | NonIntMultiplier =>
      mkExc TypeError "can't multiply sequence by non-int of type 'float'"
  | CountTooLarge =>
      mkExc OverflowError "cannot fit 'int' into an index-sized integer"
  | OutOfMemory => mkExc MemoryError EmptyString
  end.

(** What [str()] raises on an [int] beyond the digit limit. *)
Definition digits_error : exc :=
  mkExc ValueError
        "Exceeds the limit (4300 digits) for integer string conversion; use sys.set_int_max_str_digits() to increase the limit".

(** ** The Python runtime

    What the interpreter provides and the repository does not define:
    numbers, [repr] of a string, the objects an allow-listed expression
    evaluates to, and the description of the host.

    [num] holds the [int]s and the [float]s.  [str()] prints a [float],
    and an [int] within the interpreter's limit on the digits of an
    integer (4300 by default): [num_printable].  The numbers of a parsed
    body are printable, since [json()] raises on a longer literal.
    [num_mul a b] is [None] where Python raises [OverflowError]: a
    [float] times an [int] too large for a [float].  [num_fmt] is [None]
    where [format(x, '.Nf')] raises it, on such an [int]. *)

Class PyRuntime := {
  num : Type;                             (* int and float values *)
  num_mul : num -> num -> option num;     (* [a * b] *)
  num_repeat : num -> nat -> option repeat_failure;
                                          (* [a * seq], [seq] of that length *)
  num_of_bool : bool -> num;              (* [True] is 1, [False] is 0 *)
  num_is_zero : num -> bool;              (* falsiness of a number *)
  num_printable : num -> bool;            (* [str(x)] returns *)
  num_str : num -> string;                (* [str(x)], where it returns *)
  num_fmt : nat -> num -> option string;  (* [format(x, '.Nf')] *)
  num_type : num -> string;               (* [type(x).__name__]: int or float *)
  str_repr : string -> string;            (* [repr(s)] *)
  pyobj : Type;                           (* what [eval] may return *)
  obj_str : pyobj -> outcome string;      (* [str(o)] of the value of an
                                             allow-listed expression: a
                                             number, [()] or [...]; it
                                             raises [ValueError] on an
                                             [int] beyond the digit limit *)
  host_system : string;                   (* [platform.system()] *)
  host_release : string;                  (* [platform.release()] *)
  host_python : string;                   (* [platform.python_version()] *)
  host_platform : string                  (* [platform.platform()] *)
}.

(** ** String helpers (Python [str] methods used by the code) *)

Definition chars (s : string) : list ascii := list_ascii_of_string s.

(** [c in set(s)] *)
Definition char_in (c : ascii) (s : string) : bool :=
  existsb (Ascii.eqb c) (chars s).

(** [t in s] for two strings: substring test. *)
Fixpoint contains (t s : string) : bool :=
  String.prefix t s ||
  match s with
  | EmptyString => false
  | String _ s' => contains t s'
  end.

(** [s.replace(a, b)] for single characters. *)
Fixpoint replace_char (a b : ascii) (s : string) : string :=
  match s with
  | EmptyString => EmptyString
  | String c s' => String (if Ascii.eqb c a then b else c) (replace_char a b s')
  end.

Definition lower_char (c : ascii) : ascii :=
  let n := nat_of_ascii c in
  if Nat.leb 65 n && Nat.leb n 90 then ascii_of_nat (n + 32) else c.

(** [s.lower()].  Only the ASCII letters are folded; the one call in the
    source is reached for allow-listed strings only, which hold no letter
    at all. *)
Fixpoint lower (s : string) : string :=
  match s with
  | EmptyString => EmptyString
  | String c s' => String (lower_char c) (lower s')
  end.

Fixpoint join (sep : string) (l : list string) : string :=
  match l with
  | [] => EmptyString
  | [x] => x
  | x :: l' => x ++ sep ++ join sep l'
  end.

Definition quoted (s : string) : string := "'" ++ s ++ "'".

(** A byte [10xxxxxx] continues the character begun before it. *)
Definition is_continuation (c : ascii) : bool :=
  let n := nat_of_ascii c in Nat.leb 128 n && Nat.leb n 191.

(** [len(s)]: the characters of the string, one per byte that begins
    one. *)
Fixpoint code_points (s : string) : nat :=
  match s with
  | EmptyString => 0
  | String c s' => (if is_continuation c then 0 else 1) + code_points s'
  end.

(** [s[:n]]: the first [n] characters, each with its continuation
    bytes. *)
Fixpoint take_chars (n : nat) (s : string) : string :=
  match s with
  | EmptyString => EmptyString
  | String c s' =>
      if is_continuation c then String c (take_chars n s')
      else match n with
           | O => EmptyString
           | S n' => String c (take_chars n' s')
           end
  end.

(** ** JSON values, as [response.json()] returns them

    An object is the parsed [dict]: its keys are distinct, and [lookup]
    reads the first entry of a key. *)

#[warnings="-register-all"]
Inductive json {R : PyRuntime} :=
  | JNull
  | JBool (b : bool)
  | JNum (n : num)
  | JStr (s : string)
  | JArr (xs : list json)
  | JObj (kvs : list (string * json)).

Section PyOps.
Context {R : PyRuntime}.

Fixpoint lookup (k : string) (kvs : list (string * json)) : option json :=
  match kvs with
  | [] => None
  | (k', v) :: rest => if String.eqb k k' then Some v else lookup k rest
  end.

Definition json_is_str (s : string) (j : json) : bool :=
  match j with JStr s' => String.eqb s s' | _ => false end.

Definition type_name (j : json) : string :=
  match j with
  | JNull => "NoneType" | JBool _ => "bool" | JNum n => num_type n
  | JStr _ => "str" | JArr _ => "list" | JObj _ => "dict"
  end.

Definition type_error (msg : string) : exc := mkExc TypeError msg.

(** [k in d] with [k] a string. *)
Definition py_in (k : string) (d : json) : outcome bool :=
  match d with
  | JObj kvs => Return (match lookup k kvs with Some _ => true | None => false end)
  | JArr xs => Return (existsb (json_is_str k) xs)
  | JStr s => Return (contains k s)
  | _ => Raise (type_error ("argument of type " ++ quoted (type_name d) ++ " is not iterable"))
  end.

(** [d[k]] with [k] a string. *)
Definition py_getitem (d : json) (k : string) : outcome json :=
  match d with
  | JObj kvs =>
      match lookup k kvs with
      | Some v => Return v
      | None => Raise (mkExc KeyError (quoted k))
      end
  | JArr _ => Raise (type_error "list indices must be integers or slices, not str")
  | JStr _ => Raise (type_error "string indices must be integers, not 'str'")
  | _ => Raise (type_error (quoted (type_name d) ++ " object is not subscriptable"))
  end.

(** [d[0]]. *)
Definition py_getitem0 (d : json) : outcome json :=
  match d with
  | JObj _ => Raise (mkExc KeyError "0")
  | JArr [] => Raise (mkExc IndexError "list index out of range")
  | JArr (x :: _) => Return x
  | JStr EmptyString => Raise (mkExc IndexError "string index out of range")
  | JStr s => Return (JStr (take_chars 1 s))
  | _ => Raise (type_error (quoted (type_name d) ++ " object is not subscriptable"))
  end.

(** [d.get(k, default)]; [d.get(k)] is [py_get d k JNull]. *)
Definition py_get (d : json) (k : string) (default : json) : outcome json :=
  match d with
  | JObj kvs =>
      Return (match lookup k kvs with Some v => v | None => default end)
  | _ => Raise (mkExc AttributeError
                  (quoted (type_name d) ++ " object has no attribute 'get'"))
  end.

(** Truth value of an object in [if d:]. *)
Definition py_truthy (d : json) : bool :=
  match d with
  | JNull => false
  | JBool b => b
  | JNum n => negb (num_is_zero n)
  | JStr EmptyString => false
  | JStr _ => true
  | JArr [] => false
  | JArr _ => true
  | JObj [] => false
  | JObj _ => true
  end.

(** [len(d)]. *)
Definition py_len (d : json) : outcome nat :=
  match d with
  | JStr s => Return (code_points s)
  | JArr xs => Return (List.length xs)
  | JObj kvs => Return (List.length kvs)
  | _ => Raise (type_error ("object of type " ++ quoted (type_name d) ++ " has no len()"))
  end.

(** [repr(d)]. *)
Fixpoint py_repr (d : json) : string :=
  match d with
  | JNull => "None"
  | JBool true => "True"
  | JBool false => "False"
  | JNum n => num_str n
  | JStr s => str_repr s
  | JArr xs => "[" ++ join ", " (map py_repr xs) ++ "]"
  | JObj kvs =>
      "{" ++ join ", "
               (map (fun kv => match kv with
                               | (k, v) => str_repr k ++ ": " ++ py_repr v
                               end) kvs) ++ "}"
  end.

(** [str(d)], what an f-string field [{d}] inserts. *)
Definition py_str (d : json) : string :=
  match d with
  | JStr s => s
  | _ => py_repr d
  end.

Definition overflow_error : exc :=
  mkExc OverflowError "int too large to convert to float".

(** The field [{amount}] of an f-string: [str(amount)]. *)
Definition py_num_str (x : num) : outcome string :=
  if num_printable x then Return (num_str x) else Raise digits_error.

(** [format(x, '.Nf')] of a number. *)
Definition py_fmt (digits : nat) (x : num) : outcome string :=
  match num_fmt digits x with
  | Some text => Return text
  | None => Raise overflow_error
  end.

(** [converted_amount = amount * rate], as far as the tool can use it.
    With a number for [rate] it is their product.  A string or a list is
    repeated by an [int] amount, and the f-string of the next statement
    then raises, in its field [{amount}] or, with the [.2f] format, on
    the repeated sequence: [py_mul] raises that exception, or the one of
    the repetition itself.  On [None] and on an object [*] raises. *)
Definition py_mul (amount : num) (rate : json) : outcome num :=
  let product r :=
    match num_mul amount r with
    | Some c => Return c
    | None => Raise overflow_error
    end in
  let repeated n format_error :=
    match num_repeat amount n with
    | Some f => Raise (repeat_error f)
    | None => if num_printable amount then Raise format_error
              else Raise digits_error
    end in
  match rate with
  | JNum r => product r
  | JBool b => product (num_of_bool b)
  | JStr s =>
      repeated (code_points s)
               (mkExc ValueError "Unknown format code 'f' for object of type 'str'")
  | JArr xs =>
      repeated (List.length xs)
               (type_error "unsupported format string passed to list.__format__")
  | _ => Raise (type_error ("unsupported operand type(s) for *: "
                              ++ quoted (num_type amount) ++ " and "
                              ++ quoted (type_name rate)))
  end.

(** [format(rate, '.Nf')]. *)
Definition py_format_f (digits : nat) (rate : json) : outcome string :=
  match rate with
  | JNum r => py_fmt digits r
  | JBool b => py_fmt digits (num_of_bool b)
  | JStr _ => Raise (mkExc ValueError "Unknown format code 'f' for object of type 'str'")
  | _ => Raise (type_error ("unsupported format string passed to "
                              ++ type_name rate ++ ".__format__"))
  end.

End PyOps.

(** ** The world outside the process and the state of the process *)

(** A call [requests.get(url, headers=..., timeout=...)]. *)
Record request := mkRequest {
  req_url : string;
  req_headers : list (string * string);
  req_timeout : option nat
}.

(** What the interpreter does that an observer can see: a request, a
    line on standard output, a call of [eval], a line on standard
    error, a question of the [platform] module to the host (to answer
    it the module may read files of the system or run [uname]). *)
Inductive event :=
  | EvHttpGet (r : request)
  | EvPrint (line : string)
  | EvEval (restricted : bool) (expression : string)
  | EvStderr (line : string)
  | EvPlatform (query : string).

(** The state a tool could touch: the environment variables, the files,
    the position of the process-wide random generator in its stream of
    draws, and the events so far (latest first). *)
Record Proc := mkProc {
  environ : list (string * string);
  files : list (string * string);
  rng_pos : nat;
  trace : list event
}.

Definition log (ev : event) (p : Proc) : Proc :=
  mkProc (environ p) (files p) (rng_pos p) (ev :: trace p).

(** The lines written to standard error, the first one first. *)
Definition warn (lines : list string) (p : Proc) : Proc :=
  mkProc (environ p) (files p) (rng_pos p)
         (rev (map EvStderr lines) ++ trace p).

(** How a piece of code ends: it returns or raises an [Exception]
    ([Ends]), or control passes every [except Exception] clause around
    it ([Escapes]): an exception that derives from [BaseException] only
    leaves the code, named here by its class, or the code ends the
    process ([os._exit]) or does not come to an end. *)
Inductive ending (A : Type) :=
  | Ends (o : outcome A)
  | Escapes (how : string).
Arguments Ends {A} o.
Arguments Escapes {A} how.

Section World.
Context {R : PyRuntime}.

(** The [Response] object: [raise_for_status()] raises an [HTTPError]
    (a [RequestException]) for a 4xx or 5xx status, [json()] returns the
    parsed body or raises. *)
Record response := mkResponse {
  status_error : option string;
  json_body : outcome json
}.

(** Everything a tool reads and the repository does not control.

    - [http_get]: the answer of the network to a request.
    - [eval_plain], [eval_warnings]: [eval(expression)] with the
      caller's globals.  The tools call it on allow-listed expressions
      only.  Such an expression holds no name, so evaluating it calls
      nothing: it returns a value or raises an [Exception], and all it
      does besides is what the compiler does, which writes its warnings
      (a [SyntaxWarning] for ["(2)(3)"]) to standard error.
    - [eval_restricted]: [eval(expression, {"__builtins__": {}}, {})] on
      any expression.  Emptied builtins do not confine an expression (it
      reaches every loaded class from a literal), so the evaluation may
      read and change the state of the process, give another result the
      next time, and raise what [except Exception] does not catch.
    - [format_result], [exception_text]: [str()] of the object such an
      evaluation returned and of the exception it raised; the object
      brings its own [__str__], which is code of the expression again.
    - [draws]: the stream of the generator behind [random.choice].
    - [local_time]: the reading of the clock,
      [datetime.datetime.now().strftime('%Y-%m-%d %H:%M:%S')].

    The evaluation of an allow-listed expression is arithmetic on
    literals and is taken to come to an end. *)
Record World := mkWorld {
  http_get : request -> outcome response;
  eval_plain : string -> outcome pyobj;
  eval_warnings : string -> list string;
  eval_restricted : string -> Proc -> ending pyobj * Proc;
  format_result : pyobj -> Proc -> ending string * Proc;
  exception_text : exc -> Proc -> ending string * Proc;
  draws : nat -> nat;
  local_time : string
}.

(** A computation reads the world, threads the process state and
    returns or raises. *)
Definition M (A : Type) : Type := World -> Proc -> outcome A * Proc.

Definition ret {A} (a : A) : M A := fun _ p => (Return a, p).

Definition raise {A} (e : exc) : M A := fun _ p => (Raise e, p).

Definition bind {A B} (c : M A) (k : A -> M B) : M B :=
  fun w p =>
    match c w p with
    | (Return a, p') => k a w p'
    | (Raise e, p') => (Raise e, p')
    end.

Definition lift {A} (o : outcome A) : M A := fun _ p => (o, p).

(** [try: body  except <class> as e: handler e].  An exception the
    clause does not name goes on to the caller. *)
Definition try_except {A} (body : M A) (catches : exc -> bool)
           (handler : exc -> M A) : M A :=
  fun w p =>
    match body w p with
    | (Return a, p') => (Return a, p')
    | (Raise e, p') => if catches e then handler e w p' else (Raise e, p')
    end.

(** [except Exception]: every [exc] is an [Exception]. *)
Definition any_exception (e : exc) : bool := true.

(** [os.getenv(name)] *)
Fixpoint env_lookup (name : string) (env : list (string * string)) : option string :=
  match env with
  | [] => None
  | (k, v) :: rest => if String.eqb name k then Some v else env_lookup name rest
  end.

Definition getenv (name : string) : M (option string) :=
  fun _ p => (Return (env_lookup name (environ p)), p).

(** [if api_key:] on the result of [os.getenv]. *)
Definition key_set (k : option string) : option string :=
  match k with
  | Some (String c s) => Some (String c s)
  | _ => None
  end.

(** [requests.get(...)]: one blocking GET. *)
Definition requests_get (url : string) (headers : list (string * string))
           (timeout : option nat) : M response :=
  fun w p =>
    let r := mkRequest url headers timeout in
    (http_get w r, log (EvHttpGet r) p).

(** [response.raise_for_status()] *)
Definition raise_for_status (resp : response) : M unit :=
  match status_error resp with
  | Some msg => raise (mkExc RequestException msg)
  | None => ret tt
  end.

(** [response.json()] *)
Definition response_json (resp : response) : M json := lift (json_body resp).

(** [print(line)].  Standard output is taken to accept every line (it
    is open and its encoding has the characters of the line): the call
    returns.  This bears on the drivers and on [get_random_fact] of
    [demo_tools.py], whose [print] stands in an [except] clause, outside
    every [try]. *)
Definition print (line : string) : M unit :=
  fun _ p => (Return tt, log (EvPrint line) p).

(** [random.choice(seq)]: [IndexError] on an empty sequence, otherwise
    the element at index [_randbelow(len(seq))].  The generator is its
    stream of draws, each reduced below the length as [_randbelow]
    guarantees; a call consumes one. *)
Definition random_choice (seq : list string) : M string :=
  fun w p =>
    match seq with
    | [] => (Raise (mkExc IndexError "Cannot choose from an empty sequence"), p)
    | first :: _ =>
        let i := Nat.modulo (draws w (rng_pos p)) (List.length seq) in
        (Return (nth i seq first),
         mkProc (environ p) (files p) (S (rng_pos p)) (trace p))
    end.

(** [eval(expression)] of an allow-listed expression. *)
Definition py_eval (expression : string) : M pyobj :=
  fun w p =>
    (eval_plain w expression,
     warn (eval_warnings w expression) (log (EvEval false expression) p)).

(** [datetime.datetime.now().strftime('%Y-%m-%d %H:%M:%S')] *)
Definition datetime_now : M string := fun w p => (Return (local_time w), p).

(** [platform.system()], [platform.release()], [platform.platform()]:
    the module asks the host and keeps the answer for the next call. *)
Definition platform_query (query answer : string) : M string :=
  fun _ p => (Return answer, log (EvPlatform query) p).

(** Code that may also be left by a [BaseException]. *)
Definition E (A : Type) : Type := World -> Proc -> ending A * Proc.

Definition finish {A} (a : A) : E A := fun _ p => (Ends (Return a), p).

Definition escapable {A} (c : M A) : E A :=
  fun w p => let (o, p') := c w p in (Ends o, p').

Definition giving {A B} (f : A -> B) (c : E A) : E B :=
  fun w p =>
    match c w p with
    | (Ends (Return a), p') => (Ends (Return (f a)), p')
    | (Ends (Raise e), p') => (Ends (Raise e), p')
    | (Escapes name, p') => (Escapes name, p')
    end.

Definition then_ {A B} (c : E A) (k : A -> E B) : E B :=
  fun w p =>
    match c w p with
    | (Ends (Return a), p') => k a w p'
    | (Ends (Raise e), p') => (Ends (Raise e), p')
    | (Escapes name, p') => (Escapes name, p')
    end.

(** [try: body  except Exception as e: handler e]: what is no
    [Exception] passes the clause. *)
Definition try_except_exception {A} (body : E A) (handler : exc -> E A) : E A :=
  fun w p =>
    match body w p with
    | (Ends (Return a), p') => (Ends (Return a), p')
    | (Ends (Raise e), p') => handler e w p'
    | (Escapes name, p') => (Escapes name, p')
    end.

(** [eval(expression, {"__builtins__": {}}, {})] *)
Definition py_eval_restricted (expression : string) : E pyobj :=
  fun w p => eval_restricted w expression (log (EvEval true expression) p).

(** The field [{result}] of an f-string: [str(result)]. *)
Definition py_format_result (result : pyobj) : E string :=
  fun w p => format_result w result p.

(** [str(e)] *)
Definition py_exception_text (e : exc) : E string :=
  fun w p => exception_text w e p.

End World.

Declare Scope py_scope.
Delimit Scope py_scope with py.
Notation "x <- c ;; k" := (bind c (fun x => k))
  (at level 61, c at next level, right associativity) : py_scope.
Notation "c ;;; k" := (bind c (fun _ => k))
  (at level 61, right associativity) : py_scope.
Notation "x <~ c ;; k" := (then_ c (fun x => k))
  (at level 61, c at next level, right associativity) : py_scope.

Local Open Scope py_scope.

Definition nl : string := String (ascii_of_nat 10) EmptyString.

Section Helpers.
Context {R : PyRuntime}.

(** [d[k]] as a statement of a tool body. *)
Definition item (d : json) (k : string) : M json := lift (py_getitem d k).

(** [a and b], with [b] evaluated only when [a] is true. *)
Definition and_then (a b : M bool) : M bool :=
  x <- a ;; if x then b else ret false.

Definition str (s : string) : M json := ret (JStr s).

(** The character test of the two [calculate] tools:
    [all(c in allowed_chars for c in expression)]. *)
Definition allowed_chars : string := "0123456789+-*/.() ".

Definition all_allowed (expression : string) : bool :=
  forallb (fun c => char_in c allowed_chars) (chars expression).

End Helpers.

(** ** demo_tools.py *)

Module DemoTools.
Section Tools.
Context {R : PyRuntime}.

Definition convert_currency (amount : num) (from_currency to_currency : string)
  : M json :=
  try_except
    (let url := "https://api.exchangerate-api.com/v4/latest/" ++ from_currency in
     response <- requests_get url [] (Some 10) ;;
     raise_for_status response ;;;
     data <- response_json response ;;
     found <- and_then (lift (py_in "rates" data))
                       (rates <- item data "rates" ;;
                        lift (py_in to_currency rates)) ;;
     if found then
       rates <- item data "rates" ;;
       rate <- item rates to_currency ;;
       converted_amount <- lift (py_mul amount rate) ;;
       amount_text <- lift (py_num_str amount) ;;
       converted2 <- lift (py_fmt 2 converted_amount) ;;
       rate4 <- lift (py_format_f 4 rate) ;;
       str ("💰 " ++ amount_text ++ " " ++ from_currency ++ " = "
              ++ converted2 ++ " " ++ to_currency
              ++ " (Rate: " ++ rate4 ++ ")")
     else
       str ("❌ Could not find exchange rate for " ++ from_currency
              ++ " to " ++ to_currency))
    any_exception
    (fun e => str ("❌ Error fetching exchange rate: " ++ exc_msg e)).

Definition no_key_message : string :=
  "❌ Weather API key not configured. Please add WEATHERSTACK_API_KEY to your .env file.".

Definition get_weather (location : string) (celsius : bool) : M json :=
  api_key <- getenv "WEATHERSTACK_API_KEY" ;;
  match key_set api_key with
  | None => str no_key_message
  | Some api_key =>
    try_except
      (let units := if celsius then "m" else "f" in
       let url := "http://api.weatherstack.com/current?access_key=" ++ api_key
                    ++ "&query=" ++ location ++ "&units=" ++ units in
       response <- requests_get url [] (Some 10) ;;
       raise_for_status response ;;;
       data <- response_json response ;;
       has_error <- lift (py_in "error" data) ;;
       if has_error then
         err <- item data "error" ;;
         info <- item err "info" ;;
         str ("❌ Weather API error: " ++ py_str info)
       else
         current <- item data "current" ;;
         location_info <- item data "location" ;;
         let temp_unit := if celsius then "°C" else "°F" in
         name <- item location_info "name" ;;
         country <- item location_info "country" ;;
         descriptions <- item current "weather_descriptions" ;;
         description <- lift (py_getitem0 descriptions) ;;
         temperature <- item current "temperature" ;;
         feelslike <- item current "feelslike" ;;
         humidity <- item current "humidity" ;;
         wind_speed <- item current "wind_speed" ;;
         str ("🌤️ Weather in " ++ py_str name ++ ", " ++ py_str country ++ ":" ++ nl
                ++ "   " ++ py_str description ++ nl
                ++ "   Temperature: " ++ py_str temperature ++ temp_unit
                ++ " (feels like " ++ py_str feelslike ++ temp_unit ++ ")" ++ nl
                ++ "   Humidity: " ++ py_str humidity ++ "%, Wind: "
                ++ py_str wind_speed ++ " km/h"))
      any_exception
      (fun e => str ("❌ Error fetching weather: " ++ exc_msg e))
  end.

Definition fallback_jokes : list string :=
  [ "Why do programmers prefer dark mode? Because light attracts bugs!";
    "How many programmers does it take to change a light bulb? None, that's a hardware problem!";
    "Why do Java developers wear glasses? Because they don't C#!" ].

Definition get_joke : M json :=
  try_except
    (let url := "https://v2.jokeapi.dev/joke/Programming?safe-mode&type=single" in
     response <- requests_get url [] (Some 10) ;;
     raise_for_status response ;;;
     data <- response_json response ;;
     error <- lift (py_get data "error" JNull) ;;
     if py_truthy error then
       str "😅 Sorry, couldn't fetch a joke right now."
     else
       type <- item data "type" ;;
       if json_is_str "single" type then
         joke <- item data "joke" ;;
         str ("😄 " ++ py_str joke)
       else
         setup <- item data "setup" ;;
         delivery <- item data "delivery" ;;
         str ("😄 " ++ py_str setup ++ nl ++ "   " ++ py_str delivery))
    any_exception
    (fun _ =>
       joke <- random_choice fallback_jokes ;;
       str ("😄 " ++ joke)).

Definition fallback_facts : list string :=
  [ "The first computer bug was an actual bug - a moth trapped in a Harvard Mark II computer in 1947.";
    "Python was named after the British comedy group Monty Python, not the snake.";
    "The term 'debugging' was popularized by Admiral Grace Hopper in the 1940s.";
    "The first programmer was Ada Lovelace, who wrote the first algorithm for Charles Babbage's Analytical Engine in 1843.";
    "The '@' symbol was used in email addresses for the first time by Ray Tomlinson in 1971." ].

Definition fact_user_agent : string :=
  "Mozilla/5.0 (Windows NT 10.0; Win64; x64) AppleWebKit/537.36".

(** The [try] statement either returns from the function ([Some]) or
    falls through to the fallback table ([None]). *)
Definition get_random_fact : M json :=
  returned <-
    try_except
      (let url := "https://uselessfacts.jsph.pl/random.json?language=en" in
       let headers := [("User-Agent", fact_user_agent)] in
       response <- requests_get url headers (Some 10) ;;
       raise_for_status response ;;;
       data <- response_json response ;;
       has_text <- lift (py_in "text" data) ;;
       if has_text then
         text <- item data "text" ;;
         ret (Some (JStr ("🧠 Random Fact: " ++ py_str text)))
       else ret None)
      any_exception
      (fun e => print ("Primary fact API failed: " ++ exc_msg e) ;;; ret None) ;;
  match returned with
  | Some v => ret v
  | None =>
      fact <- random_choice fallback_facts ;;
      str ("🧠 Random Fact: " ++ fact)
  end.

Definition wikipedia_user_agent : string :=
  "SmolagentsDemo/1.0 (https://github.com/huggingface/smolagents)".

Definition search_wikipedia (query : string) : M json :=
  try_except
    (let headers := [("User-Agent", wikipedia_user_agent)] in
     let search_url := "https://en.wikipedia.org/api/rest_v1/page/summary/"
                         ++ replace_char " " "_" query in
     response <- requests_get search_url headers (Some 10) ;;
     raise_for_status response ;;;
     data <- response_json response ;;
     found <- and_then (lift (py_in "extract" data))
                       (extract <- item data "extract" ;;
                        ret (py_truthy extract)) ;;
     if found then
       title <- lift (py_get data "title" (JStr query)) ;;
       extract <- item data "extract" ;;
       content_urls <- lift (py_get data "content_urls" (JObj [])) ;;
       desktop <- lift (py_get content_urls "desktop" (JObj [])) ;;
       page_url <- lift (py_get desktop "page" (JStr EmptyString)) ;;
       str ("📖 Wikipedia - " ++ py_str title ++ ":" ++ nl ++ py_str extract
              ++ nl ++ nl ++ "🔗 Read more: " ++ py_str page_url)
     else
       str ("❌ No Wikipedia summary found for '" ++ query ++ "'."))
    any_exception
    (fun e => str ("❌ Error searching Wikipedia: " ++ exc_msg e)).

Definition dangerous_terms : list string :=
  ["__"; "import"; "exec"; "eval"; "open"; "file"].

Definition invalid_characters : string :=
  "❌ Invalid characters in expression. Only numbers and basic math operators are allowed.".

Definition invalid_expression : string := "❌ Invalid expression detected.".

Definition calculate (expression : string) : M json :=
  try_except
    (if negb (all_allowed expression) then str invalid_characters
     else if existsb (fun term => contains term (lower expression)) dangerous_terms
     then str invalid_expression
     else
       result <- py_eval expression ;;
       text <- lift (obj_str result) ;;
       str ("🧮 " ++ expression ++ " = " ++ text))
    any_exception
    (fun e => str ("❌ Error calculating '" ++ expression ++ "': " ++ exc_msg e)).

End Tools.
End DemoTools.

(** ** local_multiple_tools.py *)

Module LocalMultipleTools.
Section Tools.
Context {R : PyRuntime}.

Definition no_key_message : string :=
  "Weather API key not configured. Please add WEATHERSTACK_API_KEY to your .env file.".

(** [celsius: bool | None]: [None] counts as false. *)
Definition get_weather (location : string) (celsius : option bool) : M json :=
  api_key <- getenv "WEATHERSTACK_API_KEY" ;;
  match key_set api_key with
  | None => str no_key_message
  | Some api_key =>
    let celsius := match celsius with Some true => true | _ => false end in
    let units := if celsius then "m" else "f" in
    let url := "http://api.weatherstack.com/current?access_key=" ++ api_key
                 ++ "&query=" ++ location ++ "&units=" ++ units in
    try_except
      (response <- requests_get url [] None ;;
       raise_for_status response ;;;
       data <- response_json response ;;
       has_error <- lift (py_in "error" data) ;;
       if has_error then
         err <- item data "error" ;;
         info <- item err "info" ;;
         str ("Error fetching weather data: " ++ py_str info)
       else
         current <- item data "current" ;;
         location_info <- item data "location" ;;
         let temp_unit := if celsius then "°C" else "°F" in
         name <- item location_info "name" ;;
         country <- item location_info "country" ;;
         descriptions <- item current "weather_descriptions" ;;
         description <- lift (py_getitem0 descriptions) ;;
         temperature <- item current "temperature" ;;
         feelslike <- item current "feelslike" ;;
         humidity <- item current "humidity" ;;
         str ("Weather in " ++ py_str name ++ ", " ++ py_str country ++ ": "
                ++ py_str description ++ ", Temperature: " ++ py_str temperature
                ++ temp_unit ++ ", Feels like: " ++ py_str feelslike ++ temp_unit
                ++ ", Humidity: " ++ py_str humidity ++ "%"))
      is_request_exception
      (fun e => str ("Error fetching weather data: " ++ exc_msg e))
  end.

Definition convert_currency (amount : num) (from_currency to_currency : string)
  : M json :=
  api_key <- getenv "EXCHANGE_API_KEY" ;;
  let api_key := key_set api_key in
  let url :=
    match api_key with
    | Some api_key =>
        "https://v6.exchangerate-api.com/v6/" ++ api_key ++ "/pair/"
          ++ from_currency ++ "/" ++ to_currency
    | None => "https://api.exchangerate-api.com/v4/latest/" ++ from_currency
    end in
  try_except
    (response <- requests_get url [] None ;;
     raise_for_status response ;;;
     data <- response_json response ;;
     match api_key with
     | Some _ =>
         success <- and_then (lift (py_in "result" data))
                             (result <- item data "result" ;;
                              ret (json_is_str "success" result)) ;;
         if success then
           rate <- item data "conversion_rate" ;;
           converted_amount <- lift (py_mul amount rate) ;;
           amount_text <- lift (py_num_str amount) ;;
           converted2 <- lift (py_fmt 2 converted_amount) ;;
           str (amount_text ++ " " ++ from_currency ++ " = "
                  ++ converted2 ++ " " ++ to_currency
                  ++ " (Rate: " ++ py_str rate ++ ")")
         else
           error_type <- lift (py_get data "error-type" (JStr "Unknown error")) ;;
           str ("Error: " ++ py_str error_type)
     | None =>
         found <- and_then (lift (py_in "rates" data))
                           (rates <- item data "rates" ;;
                            lift (py_in to_currency rates)) ;;
         if found then
           rates <- item data "rates" ;;
           rate <- item rates to_currency ;;
           converted_amount <- lift (py_mul amount rate) ;;
           amount_text <- lift (py_num_str amount) ;;
           converted2 <- lift (py_fmt 2 converted_amount) ;;
           str (amount_text ++ " " ++ from_currency ++ " = "
                  ++ converted2 ++ " " ++ to_currency
                  ++ " (Rate: " ++ py_str rate ++ ")")
         else
           str ("Error: Could not find exchange rate for " ++ from_currency
                  ++ " to " ++ to_currency)
     end)
    is_request_exception
    (fun e => str ("Error fetching exchange rate: " ++ exc_msg e)).

(** [return data["joke"]] hands the JSON value back as it is. *)
Definition get_joke : M json :=
  let url := "https://v2.jokeapi.dev/joke/Any?safe-mode&type=single" in
  try_except
    (response <- requests_get url [] None ;;
     raise_for_status response ;;;
     data <- response_json response ;;
     error <- item data "error" ;;
     if py_truthy error then
       str "Sorry, couldn't fetch a joke right now."
     else
       type <- item data "type" ;;
       if json_is_str "single" type then
         item data "joke"
       else
         setup <- item data "setup" ;;
         delivery <- item data "delivery" ;;
         str (py_str setup ++ " - " ++ py_str delivery))
    is_request_exception
    (fun e => str ("Error fetching joke: " ++ exc_msg e)).

Definition get_random_fact : M json :=
  api_key <- getenv "API_NINJAS_KEY" ;;
  let headers :=
    match key_set api_key with
    | Some api_key => [("X-Api-Key", api_key)]
    | None => []
    end in
  let url := "https://api.api-ninjas.com/v1/facts" in
  try_except
    (response <- requests_get url headers None ;;
     raise_for_status response ;;;
     data <- response_json response ;;
     nonempty <- and_then (ret (py_truthy data))
                          (n <- lift (py_len data) ;; ret (Nat.ltb 0 n)) ;;
     if nonempty then
       first <- lift (py_getitem0 data) ;;
       item first "fact"
     else
       str "Sorry, couldn't fetch a random fact right now.")
    is_request_exception
    (fun e => str ("Error fetching random fact: " ++ exc_msg e)).

Definition search_wikipedia (query : string) : M json :=
  let url := "https://en.wikipedia.org/api/rest_v1/page/summary/" ++ query in
  try_except
    (response <- requests_get url [] None ;;
     raise_for_status response ;;;
     data <- response_json response ;;
     has_extract <- lift (py_in "extract" data) ;;
     if has_extract then
       extract <- item data "extract" ;;
       str ("Wikipedia summary for '" ++ query ++ "': " ++ py_str extract)
     else
       str ("No Wikipedia summary found for '" ++ query ++ "'."))
    is_request_exception
    (fun e => str ("Error searching Wikipedia: " ++ exc_msg e)).

Definition invalid_characters : string :=
  "Error: Invalid characters in expression. Only numbers and basic math operators are allowed.".

Definition calculate (expression : string) : M json :=
  try_except
    (if negb (all_allowed expression) then str invalid_characters
     else
       result <- py_eval expression ;;
       text <- lift (obj_str result) ;;
       str (expression ++ " = " ++ text))
    any_exception
    (fun e => str ("Error calculating '" ++ expression ++ "': " ++ exc_msg e)).

End Tools.
End LocalMultipleTools.

(** ** simple_demo.py, my_gradio_demo.py, my_agent_demo.py, quick_start.py *)

Module SimpleDemo.
Section Tools.
Context {R : PyRuntime}.

Definition simple_calculator (expression : string) : E json :=
  try_except_exception
    (result <~ py_eval_restricted expression ;;
     text <~ py_format_result result ;;
     finish (JStr ("Result: " ++ text)))
    (fun e =>
       message <~ py_exception_text e ;;
       finish (JStr ("Error: " ++ message))).

(** The fields of the f-string, from left to right.
    [platform.python_version()] reads the interpreter's own version
    string. *)
Definition get_system_info : M json :=
  system <- platform_query "system" host_system ;;
  release <- platform_query "release" host_release ;;
  let python_version := host_python in
  now <- datetime_now ;;
  platform <- platform_query "platform" host_platform ;;
  str ("System Information:" ++ nl
         ++ "- OS: " ++ system ++ " " ++ release ++ nl
         ++ "- Python: " ++ python_version ++ nl
         ++ "- Current Time: " ++ now ++ nl
         ++ "- Platform: " ++ platform).

End Tools.
End SimpleDemo.

Module MyGradioDemo.
Section Tools.
Context {R : PyRuntime}.

Definition calculate (expression : string) : E json :=
  try_except_exception
    (result <~ py_eval_restricted expression ;;
     text <~ py_format_result result ;;
     finish (JStr ("Result: " ++ text)))
    (fun e =>
       message <~ py_exception_text e ;;
       finish (JStr ("Error: " ++ message))).

End Tools.
End MyGradioDemo.

Module MyAgentDemo.
Section Tools.
Context {R : PyRuntime}.

Definition calculate (expression : string) : E json :=
  try_except_exception
    (result <~ py_eval_restricted expression ;;
     text <~ py_format_result result ;;
     finish (JStr ("The result of " ++ expression ++ " is " ++ text)))
    (fun e =>
       message <~ py_exception_text e ;;
       finish (JStr ("Error calculating " ++ expression ++ ": " ++ message))).

End Tools.
End MyAgentDemo.

Module QuickStart.

(** [a + b] on two [int]s. *)
Definition add_numbers (a b : Z) : Z := (a + b)%Z.

End QuickStart.

(** ** The tools of the two tool modules, as the demo drivers call them *)

Inductive tool {R : PyRuntime} :=
  | Demo_convert_currency (amount : num) (from_currency to_currency : string)
  | Demo_get_weather (location : string) (celsius : bool)
  | Demo_get_joke
  | Demo_get_random_fact
  | Demo_search_wikipedia (query : string)
  | Demo_calculate (expression : string)
  | Local_get_weather (location : string) (celsius : option bool)
  | Local_convert_currency (amount : num) (from_currency to_currency : string)
  | Local_get_joke
  | Local_get_random_fact
  | Local_search_wikipedia (query : string)
  | Local_calculate (expression : string).

Section Calls.
Context {R : PyRuntime}.

(** One invocation of a tool function with its arguments. *)
Definition call (t : tool) : M json :=
  match t with
  | Demo_convert_currency a f t => DemoTools.convert_currency a f t
  | Demo_get_weather l c => DemoTools.get_weather l c
  | Demo_get_joke => DemoTools.get_joke
  | Demo_get_random_fact => DemoTools.get_random_fact
  | Demo_search_wikipedia q => DemoTools.search_wikipedia q
  | Demo_calculate e => DemoTools.calculate e
  | Local_get_weather l c => LocalMultipleTools.get_weather l c
  | Local_convert_currency a f t => LocalMultipleTools.convert_currency a f t
  | Local_get_joke => LocalMultipleTools.get_joke
  | Local_get_random_fact => LocalMultipleTools.get_random_fact
  | Local_search_wikipedia q => LocalMultipleTools.search_wikipedia q
  | Local_calculate e => LocalMultipleTools.calculate e
  end.

Definition in_demo_tools (t : tool) : bool :=
  match t with
  | Demo_convert_currency _ _ _ | Demo_get_weather _ _ | Demo_get_joke
  | Demo_get_random_fact | Demo_search_wikipedia _ | Demo_calculate _ => true
  | _ => false
  end.

(** The two tools whose failure path calls [random.choice]. *)
Definition has_random_fallback (t : tool) : bool :=
  match t with
  | Demo_get_joke | Demo_get_random_fact => true
  | _ => false
  end.

Definition is_string (v : json) : Prop := exists s, v = JStr s.

(** Counting the events of one kind. *)
Definition is_http (ev : event) : bool :=
  match ev with EvHttpGet _ => true | _ => false end.
Definition is_print (ev : event) : bool :=
  match ev with EvPrint _ => true | _ => false end.
Definition is_eval (ev : event) : bool :=
  match ev with EvEval _ _ => true | _ => false end.

Definition count (kind : event -> bool) (evs : list event) : nat :=
  List.length (filter kind evs).

(** The request did not deliver a parsed body: [requests.get] raised,
    or [raise_for_status] did, or [json()] did. *)
Definition request_fails (w : World) (r : request) : Prop :=
  match http_get w r with
  | Raise _ => True
  | Return resp =>
      match status_error resp, json_body resp with
      | None, Return _ => False
      | _, _ => True
      end
  end.

(** The request delivered the parsed body [data]. *)
Definition answers (w : World) (r : request) (data : json) : Prop :=
  exists resp, http_get w r = Return resp
               /\ status_error resp = None
               /\ json_body resp = Return data.

(** No request gets through: each raises a [RequestException]. *)
Definition network_down (w : World) : Prop :=
  forall r, exists e, http_get w r = Raise e /\ is_request_exception e = true.





(** The body is an object without the field. *)
Definition lacks_field (data : json) (k : string) : Prop :=
  exists kvs, data = JObj kvs /\ lookup k kvs = None.

End Calls.

(** ** Every tool function of the repository *)

Inductive any_tool {R : PyRuntime} :=
  | Module_tool (t : tool)                    (* the twelve above *)
  | Simple_calculator (expression : string)   (* simple_demo.py *)
  | Get_system_info                           (* simple_demo.py *)
  | Gradio_calculate (expression : string)    (* my_gradio_demo.py *)
  | Agent_calculate (expression : string)     (* my_agent_demo.py *)
  | Add_numbers (a b : Z).                    (* quick_start.py *)

(** What a tool hands back: a JSON value (a string, as a rule), or the
    [int] of [add_numbers]. *)
Inductive result {R : PyRuntime} :=
  | Value (v : json)
  | Int (z : Z).

Section Invocations.
Context {R : PyRuntime}.

Definition invoke (t : any_tool) : E result :=
  match t with
  | Module_tool t => giving Value (escapable (call t))
  | Simple_calculator e => giving Value (SimpleDemo.simple_calculator e)
  | Get_system_info => giving Value (escapable SimpleDemo.get_system_info)
  | Gradio_calculate e => giving Value (MyGradioDemo.calculate e)
  | Agent_calculate e => giving Value (MyAgentDemo.calculate e)
  | Add_numbers a b => finish (Int (QuickStart.add_numbers a b))
  end.

(** The three tools that evaluate an expression without checking its
    characters. *)
Definition evaluates_freely (t : any_tool) : bool :=
  match t with
  | Simple_calculator _ | Gradio_calculate _ | Agent_calculate _ => true
  | _ => false
  end.




End Invocations.

(** The requests the tools of [demo_tools.py] and the free tier of
    [local_multiple_tools.py] send. *)
Definition joke_request : request :=
  mkRequest "https://v2.jokeapi.dev/joke/Programming?safe-mode&type=single"
            [] (Some 10).

Definition fact_request : request :=
  mkRequest "https://uselessfacts.jsph.pl/random.json?language=en"
            [("User-Agent", DemoTools.fact_user_agent)] (Some 10).

Definition rates_request (from_currency : string) (timeout : option nat) : request :=
  mkRequest ("https://api.exchangerate-api.com/v4/latest/" ++ from_currency)
            [] timeout.

(** ** Vocabulary of the statements *)

Section Vocabulary.
Context {R : PyRuntime}.

(** [sat Q E c]: a value [c] returns satisfies [Q], an exception it
    raises satisfies [E]. *)
Definition sat {A} (Q : A -> Prop) (E : exc -> Prop) (c : M A) : Prop :=
  forall w p, match fst (c w p) with Return a => Q a | Raise e => E e end.

Definition anything {A} (_ : A) : Prop := True.
Definition nothing {A} (_ : A) : Prop := False.

(** The exception is not one [except requests.RequestException]
    catches. *)
Definition not_request (e : exc) : Prop := is_request_exception e = false.

(** [pure c]: [c] neither reads nor changes the state of the process. *)
Definition pure {A} (c : M A) : Prop :=
  forall w, exists o, forall p, c w p = (o, p).

(** [tame h pr rnd c]: [c] leaves the environment and the files alone,
    adds at most [h] GET requests and [pr] printed lines to the trace,
    takes at most [rnd] draws from the generator, and its result
    depends on the state through the environment and the position of
    the generator only. *)
Definition tame {A} (h pr rnd : nat) (c : M A) : Prop :=
  forall w p,
    environ (snd (c w p)) = environ p
    /\ files (snd (c w p)) = files p
    /\ rng_pos p <= rng_pos (snd (c w p)) <= rng_pos p + rnd
    /\ (exists evs, trace (snd (c w p)) = (evs ++ trace p)%list
                    /\ count is_http evs <= h
                    /\ count is_print evs <= pr)
    /\ (forall q, environ q = environ p -> rng_pos q = rng_pos p ->
                  fst (c w q) = fst (c w p)
                  /\ rng_pos (snd (c w q)) = rng_pos (snd (c w p))).

(** [f] applied to what the first step returned, or the exception of
    the first step. *)
Definition and_also {A B} (o : outcome A) (f : A -> outcome B) : outcome B :=
  match o with
  | Return a => f a
  | Raise x => Raise x
  end.

(** The string [calculate] of [demo_tools.py] and of
    [local_multiple_tools.py] returns once the expression has passed the
    character check. *)
Definition demo_result (w : World) (e : string) : string :=
  match and_also (eval_plain w e) obj_str with
  | Return text => "🧮 " ++ e ++ " = " ++ text
  | Raise x => "❌ Error calculating '" ++ e ++ "': " ++ exc_msg x
  end.

Definition local_result (w : World) (e : string) : string :=
  match and_also (eval_plain w e) obj_str with
  | Return text => e ++ " = " ++ text
  | Raise x => "Error calculating '" ++ e ++ "': " ++ exc_msg x
  end.

(** What [result = eval(...)], the field [{result}] and, in the
    [except Exception] clause, [str(e)] make of an expression: the text
    of its value, or the message of the exception, unless what happens
    passes the clause. *)
Inductive verdict :=
  | Computed (text : string)
  | Failed (message : string).

Definition described (w : World) (x : exc) (p : Proc) : ending verdict * Proc :=
  match exception_text w x p with
  | (Ends (Return message), q) => (Ends (Return (Failed message)), q)
  | (Ends (Raise x'), q) => (Ends (Raise x'), q)
  | (Escapes name, q) => (Escapes name, q)
  end.

Definition evaluated (w : World) (e : string) (p : Proc) : ending verdict * Proc :=
  match eval_restricted w e (log (EvEval true e) p) with
  | (Ends (Return v), p1) =>
      match format_result w v p1 with
      | (Ends (Return text), p2) => (Ends (Return (Computed text)), p2)
      | (Ends (Raise x), p2) => described w x p2
      | (Escapes name, p2) => (Escapes name, p2)
      end
  | (Ends (Raise x), p1) => described w x p1
  | (Escapes name, p1) => (Escapes name, p1)
  end.

(** The verdict in the words of one evaluator. *)
Definition worded (computed failed : string -> string)
           (r : ending verdict * Proc) : ending json * Proc :=
  match r with
  | (Ends (Return (Computed text)), q) => (Ends (Return (JStr (computed text))), q)
  | (Ends (Return (Failed message)), q) => (Ends (Return (JStr (failed message))), q)
  | (Ends (Raise x), q) => (Ends (Raise x), q)
  | (Escapes name, q) => (Escapes name, q)
  end.

(** The lines a tool may print and the draws it may take from the
    random generator. *)
Definition prints (t : tool) : nat :=
  match t with Demo_get_random_fact => 1 | _ => 0 end.

Definition draws_taken (t : tool) : nat :=
  if has_random_fallback t then 1 else 0.

End Vocabulary.

(** ** A concrete runtime: Python restricted to integers

    [repr] of a string is exact for strings without quotes, backslashes
    and non-printable characters.  The sequences of this runtime are
    built whenever their length fits an index: its memory never runs
    out before. *)

Definition Z_str (z : Z) : string := NilZero.string_of_int (Z.to_int z).

(** The decimal digits of an [int]. *)
Definition Z_digits (z : Z) : nat := String.length (Z_str (Z.abs z)).

(** [int(float(z))]: the nearest [float], ties to the even one, with 53
    bits of precision; [None] from [2**1024 - 2**970] on, where the
    conversion raises [OverflowError]. *)
Definition Z_float (z : Z) : option Z :=
  let a := Z.abs z in
  let k := (Z.log2 a - 52)%Z in
  let rounded :=
    if (k <=? 0)%Z then a
    else
      let q := Z.shiftr a k in
      let r := Z.land a (Z.ones k) in
      let half := Z.shiftl 1 (k - 1) in
      let q' := if (half <? r)%Z || ((r =? half)%Z && Z.odd q)
                then (q + 1)%Z else q in
      Z.shiftl q' k in
  if (rounded <? Z.shiftl 1 1024)%Z then Some (Z.sgn z * rounded)%Z else None.

(** [format(z, '.Nf')]: the digits of the [float] nearest to [z]. *)
Definition Z_fmt (digits : nat) (z : Z) : option string :=
  match Z_float z with
  | None => None
  | Some f =>
      Some match digits with
           | O => Z_str f
           | S _ => Z_str f ++ "." ++ string_of_list_ascii (repeat "0"%char digits)
           end
  end.

Definition Z_repeat (a : Z) (n : nat) : option repeat_failure :=
  if (Z.abs a >=? Z.shiftl 1 63)%Z then Some CountTooLarge
  else if (a * Z.of_nat n >=? Z.shiftl 1 63)%Z then Some OutOfMemory
  else None.

(** [str(z)] *)
Definition Z_obj_str (z : Z) : outcome string :=
  if Nat.leb (Z_digits z) 4300 then Return (Z_str z) else Raise digits_error.

Definition IntRuntime : PyRuntime := {|
  num := Z;
  num_mul := fun a b => Some (a * b)%Z;
  num_repeat := Z_repeat;
  num_of_bool := fun b => if b then 1%Z else 0%Z;
  num_is_zero := Z.eqb 0;
  num_printable := fun z => Nat.leb (Z_digits z) 4300;
  num_str := Z_str;
  num_fmt := Z_fmt;
  num_type := fun _ => "int";
  str_repr := quoted;
  pyobj := Z;
  obj_str := Z_obj_str;
  host_system := "Linux";
  host_release := "6.1.0-18-amd64";
  host_python := "3.11.2";
  host_platform := "Linux-6.1.0-18-amd64-x86_64-with-glibc2.36"
|}.

(** ** Sample worlds

    Concrete worlds over [IntRuntime] on which the tools are run below.
    The evaluator of a sample world is given at the expressions the
    examples use; elsewhere it raises, which no example reaches. *)

Definition p0 : Proc := mkProc [] [] 0 [].

Definition idle_eval : string -> outcome Z :=
  fun _ => Raise (mkExc OtherException "invalid syntax").

(** A world whose evaluations touch nothing and warn of nothing, whose
    objects and exceptions print as the runtime has it, whose generator
    draws 0, 1, 2, ... and whose clock shows noon. *)
Definition sample_world (http : request -> outcome (response (R := IntRuntime)))
           (plain restricted : string -> outcome Z) : World (R := IntRuntime) :=
  @mkWorld IntRuntime http plain (fun _ => [])
           (fun e p => (Ends (restricted e), p))
           (fun v p => (Ends (Z_obj_str v), p))
           (fun x p => (Ends (Return (exc_msg x)), p))
           (fun n => n)
           "2025-06-01 12:00:00".

(** Every request fails with a [ConnectionError]; the generator draws
    0, 1, 2, ... *)
Definition world_down : World (R := IntRuntime) :=
  sample_world (fun _ => Raise (mkExc RequestException "connection refused"))
          idle_eval idle_eval.

(** Every request is answered 200 with the body [{}]. *)
Definition world_empty_object : World (R := IntRuntime) :=
  sample_world (fun _ => Return (mkResponse None (Return (JObj []))))
          idle_eval idle_eval.

(** [eval("7%3", {"__builtins__": {}}, {})] is 1. *)
Definition world_modulo : World (R := IntRuntime) :=
  sample_world
          (fun _ => Raise (mkExc RequestException "connection refused"))
          idle_eval
          (fun e => if String.eqb e "7%3" then Return 1%Z else idle_eval e).

(** [eval("2*3")] is 6. *)
Definition world_product : World (R := IntRuntime) :=
  sample_world
          (fun _ => Raise (mkExc RequestException "connection refused"))
          (fun e => if String.eqb e "2*3" then Return 6%Z else idle_eval e)
          idle_eval.

(** Every request is answered 200 with the body
    [{"rates": {"EUR": 2}}]. *)
Definition world_rates : World (R := IntRuntime) :=
  sample_world
          (fun _ => Return (mkResponse None
                     (Return (@JObj IntRuntime
                                [("rates", @JObj IntRuntime
                                             [("EUR", @JNum IntRuntime 2%Z)])]))))
          idle_eval idle_eval.

(** Every request is answered 200 with a WeatherStack report. *)
Definition weather_report : json (R := IntRuntime) :=
  @JObj IntRuntime
    [ ("location", @JObj IntRuntime
         [ ("name", @JStr IntRuntime "London");
           ("country", @JStr IntRuntime "United Kingdom") ]);
      ("current", @JObj IntRuntime
         [ ("weather_descriptions", @JArr IntRuntime [@JStr IntRuntime "Sunny"]);
           ("temperature", @JNum IntRuntime 70%Z);
           ("feelslike", @JNum IntRuntime 68%Z);
           ("humidity", @JNum IntRuntime 40%Z);
           ("wind_speed", @JNum IntRuntime 5%Z) ]) ].

Definition world_weather : World (R := IntRuntime) :=
  sample_world (fun _ => Return (mkResponse None (Return weather_report)))
          idle_eval idle_eval.

(** A process with the WeatherStack key configured. *)
Definition p_key : Proc := mkProc [("WEATHERSTACK_API_KEY", "k3y")] [] 0 [].

(** Every request is answered 200 with the body [data]. *)
Definition world_body (data : json (R := IntRuntime)) : World (R := IntRuntime) :=
  sample_world (fun _ => Return (mkResponse None (Return data)))
          idle_eval idle_eval.

(** Every request ends in the exception [e]. *)
Definition world_raising (e : exc) : World (R := IntRuntime) :=
  sample_world (fun _ => Raise e) idle_eval idle_eval.

(** Every request is answered 404: [raise_for_status] raises. *)
Definition world_not_found : World (R := IntRuntime) :=
  sample_world
          (fun _ => Return (mkResponse (Some "404 Client Error: Not Found")
                                       (Return (@JObj IntRuntime []))))
          idle_eval idle_eval.

(** ** The requests of the other tools *)

Definition summary_endpoint : string :=
  "https://en.wikipedia.org/api/rest_v1/page/summary/".

(** The [f"...access_key={api_key}&query={location}&units={units}"] of
    both [get_weather] functions. *)
Definition weather_url (api_key location : string) (celsius : bool) : string :=
  "http://api.weatherstack.com/current?access_key=" ++ api_key
    ++ "&query=" ++ location ++ "&units=" ++ (if celsius then "m" else "f").

Definition demo_summary_request (query : string) : request :=
  mkRequest (summary_endpoint ++ replace_char " " "_" query)
            [("User-Agent", DemoTools.wikipedia_user_agent)] (Some 10).

Definition local_summary_request (query : string) : request :=
  mkRequest (summary_endpoint ++ query) [] None.

Definition demo_weather_request (api_key location : string) (celsius : bool)
  : request :=
  mkRequest (weather_url api_key location celsius) [] (Some 10).

Definition local_weather_request (api_key location : string)
           (celsius : option bool) : request :=
  mkRequest (weather_url api_key location
               (match celsius with Some true => true | _ => false end)) [] None.

(** The keyed endpoint of [convert_currency] in [local_multiple_tools.py]. *)
Definition pair_request (api_key from_currency to_currency : string) : request :=
  mkRequest ("https://v6.exchangerate-api.com/v6/" ++ api_key ++ "/pair/"
               ++ from_currency ++ "/" ++ to_currency) [] None.

Definition local_joke_request : request :=
  mkRequest "https://v2.jokeapi.dev/joke/Any?safe-mode&type=single" [] None.

Definition ninjas_request (headers : list (string * string)) : request :=
  mkRequest "https://api.api-ninjas.com/v1/facts" headers None.

(** [" " in s] *)
Definition has_blank (s : string) : bool := char_in " " s.

Section Failures.
Context {R : PyRuntime}.

(** What the three request statements [requests.get(...)],
    [raise_for_status()], [json()] deliver together: the parsed body, or
    the exception of the first that raises. *)
Definition fetched (w : World) (r : request) : outcome json :=
  match http_get w r with
  | Raise e => Raise e
  | Return resp =>
      match status_error resp with
      | Some msg => Raise (mkExc RequestException msg)
      | None => json_body resp
      end
  end.

(** What the subscription [d[k]] raises when [d] is an object without
    the key. *)
Definition missing_key (k : string) : exc := mkExc KeyError (quoted k).

End Failures.

(** ** The demo drivers *)

(** [c * n] for a one-character string. *)
Definition str_times (c : ascii) (n : nat) : string :=
  string_of_list_ascii (repeat c n).

Section Drivers.
Context {R : PyRuntime}.

(** The number an integer literal of the source denotes. *)
Variable int_literal : Z -> num.

(** [for item in items: body(item)] *)
Fixpoint for_each {A} (items : list A) (body : A -> M unit) : M unit :=
  match items with
  | [] => ret tt
  | item :: rest => body item ;;; for_each rest body
  end.

(** The [demos] list of [run_comprehensive_demo]: titles and thunks. *)
Definition demos : list (string * M json) :=
  [ ("💱 Currency Conversion",
     DemoTools.convert_currency (int_literal 1000) "USD" "EUR");
    ("🌡️ Weather Check", DemoTools.get_weather "London" false);
    ("😄 Programming Joke", DemoTools.get_joke);
    ("🧠 Random Fact", DemoTools.get_random_fact);
    ("🔍 Wikipedia Search", DemoTools.search_wikipedia "Artificial Intelligence");
    ("🧮 Calculator", DemoTools.calculate "(1000 * 0.85) + 150") ].

(** One turn of the loop of [run_comprehensive_demo]. *)
Definition demo_turn (demo : string * M json) : M unit :=
  let (title, func) := demo in
  print (nl ++ title) ;;;
  print (str_times "-" 30) ;;;
  try_except
    (result <- func ;; print (py_str result))
    any_exception
    (fun e => print ("❌ Error: " ++ exc_msg e)).

(** [run_comprehensive_demo] of [demo_tools.py]. *)
Definition run_comprehensive_demo : M unit :=
  print "🚀 Smolagents Multi-Tool Demo" ;;;
  print (str_times "=" 50) ;;;
  for_each demos demo_turn ;;;
  print (nl ++ str_times "=" 50) ;;;
  print "✅ Demo complete! All tools are working independently." ;;;
  print "💡 These tools can be integrated with any LLM agent framework.".

(** [run_tool_demos] of [local_multiple_tools.py].  The [@tool]
    decorator is taken to hand a direct call through to the function. *)
Definition run_tool_demos : M unit :=
  print ("=== Tool Demonstrations ===" ++ nl) ;;;
  print "1. Currency Conversion (5000 USD to EUR):" ;;;
  result <- LocalMultipleTools.convert_currency (int_literal 5000) "USD" "EUR" ;;
  print ("   " ++ py_str result ++ nl) ;;;
  print "2. Simple Calculation:" ;;;
  result <- LocalMultipleTools.calculate "5000 * 0.85" ;;
  print ("   " ++ py_str result ++ nl) ;;;
  print "3. Random Joke:" ;;;
  result <- LocalMultipleTools.get_joke ;;
  print ("   " ++ py_str result ++ nl) ;;;
  print "4. Random Fact:" ;;;
  result <- LocalMultipleTools.get_random_fact ;;
  print ("   " ++ py_str result ++ nl) ;;;
  print "5. Wikipedia Search (Python):" ;;;
  result <- LocalMultipleTools.search_wikipedia "Python_programming_language" ;;
  print ("   " ++ take_chars 200 (py_str result) ++ "..." ++ nl) ;;;
  print "6. Weather (if API key configured):" ;;;
  result <- LocalMultipleTools.get_weather "New York" (Some false) ;;
  print ("   " ++ py_str result ++ nl).

(** A line the [except] clause of [run_comprehensive_demo] would
    print. *)
Definition driver_error_line (line : string) : bool :=
  String.prefix "❌ Error: " line.

Definition printed (evs : list event) : list string :=
  flat_map (fun ev => match ev with EvPrint line => [line] | _ => [] end) evs.

(** [prints_only L Q E c]: every line [c] prints satisfies [L], a value
    it returns satisfies [Q], an exception it raises satisfies [E]. *)
Definition prints_only {A} (L : string -> Prop) (Q : A -> Prop) (E : exc -> Prop)
           (c : M A) : Prop :=
  forall w p,
    (exists evs, trace (snd (c w p)) = (evs ++ trace p)%list
                 /\ Forall L (printed evs))
    /\ match fst (c w p) with Return a => Q a | Raise e => E e end.

(** The line is not one of the driver's [except] clause. *)
Definition tool_line (line : string) : Prop := driver_error_line line = false.

(** The value is a string fit to be printed as a tool's result. *)
Definition tool_result (v : json) : Prop :=
  exists s, v = JStr s /\ tool_line s.

End Drivers.

(** ** What a tool writes, and when it is repeated with the same result *)

Section Observations.
Context {R : PyRuntime}.

(** The lines among the events that went to standard error, the first
    one first. *)
Definition written (evs : list event) : list string :=
  flat_map (fun ev => match ev with EvStderr line => [line] | _ => [] end)
           (rev evs).

(** The questions among the events that went to the [platform]
    module, the first one first. *)
Definition asked (evs : list event) : list string :=
  flat_map (fun ev => match ev with EvPlatform query => [query] | _ => [] end)
           (rev evs).

(** The exception that takes [get_random_fact] of [demo_tools.py] from
    its [try] block to the [except] clause: the one of the request, of
    ["text" in data] or of [data["text"]]. *)
Definition fact_failure (w : World) : option exc :=
  match fetched w fact_request with
  | Raise x => Some x
  | Return data =>
      match py_in "text" data with
      | Raise x => Some x
      | Return false => None
      | Return true =>
          match py_getitem data "text" with
          | Raise x => Some x
          | Return _ => None
          end
      end
  end.

(** The lines a tool prints to standard output. *)
Definition stdout_lines (t : any_tool) (w : World) : list string :=
  match t with
  | Module_tool Demo_get_random_fact =>
      match fact_failure w with
      | Some x => ["Primary fact API failed: " ++ exc_msg x]
      | None => []
      end
  | _ => []
  end.

(** The lines the interpreter writes to standard error during a call:
    the warnings of the compiler on the expression [calculate]
    evaluates. *)
Definition stderr_lines (t : any_tool) (w : World) : list string :=
  match t with
  | Module_tool (Demo_calculate e) | Module_tool (Local_calculate e) =>
      if all_allowed e then eval_warnings w e else []
  | _ => []
  end.

(** What a tool asks the [platform] module. *)
Definition platform_queries (t : any_tool) : list string :=
  match t with
  | Get_system_info => ["system"; "release"; "platform"]
  | _ => []
  end.



(** [quiet c]: [c] writes nothing, neither to standard output nor to
    standard error, and asks the [platform] module nothing. *)
Definition quiet {A} (c : M A) : Prop :=
  forall w p, exists evs, trace (snd (c w p)) = (evs ++ trace p)%list
                          /\ printed evs = [] /\ written evs = []
                          /\ asked evs = [].

End Observations.

(** ** Sample bodies and processes *)

Section SampleBodies.
#[local] Existing Instance IntRuntime.

(** A Wikipedia summary without title and links. *)
Definition body_bare_summary : json :=
  JObj [("extract", JStr "Rocq is a proof assistant.")].

(** A summary whose extract is empty. *)
Definition body_empty_extract : json := JObj [("extract", JStr EmptyString)].

(** A summary whose [content_urls] is [null]. *)
Definition body_null_urls : json :=
  JObj [("extract", JStr "Rocq is a proof assistant."); ("content_urls", JNull)].

(** WeatherStack's error answer, sent with status 200. *)
Definition body_weather_error : json :=
  JObj [ ("success", JBool false);
         ("error", JObj [("code", JNum 615%Z); ("info", JStr "Your API request failed.")]) ].

(** A report with no weather description. *)
Definition body_no_description : json :=
  JObj [ ("location", JObj [("name", JStr "London"); ("country", JStr "United Kingdom")]);
         ("current", JObj [("weather_descriptions", JArr [])]) ].

(** A report without the wind speed. *)
Definition body_no_wind : json :=
  JObj [ ("location", JObj [("name", JStr "London"); ("country", JStr "United Kingdom")]);
         ("current", JObj [ ("weather_descriptions", JArr [JStr "Sunny"]);
                            ("temperature", JNum 21%Z);
                            ("feelslike", JNum 20%Z);
                            ("humidity", JNum 40%Z) ]) ].



(** Answers of JokeAPI. *)
Definition body_single_joke : json :=
  JObj [("error", JBool false); ("type", JStr "single"); ("joke", JStr "Knock knock.")].

Definition body_twopart_joke : json :=
  JObj [ ("error", JBool false); ("type", JStr "twopart");
         ("setup", JStr "Knock knock."); ("delivery", JStr "Who is there?") ].

Definition body_joke_error : json :=
  JObj [("error", JBool true); ("type", JStr "single"); ("joke", JStr "Knock knock.")].

(** A joke that is a number. *)
Definition body_number_joke : json :=
  JObj [("error", JBool false); ("type", JStr "single"); ("joke", JNum 42%Z)].

(** A single joke without the [error] flag. *)
Definition body_joke_no_flag : json :=
  JObj [("type", JStr "single"); ("joke", JStr "Knock knock.")].

(** Answers of the two fact services. *)
Definition body_text_fact : json := JObj [("text", JStr "Bananas are berries.")].

Definition body_fact_list : json :=
  JArr [JObj [("fact", JStr "Bananas are berries.")]].

End SampleBodies.


Definition p_ninjas_key : Proc := mkProc [("API_NINJAS_KEY", "k3y")] [] 0 [].

(** A process whose WeatherStack key is the empty string. *)
Definition p_empty_key : Proc := mkProc [("WEATHERSTACK_API_KEY", EmptyString)] [] 0 [].

(** ** Expressions that leave the emptied builtins behind

    [().__class__.__base__] is [object], whose subclasses include
    [os._wrap_close]; the globals of its [__init__] are those of the
    module [os]. *)

Definition os_globals : string :=
  "[c for c in ().__class__.__base__.__subclasses__() if c.__name__ == '_wrap_close'][0].__init__.__globals__".

(** Sets the environment variable [DEMO_FLAG] and evaluates to 1. *)
Definition set_flag_expression : string :=
  os_globals ++ "['environ'].update(DEMO_FLAG='1') or 1".

(** Evaluates to [time.time_ns()]. *)
Definition time_expression : string :=
  os_globals ++ "['sys'].modules['builtins'].__import__('time').time_ns()".

(** Calls [sys.exit(3)]. *)
Definition exit_expression : string := os_globals ++ "['sys'].exit(3)".

Definition setenv (name value : string) (p : Proc) : Proc :=
  mkProc ((name, value) :: environ p) (files p) (rng_pos p) (trace p).

(** A world with the network down, at the time [time_ns] on the clock,
    shown as [now], that evaluates the three expressions above. *)
Definition world_at (time_ns : Z) (now : string) : World (R := IntRuntime) :=
  @mkWorld IntRuntime
           (fun _ => Raise (mkExc RequestException "connection refused"))
           idle_eval (fun _ => [])
           (fun e p =>
              if String.eqb e set_flag_expression
              then (Ends (Return 1%Z), setenv "DEMO_FLAG" "1" p)
              else if String.eqb e time_expression then (Ends (Return time_ns), p)
              else if String.eqb e exit_expression then (Escapes "SystemExit", p)
              else (Ends (idle_eval e), p))
           (fun v p => (Ends (Z_obj_str v), p))
           (fun x p => (Ends (Return (exc_msg x)), p))
           (fun n => n)
           now.

Definition world_noon : World (R := IntRuntime) :=
  world_at 1748779200000000000 "2025-06-01 12:00:00".


(** The compiler's warning on ["(2)(3)"], and the [TypeError] of its
    evaluation. *)
Definition call_warning : string :=
  "<string>:1: SyntaxWarning: 'int' object is not callable; perhaps you missed a comma?".

(** A world with the network down in which ["(2)(3)"] warns and raises,
    and ["10**4300"] evaluates to the number. *)
Definition world_expressions : World (R := IntRuntime) :=
  @mkWorld IntRuntime
           (fun _ => Raise (mkExc RequestException "connection refused"))
           (fun e => if String.eqb e "(2)(3)"
                     then Raise (mkExc TypeError "'int' object is not callable")
                     else if String.eqb e "10**4300" then Return (10 ^ 4300)%Z
                     else idle_eval e)
           (fun e => if String.eqb e "(2)(3)" then [call_warning] else [])
           (fun e p => (Ends (idle_eval e), p))
           (fun v p => (Ends (Z_obj_str v), p))
           (fun x p => (Ends (Return (exc_msg x)), p))
           (fun n => n)
           "2025-06-01 12:00:00".

Section SampleRates.
#[local] Existing Instance IntRuntime.



(** The keyed answer with such a rate. *)
Definition body_pair_huge : json :=
  JObj [("result", JStr "success"); ("conversion_rate", JNum (10 ^ 400)%Z)].

End SampleRates.

(** * Reasoning rules for tool bodies *)

Section Rules.
Context {R : PyRuntime}.

Lemma sat_ret {A} (Q : A -> Prop) E (a : A) : Q a -> sat Q E (ret a).
Proof. intros H w p. exact H. Qed.

Lemma sat_str Q E (s : string) : Q (JStr s) -> sat Q E (str s).
Proof. apply sat_ret. Qed.

Lemma sat_lift {A} (Q : A -> Prop) (o : outcome A) :
  (forall a, o = Return a -> Q a) -> sat Q anything (lift o).
Proof. intros H w p. cbn. destruct o; [auto | exact I]. Qed.

Lemma sat_bind {A B} (P : A -> Prop) (Q : B -> Prop) E (c : M A) (k : A -> M B) :
  sat P E c -> (forall a, P a -> sat Q E (k a)) -> sat Q E (bind c k).
Proof.
  intros Hc Hk w p. unfold bind. specialize (Hc w p).
  destruct (c w p) as [[a | e] p']; cbn in *.
  - apply (Hk a Hc w p').
  - exact Hc.
Qed.

Lemma sat_anything {A} (c : M A) : sat anything anything c.
Proof. intros w p. destruct (fst (c w p)); exact I. Qed.

(** Inside a [try] body whose exceptions are all handled, only the
    continuation matters. *)
Lemma sat_bind_body {A B} (Q : B -> Prop) (c : M A) (k : A -> M B) :
  (forall a, sat Q anything (k a)) -> sat Q anything (bind c k).
Proof.
  intro Hk. apply sat_bind with (P := anything).
  - apply sat_anything.
  - intros a _. apply Hk.
Qed.

Lemma sat_try {A} (Q : A -> Prop) E (body : M A) catches handler :
  sat Q anything body ->
  (forall e, catches e = true -> sat Q E (handler e)) ->
  (forall e, catches e = false -> E e) ->
  sat Q E (try_except body catches handler).
Proof.
  intros Hb Hh Hu w p. unfold try_except. specialize (Hb w p).
  destruct (body w p) as [[a | e] p']; cbn in *.
  - exact Hb.
  - destruct (catches e) eqn:Hc.
    + apply (Hh e Hc w p').
    + cbn. apply Hu, Hc.
Qed.

Lemma sat_getenv Q E name : (forall v, Q v) -> sat Q E (getenv name).
Proof. intros H w p. apply H. Qed.

Lemma sat_random_choice E (x : string) (l : list string) :
  sat (fun s => In s (x :: l)) E (random_choice (x :: l)).
Proof.
  intros w p. unfold random_choice. cbn [fst].
  apply nth_In. apply Nat.mod_upper_bound. discriminate.
Qed.

Lemma sat_print Q E line : Q tt -> sat Q E (print line).
Proof. intros H w p. exact H. Qed.

Lemma pure_lift {A} (o : outcome A) : pure (lift o).
Proof. intros w. exists o. reflexivity. Qed.

Lemma pure_ret {A} (a : A) : pure (ret a).
Proof. intros w. exists (Return a). reflexivity. Qed.

Lemma pure_str s : pure (str s).
Proof. apply pure_ret. Qed.

Lemma pure_item d k : pure (item d k).
Proof. apply pure_lift. Qed.

Lemma pure_raise_for_status resp : pure (raise_for_status resp).
Proof.
  intros w. unfold raise_for_status. destruct (status_error resp); eexists; reflexivity.
Qed.

Lemma pure_response_json resp : pure (response_json resp).
Proof. apply pure_lift. Qed.

Lemma pure_bind {A B} (c : M A) (k : A -> M B) :
  pure c -> (forall a, pure (k a)) -> pure (bind c k).
Proof.
  intros Hc Hk w. destruct (Hc w) as [[a | e] Ho].
  - destruct (Hk a w) as [o' Ho']. exists o'. intros p.
    unfold bind. rewrite Ho. apply Ho'.
  - exists (Raise e). intros p. unfold bind. rewrite Ho. reflexivity.
Qed.

Lemma pure_and_then (a b : M bool) : pure a -> pure b -> pure (and_then a b).
Proof.
  intros Ha Hb. apply pure_bind; [ exact Ha | ].
  intros [ | ]; [ exact Hb | apply pure_ret ].
Qed.

Lemma count_app kind (l1 l2 : list event) :
  count kind (l1 ++ l2)%list = count kind l1 + count kind l2.
Proof. unfold count. rewrite filter_app, length_app. reflexivity. Qed.

Lemma tame_pure {A} (c : M A) : pure c -> tame 0 0 0 c.
Proof.
  intros Hc w p. destruct (Hc w) as [o Ho]. rewrite Ho. cbn.
  repeat split; try lia.
  - exists []. cbn. repeat split; lia.
  - rewrite Ho. reflexivity.
  - rewrite Ho. cbn. assumption.
Qed.

Lemma tame_mono {A} h pr rnd h' pr' rnd' (c : M A) :
  h <= h' -> pr <= pr' -> rnd <= rnd' -> tame h pr rnd c -> tame h' pr' rnd' c.
Proof.
  intros Hh Hp Hr Hc w p.
  destruct (Hc w p) as (He & Hf & Hrng & (evs & Ht & H1 & H2) & Hdet).
  repeat split; trivial; try lia; try apply Hdet; trivial.
  exists evs. repeat split; trivial; lia.
Qed.

Lemma tame_bind {A B} h1 pr1 r1 h2 pr2 r2 (c : M A) (k : A -> M B) :
  tame h1 pr1 r1 c -> (forall a, tame h2 pr2 r2 (k a)) ->
  tame (h1 + h2) (pr1 + pr2) (r1 + r2) (bind c k).
Proof.
  intros Hc Hk w p.
  destruct (Hc w p) as (He & Hf & Hrng & (evs & Ht & H1 & H2) & Hdet).
  assert (Hq : forall q, environ q = environ p -> rng_pos q = rng_pos p ->
               fst (bind c k w q) = fst (bind c k w p)
               /\ rng_pos (snd (bind c k w q)) = rng_pos (snd (bind c k w p))).
  { intros q Hqe Hqr. destruct (Hdet q Hqe Hqr) as [Hfst Hpos].
    destruct (Hc w q) as (Heq & _). unfold bind.
    destruct (c w p) as [[a | e] p'], (c w q) as [[a' | e'] q']; cbn in *;
      try discriminate Hfst.
    - injection Hfst as ->.
      destruct (Hk a w p') as (_ & _ & _ & _ & Hdet').
      apply Hdet'; congruence.
    - injection Hfst as ->. split; [ reflexivity | assumption ]. }
  unfold bind in *. destruct (c w p) as [[a | e] p']; cbn in *.
  - destruct (Hk a w p') as (He' & Hf' & Hrng' & (evs' & Ht' & H1' & H2') & _).
    rewrite He', Hf', Ht', Ht. repeat split; trivial; try lia; try apply Hq; trivial.
    exists (evs' ++ evs)%list. rewrite app_assoc, !count_app.
    repeat split; trivial; lia.
  - repeat split; trivial; try lia; try apply Hq; trivial.
    exists evs. repeat split; trivial; lia.
Qed.

Lemma tame_try {A} h1 pr1 r1 h2 pr2 r2 (body : M A) catches handler :
  tame h1 pr1 r1 body -> (forall e, tame h2 pr2 r2 (handler e)) ->
  tame (h1 + h2) (pr1 + pr2) (r1 + r2) (try_except body catches handler).
Proof.
  intros Hc Hk w p.
  destruct (Hc w p) as (He & Hf & Hrng & (evs & Ht & H1 & H2) & Hdet).
  assert (Hq : forall q, environ q = environ p -> rng_pos q = rng_pos p ->
               fst (try_except body catches handler w q)
                 = fst (try_except body catches handler w p)
               /\ rng_pos (snd (try_except body catches handler w q))
                  = rng_pos (snd (try_except body catches handler w p))).
  { intros q Hqe Hqr. destruct (Hdet q Hqe Hqr) as [Hfst Hpos].
    destruct (Hc w q) as (Heq & _). unfold try_except.
    destruct (body w p) as [[a | e] p'], (body w q) as [[a' | e'] q']; cbn in *;
      try discriminate Hfst.
    - injection Hfst as ->. split; [ reflexivity | assumption ].
    - injection Hfst as ->. destruct (catches e).
      + destruct (Hk e w p') as (_ & _ & _ & _ & Hdet').
        apply Hdet'; congruence.
      + split; [ reflexivity | assumption ]. }
  unfold try_except in *. destruct (body w p) as [[a | e] p']; cbn in *.
  - repeat split; trivial; try lia; try apply Hq; trivial.
    exists evs. repeat split; trivial; lia.
  - destruct (catches e).
    + destruct (Hk e w p') as (He' & Hf' & Hrng' & (evs' & Ht' & H1' & H2') & _).
      rewrite He', Hf', Ht', Ht. repeat split; trivial; try lia; try apply Hq; trivial.
      exists (evs' ++ evs)%list. rewrite app_assoc, !count_app.
      repeat split; trivial; lia.
    + cbn. repeat split; trivial; try lia; try apply Hq; trivial.
      exists evs. repeat split; trivial; lia.
Qed.

Lemma tame_getenv name : tame 0 0 0 (getenv name).
Proof.
  intros w p. cbn. repeat split; try lia; try congruence.
  exists []. cbn. repeat split; lia.
Qed.

Lemma tame_requests_get url headers timeout :
  tame 1 0 0 (requests_get url headers timeout).
Proof.
  intros w p. cbn. repeat split; try lia; try congruence.
  exists [EvHttpGet (mkRequest url headers timeout)]. cbn. repeat split; lia.
Qed.

Lemma tame_print line : tame 0 1 0 (print line).
Proof.
  intros w p. cbn. repeat split; try lia; try congruence.
  exists [EvPrint line]. cbn. repeat split; lia.
Qed.

(** Lines on standard error are neither requests nor printed lines. *)
Lemma count_stderr kind (lines : list string) :
  (forall line, kind (EvStderr line) = false) ->
  count kind (rev (map EvStderr lines)) = 0.
Proof.
  intros Hk. unfold count. induction lines as [ | l ls IH]; [ reflexivity | ].
  cbn [map rev]. rewrite filter_app, length_app, IH. cbn. rewrite Hk. reflexivity.
Qed.

Lemma py_eval_state expression w p :
  trace (snd (py_eval expression w p))
  = ((rev (map EvStderr (eval_warnings w expression)) ++ [EvEval false expression])
       ++ trace p)%list.
Proof. cbn. rewrite <- app_assoc. reflexivity. Qed.

Lemma tame_py_eval expression : tame 0 0 0 (py_eval expression).
Proof.
  intros w p. repeat split; try (cbn; lia); try (cbn; congruence).
  eexists. split; [ apply py_eval_state | ].
  rewrite !count_app, !count_stderr by reflexivity. cbn. lia.
Qed.

Lemma tame_random_choice seq : tame 0 0 1 (random_choice seq).
Proof.
  intros w p. unfold random_choice.
  destruct seq as [ | x l]; cbn [fst snd environ files rng_pos trace];
    repeat split; try lia; try congruence;
    try (exists []; cbn; repeat split; lia).
Qed.

End Rules.

(** * The tools return strings *)

Ltac str_done := apply sat_str; eexists; reflexivity.

(** Walks a [try] body statement by statement. *)
Ltac walk_body :=
  repeat first
    [ str_done
    | apply sat_bind_body; intros
    | match goal with
      | |- sat _ _ (if ?b then _ else _) => destruct b
      | |- sat _ _ (match ?x with Some _ => _ | None => _ end) => destruct x
      end ].

Section Strings.
Context {R : PyRuntime}.

Lemma demo_convert_currency_string amount f t :
  sat is_string nothing (DemoTools.convert_currency amount f t).
Proof.
  apply sat_try; [ cbv zeta; walk_body | intros; str_done | discriminate ].
Qed.

Lemma demo_get_weather_string location celsius :
  sat is_string nothing (DemoTools.get_weather location celsius).
Proof.
  unfold DemoTools.get_weather.
  apply sat_bind with (P := anything); [ apply sat_getenv; exact (fun _ => I) | ].
  intros k _. destruct (key_set k); [ | str_done ].
  apply sat_try; [ cbv zeta; walk_body | intros; str_done | discriminate ].
Qed.

Lemma demo_get_joke_string : sat is_string nothing DemoTools.get_joke.
Proof.
  apply sat_try; [ cbv zeta; walk_body | | discriminate ].
  intros e _. eapply sat_bind; [ apply sat_random_choice | ].
  intros; str_done.
Qed.

Lemma demo_get_random_fact_string : sat is_string nothing DemoTools.get_random_fact.
Proof.
  unfold DemoTools.get_random_fact.
  apply sat_bind
    with (P := fun r => match r with Some v => is_string v | None => True end).
  - apply sat_try; [ cbv zeta | | discriminate ].
    + repeat (apply sat_bind_body; intros).
      match goal with |- sat _ _ (if ?b then _ else _) => destruct b end.
      * apply sat_bind_body; intros. apply sat_ret. eexists; reflexivity.
      * apply sat_ret. exact I.
    + intros e _. apply sat_bind with (P := anything); [ apply sat_print; exact I | ].
      intros; apply sat_ret; exact I.
  - intros [v | ] Hv.
    + apply sat_ret. exact Hv.
    + eapply sat_bind; [ apply sat_random_choice | ]. intros; str_done.
Qed.

Lemma demo_search_wikipedia_string query :
  sat is_string nothing (DemoTools.search_wikipedia query).
Proof.
  apply sat_try; [ cbv zeta; walk_body | intros; str_done | discriminate ].
Qed.

Lemma demo_calculate_string expression :
  sat is_string nothing (DemoTools.calculate expression).
Proof.
  apply sat_try; [ walk_body | intros; str_done | discriminate ].
Qed.

End Strings.

Ltac run_tool :=
  cbv [call DemoTools.convert_currency DemoTools.get_weather DemoTools.get_joke
       DemoTools.get_random_fact DemoTools.search_wikipedia DemoTools.calculate
       LocalMultipleTools.convert_currency LocalMultipleTools.get_weather
       LocalMultipleTools.get_joke LocalMultipleTools.get_random_fact
       LocalMultipleTools.search_wikipedia LocalMultipleTools.calculate
       try_except bind ret raise lift str item and_then getenv requests_get
       raise_for_status response_json print py_eval any_exception].

Section LocalStrings.
Context {R : PyRuntime}.

Ltac guarded_try :=
  apply sat_try;
  [ apply sat_anything | intros; apply sat_str; exact I | intros e He; exact He ].

(** No tool of [local_multiple_tools.py] lets a [RequestException]
    through. *)
Lemma local_no_request_exception t :
  in_demo_tools t = false -> sat anything not_request (call t).
Proof.
  destruct t; try discriminate; intros _; cbn [call].
  - unfold LocalMultipleTools.get_weather.
    apply sat_bind with (P := anything); [ apply sat_getenv; exact (fun _ => I) | ].
    intros k _. destruct (key_set k); [ guarded_try | apply sat_str; exact I ].
  - unfold LocalMultipleTools.convert_currency.
    apply sat_bind with (P := anything); [ apply sat_getenv; exact (fun _ => I) | ].
    intros k _. cbv zeta. guarded_try.
  - guarded_try.
  - unfold LocalMultipleTools.get_random_fact.
    apply sat_bind with (P := anything); [ apply sat_getenv; exact (fun _ => I) | ].
    intros k _. cbv zeta. guarded_try.
  - guarded_try.
  - apply sat_try; [ apply sat_anything | intros; apply sat_str; exact I | discriminate ].
Qed.

(** With the network down each of them returns its fallback string. *)
Lemma local_string_when_down t w p :
  in_demo_tools t = false -> network_down w ->
  exists s, fst (call t w p) = Return (JStr s).
Proof.
  intros Ht Hdown. destruct t; try discriminate; run_tool; cbn.
  - destruct (key_set _); cbn; [ | eexists; reflexivity ].
    match goal with |- context [http_get w ?r] =>
      destruct (Hdown r) as (e & -> & He) end.
    rewrite He. cbn. eexists; reflexivity.
  - match goal with |- context [http_get w ?r] =>
      destruct (Hdown r) as (e & -> & He) end.
    rewrite He. cbn. eexists; reflexivity.
  - match goal with |- context [http_get w ?r] =>
      destruct (Hdown r) as (e & -> & He) end.
    rewrite He. cbn. eexists; reflexivity.
  - match goal with |- context [http_get w ?r] =>
      destruct (Hdown r) as (e & -> & He) end.
    rewrite He. cbn. eexists; reflexivity.
  - match goal with |- context [http_get w ?r] =>
      destruct (Hdown r) as (e & -> & He) end.
    rewrite He. cbn. eexists; reflexivity.
  - destruct (all_allowed expression); cbn; [ | eexists; reflexivity ].
    destruct (eval_plain w expression) as [v | x]; cbn;
      [ destruct (obj_str v) | ]; eexists; reflexivity.
Qed.

End LocalStrings.

(** * The evaluators *)

Section Evaluators.
Context {R : PyRuntime}.

Lemma prefix_chars t : forall s c,
  String.prefix t s = true -> In c (chars t) -> In c (chars s).
Proof.
  induction t as [ | a t IH]; intros s c Hp Hc; [ destruct Hc | ].
  destruct s as [ | b s]; [ discriminate Hp | ].
  cbn in Hp. destruct (ascii_dec a b) as [-> | ]; [ | discriminate Hp ].
  destruct Hc as [-> | Hc]; [ left; reflexivity | right; eauto ].
Qed.

(** A substring brings its characters along. *)
Lemma contains_chars t : forall s c,
  contains t s = true -> In c (chars t) -> In c (chars s).
Proof.
  induction s as [ | b s IH]; intros c H Hc; cbn [contains] in H;
    apply orb_true_iff in H; destruct H as [H | H].
  - eapply prefix_chars; eauto.
  - discriminate H.
  - eapply prefix_chars; eauto.
  - right. apply IH; assumption.
Qed.

Lemma all_allowed_char e c :
  all_allowed e = true -> In c (chars e) -> char_in c allowed_chars = true.
Proof.
  unfold all_allowed. rewrite forallb_forall. intros H Hc. apply H, Hc.
Qed.

(** A term with a character outside the allow-list does not occur in
    an allow-listed expression. *)
Lemma allowed_no_term t e c :
  In c (chars t) -> char_in c allowed_chars = false ->
  all_allowed e = true -> contains t e = false.
Proof.
  intros Hc Hno Hall. destruct (contains t e) eqn:Ht; [ | reflexivity ].
  pose proof (all_allowed_char e c Hall (contains_chars t e c Ht Hc)) as H.
  rewrite H in Hno. discriminate Hno.
Qed.

Lemma lower_char_allowed c :
  char_in c allowed_chars = true -> lower_char c = c.
Proof.
  unfold char_in. rewrite existsb_exists. intros (x & Hin & Heq).
  apply Ascii.eqb_eq in Heq. subst x.
  cbn in Hin. repeat (destruct Hin as [<- | Hin]; [ reflexivity | ]).
  destruct Hin.
Qed.

(** [str.lower] leaves an allow-listed expression as it is. *)
Lemma lower_allowed e : all_allowed e = true -> lower e = e.
Proof.
  unfold all_allowed. induction e as [ | c e IH]; [ reflexivity | ].
  cbn. intros H. apply andb_true_iff in H. destruct H as [Hc He].
  rewrite (lower_char_allowed c Hc), (IH He). reflexivity.
Qed.

Lemma allowed_not_dangerous e :
  all_allowed e = true ->
  existsb (fun term => contains term (lower e)) DemoTools.dangerous_terms = false.
Proof.
  intros H. rewrite (lower_allowed e H). cbn [existsb DemoTools.dangerous_terms].
  rewrite (allowed_no_term "__" e "_"), (allowed_no_term "import" e "i"),
    (allowed_no_term "exec" e "e"), (allowed_no_term "eval" e "e"),
    (allowed_no_term "open" e "o"), (allowed_no_term "file" e "f");
    cbn; auto.
Qed.

Lemma demo_calculate_run w p e :
  DemoTools.calculate e w p =
    if all_allowed e
    then (Return (JStr (demo_result w e)),
          warn (eval_warnings w e) (log (EvEval false e) p))
    else (Return (JStr DemoTools.invalid_characters), p).
Proof.
  run_tool. unfold demo_result. destruct (all_allowed e) eqn:Ha; [ | reflexivity ].
  cbv beta iota delta [negb]. rewrite (allowed_not_dangerous e Ha).
  destruct (eval_plain w e) as [v | x]; cbn [and_also];
    [ destruct (obj_str v) | ]; reflexivity.
Qed.

Lemma local_calculate_run w p e :
  LocalMultipleTools.calculate e w p =
    if all_allowed e
    then (Return (JStr (local_result w e)),
          warn (eval_warnings w e) (log (EvEval false e) p))
    else (Return (JStr LocalMultipleTools.invalid_characters), p).
Proof.
  run_tool. unfold local_result.
  destruct (all_allowed e) eqn:Ha; cbv beta iota delta [negb]; [ | reflexivity ].
  destruct (eval_plain w e) as [v | x]; cbn [and_also];
    [ destruct (obj_str v) | ]; reflexivity.
Qed.

Ltac run_evaluator :=
  cbv [SimpleDemo.simple_calculator MyGradioDemo.calculate MyAgentDemo.calculate
       try_except_exception then_ finish py_eval_restricted py_format_result
       py_exception_text worded evaluated described];
  repeat match goal with
         | |- context [eval_restricted ?w ?e ?p] =>
             destruct (eval_restricted w e p) as [[[? | ?] | ?] ?]
         | |- context [format_result ?w ?v ?p] =>
             destruct (format_result w v p) as [[[? | ?] | ?] ?]
         | |- context [exception_text ?w ?x ?p] =>
             destruct (exception_text w x p) as [[[? | ?] | ?] ?]
         end;
  reflexivity.

Lemma simple_calculator_run w p e :
  SimpleDemo.simple_calculator e w p
  = worded (fun text => "Result: " ++ text) (fun message => "Error: " ++ message)
           (evaluated w e p).
Proof. run_evaluator. Qed.

Lemma gradio_calculate_run w p e :
  MyGradioDemo.calculate e w p
  = worded (fun text => "Result: " ++ text) (fun message => "Error: " ++ message)
           (evaluated w e p).
Proof. run_evaluator. Qed.

Lemma agent_calculate_run w p e :
  MyAgentDemo.calculate e w p
  = worded (fun text => "The result of " ++ e ++ " is " ++ text)
           (fun message => "Error calculating " ++ e ++ ": " ++ message)
           (evaluated w e p).
Proof. run_evaluator. Qed.

End Evaluators.

(** * Effects of the tools *)

(** Walks the statements after the request, none of which touches the
    state. *)
Ltac walk_pure :=
  repeat first
    [ apply pure_str | apply pure_ret | apply pure_item | apply pure_lift
    | apply pure_raise_for_status | apply pure_response_json
    | apply pure_and_then
    | apply pure_bind; [ | intros ]
    | match goal with
      | |- pure (if ?b then _ else _) => destruct b
      | |- pure (match ?x with Some _ => _ | None => _ end) => destruct x
      end ].

(** A [try] statement whose body is one request followed by pure
    statements and whose handler formats the exception. *)
Ltac one_request :=
  apply (tame_try 1 0 0 0 0 0);
  [ apply (tame_bind 1 0 0 0 0 0);
    [ apply tame_requests_get | intros; apply tame_pure; walk_pure ]
  | intros; apply tame_pure; walk_pure ].

Section Effects.
Context {R : PyRuntime}.

Lemma tool_tame t : tame 1 (prints t) (draws_taken t) (call t).
Proof.
  destruct t; cbn [call prints draws_taken has_random_fallback].
  - unfold DemoTools.convert_currency. cbv zeta. one_request.
  - unfold DemoTools.get_weather.
    apply (tame_bind 0 0 0 1 0 0); [ apply tame_getenv | ].
    intros k. destruct (key_set k); [ | apply (tame_mono 0 0 0); try lia;
                                        apply tame_pure; walk_pure ].
    cbv zeta. one_request.
  - unfold DemoTools.get_joke. cbv zeta.
    apply (tame_try 1 0 0 0 0 1).
    + apply (tame_bind 1 0 0 0 0 0);
        [ apply tame_requests_get | intros; apply tame_pure; walk_pure ].
    + intros e. apply (tame_bind 0 0 1 0 0 0);
        [ apply tame_random_choice | intros; apply tame_pure; walk_pure ].
  - unfold DemoTools.get_random_fact. cbv zeta.
    apply (tame_bind 1 1 0 0 0 1).
    + apply (tame_try 1 0 0 0 1 0).
      * apply (tame_bind 1 0 0 0 0 0);
          [ apply tame_requests_get | intros; apply tame_pure; walk_pure ].
      * intros e. apply (tame_bind 0 1 0 0 0 0);
          [ apply tame_print | intros; apply tame_pure; walk_pure ].
    + intros [v | ].
      * apply (tame_mono 0 0 0); try lia. apply tame_pure; walk_pure.
      * apply (tame_bind 0 0 1 0 0 0);
          [ apply tame_random_choice | intros; apply tame_pure; walk_pure ].
  - unfold DemoTools.search_wikipedia. cbv zeta. one_request.
  - unfold DemoTools.calculate. apply (tame_mono 0 0 0); try lia.
    apply (tame_try 0 0 0 0 0 0); [ | intros; apply tame_pure; walk_pure ].
    destruct (negb _); [ apply tame_pure; walk_pure | ].
    destruct (existsb _ _); [ apply tame_pure; walk_pure | ].
    apply (tame_bind 0 0 0 0 0 0);
      [ apply tame_py_eval | intros; apply tame_pure; walk_pure ].
  - unfold LocalMultipleTools.get_weather.
    apply (tame_bind 0 0 0 1 0 0); [ apply tame_getenv | ].
    intros k. destruct (key_set k); [ | apply (tame_mono 0 0 0); try lia;
                                        apply tame_pure; walk_pure ].
    cbv zeta. one_request.
  - unfold LocalMultipleTools.convert_currency.
    apply (tame_bind 0 0 0 1 0 0); [ apply tame_getenv | ].
    intros k. cbv zeta. one_request.
  - unfold LocalMultipleTools.get_joke. cbv zeta. one_request.
  - unfold LocalMultipleTools.get_random_fact.
    apply (tame_bind 0 0 0 1 0 0); [ apply tame_getenv | ].
    intros k. cbv zeta. one_request.
  - unfold LocalMultipleTools.search_wikipedia. cbv zeta. one_request.
  - unfold LocalMultipleTools.calculate. apply (tame_mono 0 0 0); try lia.
    apply (tame_try 0 0 0 0 0 0); [ | intros; apply tame_pure; walk_pure ].
    destruct (negb _); [ apply tame_pure; walk_pure | ].
    apply (tame_bind 0 0 0 0 0 0);
      [ apply tame_py_eval | intros; apply tame_pure; walk_pure ].
Qed.

End Effects.

(** * The tools at work *)

Example demo_get_weather_report :
  DemoTools.get_weather "London" false world_weather p_key
  = (Return (JStr ("🌤️ Weather in London, United Kingdom:" ++ nl
                     ++ "   Sunny" ++ nl
                     ++ "   Temperature: 70°F (feels like 68°F)" ++ nl
                     ++ "   Humidity: 40%, Wind: 5 km/h")),
     log (EvHttpGet (mkRequest
            "http://api.weatherstack.com/current?access_key=k3y&query=London&units=f"
            [] (Some 10))) p_key).
Proof. reflexivity. Qed.

Example local_get_weather_report :
  fst (LocalMultipleTools.get_weather "London" (Some true) world_weather p_key)
  = Return (JStr "Weather in London, United Kingdom: Sunny, Temperature: 70°C, Feels like: 68°C, Humidity: 40%").
Proof. reflexivity. Qed.

Example demo_search_wikipedia_not_found :
  DemoTools.search_wikipedia "Artificial Intelligence" world_not_found p0
  = (Return (JStr "❌ Error searching Wikipedia: 404 Client Error: Not Found"),
     log (EvHttpGet (mkRequest
            "https://en.wikipedia.org/api/rest_v1/page/summary/Artificial_Intelligence"
            [("User-Agent", DemoTools.wikipedia_user_agent)] (Some 10))) p0).
Proof. reflexivity. Qed.

Example demo_search_wikipedia_no_extract :
  fst (DemoTools.search_wikipedia "Rocq" world_empty_object p0)
  = Return (JStr "❌ No Wikipedia summary found for 'Rocq'.").
Proof. reflexivity. Qed.

Example local_get_random_fact_empty_object :
  fst (LocalMultipleTools.get_random_fact world_empty_object p0)
  = Return (JStr "Sorry, couldn't fetch a random fact right now.").
Proof. reflexivity. Qed.

Example local_get_random_fact_object_raises :
  fst (LocalMultipleTools.get_random_fact world_weather p0)
  = Raise (mkExc KeyError "0").
Proof. reflexivity. Qed.

Example demo_calculate_letters :
  DemoTools.calculate "__import__('os')" world_product p0
  = (Return (JStr DemoTools.invalid_characters), p0).
Proof. reflexivity. Qed.

(** [str()] turns down the 4301 digits of [10**4300]. *)
Lemma digit_limit : Z_obj_str (10 ^ 4300) = Raise digits_error.
Proof. vm_compute. reflexivity. Qed.

(** The evaluation returns, and yet [calculate] has no result to show. *)
Example demo_calculate_digit_limit :
  fst (DemoTools.calculate "10**4300" world_expressions p0)
  = Return (JStr "❌ Error calculating '10**4300': Exceeds the limit (4300 digits) for integer string conversion; use sys.set_int_max_str_digits() to increase the limit").
Proof.
  rewrite demo_calculate_run.
  change (all_allowed "10**4300") with true. cbv iota. cbn [fst].
  unfold demo_result.
  change (eval_plain world_expressions "10**4300")
    with (@Return (@pyobj IntRuntime) (10 ^ 4300)%Z).
  cbn [and_also].
  change (@obj_str IntRuntime (10 ^ 4300)%Z) with (Z_obj_str (10 ^ 4300)).
  rewrite digit_limit. reflexivity.
Qed.

(** [sys.exit(3)] inside the expression leaves [calculate] of
    [my_gradio_demo.py] through its [except Exception]. *)
Example gradio_calculate_exit :
  MyGradioDemo.calculate exit_expression world_noon p0
  = (Escapes "SystemExit", log (EvEval true exit_expression) p0).
Proof. reflexivity. Qed.

Example agent_calculate_division :
  fst (MyAgentDemo.calculate "7%3" world_modulo p0)
  = Ends (Return (JStr "The result of 7%3 is 1")).
Proof. reflexivity. Qed.

Example get_system_info_report :
  SimpleDemo.get_system_info world_noon p0
  = (Return (JStr ("System Information:" ++ nl
                     ++ "- OS: Linux 6.1.0-18-amd64" ++ nl
                     ++ "- Python: 3.11.2" ++ nl
                     ++ "- Current Time: 2025-06-01 12:00:00" ++ nl
                     ++ "- Platform: Linux-6.1.0-18-amd64-x86_64-with-glibc2.36")),
     mkProc [] [] 0 [EvPlatform "platform"; EvPlatform "release"; EvPlatform "system"]).
Proof. reflexivity. Qed.

(** A rate that is a string: the amount repeats it, and the [.2f]
    format turns the repeated string down. *)
Example demo_convert_currency_text_rate :
  fst (DemoTools.convert_currency (R := IntRuntime) 3%Z "USD" "EUR"
         (world_body (@JObj IntRuntime
                        [("rates", @JObj IntRuntime
                                     [("EUR", @JStr IntRuntime "0.85")])])) p0)
  = Return (JStr "❌ Error fetching exchange rate: Unknown format code 'f' for object of type 'str'").
Proof. reflexivity. Qed.

(** * Fallback tables *)

(** What the fallback lines [random.choice(table)] and the f-string
    around it return. *)
Lemma fallback_choice {R : PyRuntime} (prefix x : string) (l : list string)
      (w : World) (q : Proc) :
  exists s, In s (x :: l)
            /\ fst (let (o, p') := random_choice (x :: l) w q in
                    match o with
                    | Return a => (Return (JStr (prefix ++ a)), p')
                    | Raise e => (Raise e, p')
                    end) = Return (JStr (prefix ++ s)).
Proof.
  unfold random_choice. eexists. split; [ | reflexivity ].
  apply nth_In. apply Nat.mod_upper_bound. discriminate.
Qed.

(** * Repeating a call *)

Section Repeats.
Context {R : PyRuntime}.

















End Repeats.



Section RepeatedTools.
Context {R : PyRuntime}.


(** A tool of the two modules, seen as one of the repository's. *)
Lemma invoke_module_tool (t : tool) w p :
  invoke (Module_tool t) w p
  = (Ends match fst (call t w p) with
          | Return v => Return (Value v)
          | Raise x => Raise x
          end, snd (call t w p)).
Proof.
  unfold invoke, giving, escapable. destruct (call t w p) as [[v | x] q]; reflexivity.
Qed.

End RepeatedTools.

(** * What the tools write *)

Section Written.
Context {R : PyRuntime}.

Lemma printed_app (l1 l2 : list event) :
  printed (l1 ++ l2)%list = (printed l1 ++ printed l2)%list.
Proof. unfold printed. apply flat_map_app. Qed.

Lemma written_app (l1 l2 : list event) :
  written (l1 ++ l2)%list = (written l2 ++ written l1)%list.
Proof. unfold written. rewrite rev_app_distr. apply flat_map_app. Qed.

Lemma asked_app (l1 l2 : list event) :
  asked (l1 ++ l2)%list = (asked l2 ++ asked l1)%list.
Proof. unfold asked. rewrite rev_app_distr. apply flat_map_app. Qed.

Lemma asked_stderr (lines : list string) :
  asked (rev (map EvStderr lines)) = [].
Proof.
  unfold asked. rewrite rev_involutive.
  induction lines as [ | l ls IH]; [ reflexivity | exact IH ].
Qed.

Lemma printed_stderr (lines : list string) :
  printed (rev (map EvStderr lines)) = [].
Proof.
  induction lines as [ | l ls IH]; [ reflexivity | ].
  cbn [map rev]. rewrite printed_app, IH. reflexivity.
Qed.

Lemma written_stderr (lines : list string) :
  written (rev (map EvStderr lines)) = lines.
Proof.
  unfold written. rewrite rev_involutive.
  induction lines as [ | l ls IH]; [ reflexivity | ]. cbn. rewrite IH. reflexivity.
Qed.

Lemma quiet_pure {A} (c : M A) : pure c -> quiet c.
Proof.
  intros Hc w p. destruct (Hc w) as [o Ho]. rewrite Ho.
  exists []. repeat split.
Qed.

Lemma quiet_bind {A B} (c : M A) (k : A -> M B) :
  quiet c -> (forall a, quiet (k a)) -> quiet (bind c k).
Proof.
  intros Hc Hk w p. unfold bind. destruct (Hc w p) as (evs & Ht & Hp & Hw & Ha).
  destruct (c w p) as [[a | e] p']; cbn in *.
  - destruct (Hk a w p') as (evs' & Ht' & Hp' & Hw' & Ha').
    exists (evs' ++ evs)%list.
    rewrite Ht', Ht, app_assoc, printed_app, written_app, asked_app,
      Hp, Hp', Hw, Hw', Ha, Ha'.
    repeat split.
  - exists evs. repeat split; assumption.
Qed.

Lemma quiet_try {A} (body : M A) catches handler :
  quiet body -> (forall e, quiet (handler e)) ->
  quiet (try_except body catches handler).
Proof.
  intros Hc Hk w p. unfold try_except.
  destruct (Hc w p) as (evs & Ht & Hp & Hw & Ha).
  destruct (body w p) as [[a | e] p']; cbn in *.
  - exists evs. repeat split; assumption.
  - destruct (catches e); [ | exists evs; repeat split; assumption ].
    destruct (Hk e w p') as (evs' & Ht' & Hp' & Hw' & Ha').
    exists (evs' ++ evs)%list.
    rewrite Ht', Ht, app_assoc, printed_app, written_app, asked_app,
      Hp, Hp', Hw, Hw', Ha, Ha'.
    repeat split.
Qed.

Lemma quiet_getenv name : quiet (getenv name).
Proof. intros w p. exists []. repeat split. Qed.

Lemma quiet_requests_get url headers timeout :
  quiet (requests_get url headers timeout).
Proof. intros w p. exists [EvHttpGet (mkRequest url headers timeout)]. repeat split. Qed.

Lemma quiet_random_choice seq : quiet (random_choice seq).
Proof.
  intros w p. exists []. unfold random_choice. destruct seq; repeat split.
Qed.

End Written.

Ltac quiet_request :=
  apply quiet_try;
  [ apply quiet_bind;
    [ apply quiet_requests_get | intros; apply quiet_pure; walk_pure ]
  | intros; apply quiet_pure; walk_pure ].

Section WrittenByTools.
Context {R : PyRuntime}.

(** The tools that write nothing. *)
Lemma tool_quiet t :
  match t with
  | Demo_get_random_fact | Demo_calculate _ | Local_calculate _ => True
  | _ => quiet (call t)
  end.
Proof.
  destruct t; cbn [call]; try exact I.
  - unfold DemoTools.convert_currency. cbv zeta. quiet_request.
  - unfold DemoTools.get_weather.
    apply quiet_bind; [ apply quiet_getenv | ].
    intros k. destruct (key_set k); [ | apply quiet_pure; walk_pure ].
    cbv zeta. quiet_request.
  - unfold DemoTools.get_joke. cbv zeta. apply quiet_try.
    + apply quiet_bind;
        [ apply quiet_requests_get | intros; apply quiet_pure; walk_pure ].
    + intros e. apply quiet_bind;
        [ apply quiet_random_choice | intros; apply quiet_pure; walk_pure ].
  - unfold DemoTools.search_wikipedia. cbv zeta. quiet_request.
  - unfold LocalMultipleTools.get_weather.
    apply quiet_bind; [ apply quiet_getenv | ].
    intros k. destruct (key_set k); [ | apply quiet_pure; walk_pure ].
    cbv zeta. quiet_request.
  - unfold LocalMultipleTools.convert_currency.
    apply quiet_bind; [ apply quiet_getenv | ].
    intros k. cbv zeta. quiet_request.
  - unfold LocalMultipleTools.get_joke. cbv zeta. quiet_request.
  - unfold LocalMultipleTools.get_random_fact.
    apply quiet_bind; [ apply quiet_getenv | ].
    intros k. cbv zeta. quiet_request.
  - unfold LocalMultipleTools.search_wikipedia. cbv zeta. quiet_request.
Qed.

(** After its one request, every path of [get_random_fact] of
    [demo_tools.py] that went through the [except] clause has printed
    the diagnostic line, and no other path has printed. *)
Lemma demo_get_random_fact_written w p :
  exists evs, trace (snd (DemoTools.get_random_fact w p)) = (evs ++ trace p)%list
              /\ printed evs = stdout_lines (Module_tool Demo_get_random_fact) w
              /\ written evs = [] /\ asked evs = [].
Proof.
  unfold stdout_lines, fact_failure, fetched, fact_request.
  run_tool. unfold random_choice.
  destruct (http_get w _) as [resp | e]; cbv beta iota.
  - destruct (status_error resp); cbv beta iota.
    + eexists [_; _]. repeat split.
    + destruct (json_body resp) as [data | e]; cbv beta iota.
      * destruct (py_in "text" data) as [[ | ] | e]; cbv beta iota.
        -- destruct (py_getitem data "text"); cbv beta iota.
           ++ eexists [_]. repeat split.
           ++ eexists [_; _]. repeat split.
        -- eexists [_]. repeat split.
        -- eexists [_; _]. repeat split.
      * eexists [_; _]. repeat split.
  - eexists [_; _]. repeat split.
Qed.

Lemma calculate_written (e : string) (w : World) (p : Proc) :
  exists evs,
    trace (warn (eval_warnings w e) (log (EvEval false e) p)) = (evs ++ trace p)%list
    /\ printed evs = [] /\ written evs = eval_warnings w e /\ asked evs = [].
Proof.
  exists (rev (map EvStderr (eval_warnings w e)) ++ [EvEval false e])%list.
  cbn [warn log trace]. rewrite <- app_assoc, printed_app, written_app, asked_app.
  rewrite printed_stderr, written_stderr, asked_stderr. repeat split.
Qed.

(** What each tool of the two modules writes. *)
Lemma module_tool_written t w p :
  exists evs, trace (snd (call t w p)) = (evs ++ trace p)%list
              /\ printed evs = stdout_lines (Module_tool t) w
              /\ written evs = stderr_lines (Module_tool t) w
              /\ asked evs = [].
Proof.
  pose proof (tool_quiet t) as Hq.
  destruct t; try exact (Hq w p); cbn [call].
  - apply demo_get_random_fact_written.
  - rewrite demo_calculate_run. cbn [stdout_lines stderr_lines].
    destruct (all_allowed expression); [ apply calculate_written | ].
    exists []. repeat split.
  - rewrite local_calculate_run. cbn [stdout_lines stderr_lines].
    destruct (all_allowed expression); [ apply calculate_written | ].
    exists []. repeat split.
Qed.

End WrittenByTools.

(** * Exceptions of the conversion *)

Section Conversion.
Context {R : PyRuntime}.



End Conversion.

(** * The claims *)

(** C1, as the code has it.  Every tool function of [demo_tools.py]
    returns a string for every argument, every state of the process and
    every behaviour of the network and of [eval]: it never propagates an
    exception.  The tool functions of [local_multiple_tools.py] catch
    [requests.RequestException] only ([calculate] catches [Exception]):
    when the HTTP request raises a [RequestException] each returns its
    fallback string, and whatever exception one lets through is not a
    [RequestException]. *)
Theorem C1_tools_return_strings :
  forall (R : PyRuntime) (t : tool) (w : World) (p : Proc),
    (in_demo_tools t = true -> exists s, fst (call t w p) = Return (JStr s))
    /\ (in_demo_tools t = false ->
        (network_down w -> exists s, fst (call t w p) = Return (JStr s))
        /\ (forall e, fst (call t w p) = Raise e -> is_request_exception e = false)).
Proof.
  intros R t w p. split.
  - intros Ht.
    assert (H : sat is_string nothing (call t)).
    { destruct t; try discriminate; cbn [call].
      - apply demo_convert_currency_string.
      - apply demo_get_weather_string.
      - apply demo_get_joke_string.
      - apply demo_get_random_fact_string.
      - apply demo_search_wikipedia_string.
      - apply demo_calculate_string. }
    specialize (H w p). destruct (fst (call t w p)) as [v | e].
    + destruct H as [s ->]. exists s. reflexivity.
    + destruct H.
  - intros Ht. split.
    + intros Hdown. apply local_string_when_down; assumption.
    + intros e He. pose proof (local_no_request_exception t Ht w p) as H.
      rewrite He in H. exact H.
Qed.

(** C1 at concrete inputs: with the network down, [get_joke] of
    [demo_tools.py] and [get_joke] of [local_multiple_tools.py] both
    return a string. *)
Lemma C1_tools_return_strings_witness :
  (exists s, fst (call Demo_get_joke world_down p0) = Return (JStr s))
  /\ (exists s, fst (call Local_get_joke world_down p0) = Return (JStr s)).
Proof.
  split.
  - apply (proj1 (C1_tools_return_strings IntRuntime Demo_get_joke world_down p0)).
    reflexivity.
  - apply (proj2 (C1_tools_return_strings IntRuntime Local_get_joke world_down p0)).
    + reflexivity.
    + intros r. eexists. split; reflexivity.
Defined.

(** C1 fails for [local_multiple_tools.py]: on the answer [{}] its
    [get_joke] raises the [KeyError] of [data["error"]], which the
    [except requests.RequestException] clause does not catch. *)
Lemma C1_local_get_joke_raises :
  fst (call Local_get_joke world_empty_object p0) = Raise (mkExc KeyError "'error'")
  /\ ~ (forall (R : PyRuntime) (t : tool) (w : World) (p : Proc),
          exists s, fst (call t w p) = Return (JStr s)).
Proof.
  split; [ reflexivity | ].
  intros H. destruct (H IntRuntime Local_get_joke world_empty_object p0) as [s Hs].
  discriminate Hs.
Qed.

(** C2, as the code has it.  [calculate] of [demo_tools.py] and of
    [local_multiple_tools.py] are one allow-list check followed by one
    direct [eval]: an expression all of whose characters lie in
    ['0123456789+-*/.() '] is evaluated once, and the function returns
    the result string when the evaluation returns a value that [str()]
    prints, the error string with the exception's message when the
    evaluation or the printing raises; what the compiler warns of goes
    to standard error.  An expression with any other character gets the
    invalid-characters message and nothing is evaluated.
    [simple_calculator] of [simple_demo.py] and [calculate] of
    [my_gradio_demo.py] and [my_agent_demo.py] have no character check:
    they evaluate every expression, with the builtins emptied, and word
    the text of its value or the message of its exception; what is no
    [Exception] passes through them. *)
Theorem C2_evaluator_variants :
  forall (R : PyRuntime) (w : World) (p : Proc) (e : string),
    (all_allowed e = true ->
       DemoTools.calculate e w p
         = (Return (JStr (demo_result w e)),
            warn (eval_warnings w e) (log (EvEval false e) p))
       /\ LocalMultipleTools.calculate e w p
         = (Return (JStr (local_result w e)),
            warn (eval_warnings w e) (log (EvEval false e) p)))
    /\ (all_allowed e = false ->
       DemoTools.calculate e w p
         = (Return (JStr DemoTools.invalid_characters), p)
       /\ LocalMultipleTools.calculate e w p
         = (Return (JStr LocalMultipleTools.invalid_characters), p))
    /\ SimpleDemo.simple_calculator e w p
       = worded (fun text => "Result: " ++ text)
                (fun message => "Error: " ++ message) (evaluated w e p)
    /\ MyGradioDemo.calculate e w p
       = worded (fun text => "Result: " ++ text)
                (fun message => "Error: " ++ message) (evaluated w e p)
    /\ MyAgentDemo.calculate e w p
       = worded (fun text => "The result of " ++ e ++ " is " ++ text)
                (fun message => "Error calculating " ++ e ++ ": " ++ message)
                (evaluated w e p).
Proof.
  intros R w p e.
  rewrite demo_calculate_run, local_calculate_run, simple_calculator_run,
    gradio_calculate_run, agent_calculate_run.
  split; [ intros Ha; rewrite Ha; split; reflexivity | ].
  split; [ intros Ha; rewrite Ha; split; reflexivity | ].
  repeat split.
Qed.

(** C2 at concrete inputs: ["2*3"] passes the check and is evaluated,
    ["7%3"] is turned down unevaluated by the two checking variants. *)
Lemma C2_evaluator_variants_witness :
  DemoTools.calculate "2*3" world_product p0
    = (Return (JStr "🧮 2*3 = 6"), log (EvEval false "2*3") p0)
  /\ LocalMultipleTools.calculate "7%3" world_product p0
    = (Return (JStr LocalMultipleTools.invalid_characters), p0).
Proof.
  split.
  - apply (proj1 (C2_evaluator_variants IntRuntime world_product p0 "2*3")).
    reflexivity.
  - apply (proj1 (proj2 (C2_evaluator_variants IntRuntime world_product p0 "7%3"))).
    reflexivity.
Defined.

(** C2 fails for the variants without a character check: ["7%3"] has a
    character outside the allow-list, yet [simple_calculator] evaluates it
    and returns its value. *)
Lemma C2_simple_calculator_evaluates :
  all_allowed "7%3" = false
  /\ SimpleDemo.simple_calculator "7%3" world_modulo p0
     = (Ends (Return (JStr "Result: 1")), log (EvEval true "7%3") p0)
  /\ ~ (forall (R : PyRuntime) (w : World) (p : Proc) (e : string),
          all_allowed e = false ->
          count is_eval (trace (snd (SimpleDemo.simple_calculator e w p)))
            = count is_eval (trace p)).
Proof.
  split; [ reflexivity | split; [ reflexivity | ] ].
  intros H. specialize (H IntRuntime world_modulo p0 "7%3" eq_refl).
  discriminate H.
Qed.

(** C3.  When the request of [get_joke] fails, the function returns
    ["😄 "] followed by one of the three fallback jokes; when the request
    of [get_random_fact] fails or its answer has no ["text"] field, the
    function returns ["🧠 Random Fact: "] followed by one of the five
    fallback facts. *)
Theorem C3_fallback_tables :
  forall (R : PyRuntime) (w : World) (p : Proc),
    (request_fails w joke_request ->
       exists joke, In joke DemoTools.fallback_jokes
                    /\ fst (DemoTools.get_joke w p) = Return (JStr ("😄 " ++ joke)))
    /\ (request_fails w fact_request
        \/ (exists data, answers w fact_request data /\ lacks_field data "text") ->
       exists fact, In fact DemoTools.fallback_facts
                    /\ fst (DemoTools.get_random_fact w p)
                       = Return (JStr ("🧠 Random Fact: " ++ fact))).
Proof.
  intros R w p. split.
  - unfold request_fails, joke_request. intros Hfail.
    run_tool.
    destruct (http_get w _) as [resp | e]; cbv beta iota.
    + destruct (status_error resp); cbv beta iota.
      * apply fallback_choice.
      * destruct (json_body resp); [ destruct Hfail | ]. apply fallback_choice.
    + apply fallback_choice.
  - unfold request_fails, answers, lacks_field, fact_request.
    intros [Hfail | (data & (resp & Hget & Hstatus & Hbody) & kvs & -> & Hkvs)];
      run_tool.
    + destruct (http_get w _) as [resp | e]; cbv beta iota.
      * destruct (status_error resp); cbv beta iota.
        -- apply fallback_choice.
        -- destruct (json_body resp); [ destruct Hfail | ]. apply fallback_choice.
      * apply fallback_choice.
    + rewrite Hget. cbv beta iota. rewrite Hstatus, Hbody. cbn [py_in].
      rewrite Hkvs. cbv beta iota. apply fallback_choice.
Qed.

(** C3 at concrete inputs: the network is down for [get_joke]; the body
    [{}] has no ["text"] for [get_random_fact]. *)
Lemma C3_fallback_tables_witness :
  (exists joke, In joke DemoTools.fallback_jokes
                /\ fst (DemoTools.get_joke world_down p0) = Return (JStr ("😄 " ++ joke)))
  /\ (exists fact, In fact DemoTools.fallback_facts
                   /\ fst (DemoTools.get_random_fact world_empty_object p0)
                      = Return (JStr ("🧠 Random Fact: " ++ fact))).
Proof.
  split.
  - apply (proj1 (C3_fallback_tables IntRuntime world_down p0)). exact I.
  - apply (proj2 (C3_fallback_tables IntRuntime world_empty_object p0)).
    right. exists (JObj []). split.
    + eexists. repeat split.
    + exists []. split; reflexivity.
Defined.





(** C6.  One invocation of a tool adds at most one GET request to the
    trace, whatever the network answers: nothing is retried.
    [get_random_fact] of [demo_tools.py] sends its one request to
    uselessfacts.jsph.pl on every path, the fallback table included. *)
Theorem C6_at_most_one_get :
  forall (R : PyRuntime) (w : World) (p : Proc),
    (forall t : tool,
       exists evs, trace (snd (call t w p)) = (evs ++ trace p)%list
                   /\ count is_http evs <= 1)
    /\ exists evs, trace (snd (DemoTools.get_random_fact w p)) = (evs ++ trace p)%list
                   /\ filter is_http evs = [EvHttpGet fact_request].
Proof.
  intros R w p. split.
  - intros t. destruct (tool_tame t w p) as (_ & _ & _ & (evs & Ht & Hh & _) & _).
    exists evs. split; assumption.
  - run_tool. unfold random_choice, fact_request.
    destruct (http_get w _) as [resp | e]; cbv beta iota.
    + destruct (status_error resp); cbv beta iota.
      * eexists [_; _]. split; reflexivity.
      * destruct (json_body resp) as [data | e]; cbv beta iota.
        -- destruct (py_in "text" data) as [[ | ] | e]; cbv beta iota.
           ++ destruct (py_getitem data "text"); cbv beta iota.
              ** eexists [_]. split; reflexivity.
              ** eexists [_; _]. split; reflexivity.
           ++ eexists [_]. split; reflexivity.
           ++ eexists [_; _]. split; reflexivity.
        -- eexists [_; _]. split; reflexivity.
    + eexists [_; _]. split; reflexivity.
Qed.

(** C7, as the code has it.  Leaving aside the three evaluators without
    a character check, no tool invocation changes the environment
    variables or the files, and what it does outside the process is at
    most one GET request, and for [get_system_info] the three questions
    of the [platform] module to the host.  Besides the value it
    returns, a tool writes this and no more: [get_random_fact] of
    [demo_tools.py] prints one diagnostic line to standard output when
    its [try] block raises (the request fails, or the body does not
    take the test for ["text"] or the subscript), and during
    [calculate] of [demo_tools.py] and of [local_multiple_tools.py] the
    interpreter writes to standard error what it warns of in the
    allow-listed expression. *)
Theorem C7_no_persistence :
  forall (R : PyRuntime) (t : any_tool) (w : World) (p : Proc),
    evaluates_freely t = false ->
    environ (snd (invoke t w p)) = environ p
    /\ files (snd (invoke t w p)) = files p
    /\ exists evs, trace (snd (invoke t w p)) = (evs ++ trace p)%list
                   /\ count is_http evs <= 1
                   /\ printed evs = stdout_lines t w
                   /\ written evs = stderr_lines t w
                   /\ asked evs = platform_queries t.
Proof.
  intros R t w p Hfree.
  destruct t as [t | e | | e | e | a b]; try discriminate Hfree.
  - rewrite invoke_module_tool. cbn [snd].
    destruct (tool_tame t w p) as (He & Hf & _ & (evs & Ht & Hhttp & _) & _).
    destruct (module_tool_written t w p) as (evs' & Ht' & Hout & Herr & Hask).
    assert (evs' = evs) as -> by (apply (app_inv_tail (trace p)); congruence).
    repeat split; trivial. exists evs. repeat split; assumption.
  - cbn. repeat split. eexists [_; _; _]. repeat split. cbn. lia.
  - cbn. repeat split. exists []. repeat split. cbn. lia.
Qed.

(** C7 at concrete inputs: [search_wikipedia] of [demo_tools.py] with the
    network down sends its request and writes nothing. *)
Lemma C7_no_persistence_witness :
  environ (snd (invoke (Module_tool (Demo_search_wikipedia "Rocq")) world_down p0))
    = []
  /\ exists evs,
       trace (snd (invoke (Module_tool (Demo_search_wikipedia "Rocq")) world_down p0))
         = (evs ++ [])%list
       /\ printed evs = [] /\ written evs = [] /\ asked evs = [].
Proof.
  destruct (C7_no_persistence IntRuntime (Module_tool (Demo_search_wikipedia "Rocq"))
              world_down p0 eq_refl)
    as (He & _ & evs & Ht & _ & Hout & Herr & Hask).
  split; [ exact He | ]. exists evs. repeat split; assumption.
Defined.

(** C7 fails on the output and on the environment.  With the network
    down, and also on the body [5], [get_random_fact] of [demo_tools.py]
    prints a diagnostic line besides returning its string.  On
    ["(2)(3)"], which passes the character check, [calculate] has the
    compiler's warning on standard error.  And an expression handed to
    [simple_calculator] sets an environment variable. *)
Lemma C7_writes_and_changes :
  trace (snd (call Demo_get_random_fact world_down p0))
    = [EvPrint "Primary fact API failed: connection refused"; EvHttpGet fact_request]
  /\ trace (snd (call Demo_get_random_fact (world_body (@JNum IntRuntime 5%Z)) p0))
     = [EvPrint "Primary fact API failed: argument of type 'int' is not iterable";
        EvHttpGet fact_request]
  /\ all_allowed "(2)(3)" = true
  /\ call (Demo_calculate "(2)(3)") world_expressions p0
     = (Return (JStr "❌ Error calculating '(2)(3)': 'int' object is not callable"),
        mkProc [] [] 0 [EvStderr call_warning; EvEval false "(2)(3)"])
  /\ SimpleDemo.simple_calculator set_flag_expression world_noon p0
     = (Ends (Return (JStr "Result: 1")),
        mkProc [("DEMO_FLAG", "1")] [] 0 [EvEval true set_flag_expression])
  /\ ~ (forall (R : PyRuntime) (t : any_tool) (w : World) (p : Proc),
          count is_print (trace (snd (invoke t w p))) = count is_print (trace p))
  /\ ~ (forall (R : PyRuntime) (t : any_tool) (w : World) (p : Proc),
          written (trace (snd (invoke t w p))) = written (trace p))
  /\ ~ (forall (R : PyRuntime) (t : any_tool) (w : World) (p : Proc),
          environ (snd (invoke t w p)) = environ p).
Proof.
  split; [ reflexivity | ]. split; [ reflexivity | ]. split; [ reflexivity | ].
  split; [ reflexivity | ]. split; [ reflexivity | ].
  split; [ | split ].
  - intros H.
    specialize (H IntRuntime (Module_tool Demo_get_random_fact) world_down p0).
    discriminate H.
  - intros H.
    specialize (H IntRuntime (Module_tool (Demo_calculate "(2)(3)"))
                  world_expressions p0).
    discriminate H.
  - intros H.
    specialize (H IntRuntime (Simple_calculator set_flag_expression) world_noon p0).
    discriminate H.
Qed.

(** C8.  In [calculate] of [demo_tools.py] an expression that passes the
    allow-list check contains none of the dangerous terms, so the
    invalid-expression branch is dead: the function returns the
    invalid-characters message, the evaluated result (the evaluation
    returned a value and [str()] printed it) or the calculation-error
    message (with the exception of the evaluation or of the printing). *)
Theorem C8_dangerous_branch_unreachable :
  forall (R : PyRuntime) (w : World) (p : Proc) (e : string),
    (all_allowed e = true ->
       forall term, In term DemoTools.dangerous_terms -> contains term (lower e) = false)
    /\ fst (DemoTools.calculate e w p) <> Return (JStr DemoTools.invalid_expression)
    /\ (fst (DemoTools.calculate e w p) = Return (JStr DemoTools.invalid_characters)
        \/ (exists v text, eval_plain w e = Return v
                           /\ obj_str v = Return text
                           /\ fst (DemoTools.calculate e w p)
                              = Return (JStr ("🧮 " ++ e ++ " = " ++ text)))
        \/ (exists x, (eval_plain w e = Raise x
                       \/ exists v, eval_plain w e = Return v /\ obj_str v = Raise x)
                      /\ fst (DemoTools.calculate e w p)
                         = Return (JStr ("❌ Error calculating '" ++ e ++ "': "
                                           ++ exc_msg x)))).
Proof.
  intros R w p e. rewrite demo_calculate_run. unfold demo_result. split; [ | split ].
  - intros Ha term Hterm. pose proof (allowed_not_dangerous e Ha) as H.
    destruct (contains term (lower e)) eqn:Hc; [ | reflexivity ].
    assert (Hex : existsb (fun term => contains term (lower e))
                    DemoTools.dangerous_terms = true)
      by (apply existsb_exists; exists term; split; assumption).
    rewrite Hex in H. discriminate H.
  - destruct (all_allowed e);
      [ destruct (and_also (eval_plain w e) obj_str) | ]; cbn; discriminate.
  - destruct (all_allowed e); [ | left; reflexivity ].
    destruct (eval_plain w e) as [v | x]; cbn [and_also fst].
    + destruct (obj_str v) as [text | x] eqn:Hstr.
      * right; left. exists v, text. repeat split. exact Hstr.
      * right; right. exists x. split; [ right; exists v; split | ]; trivial.
    + right; right. exists x. split; [ left | ]; reflexivity.
Qed.

(** C8 at a concrete input: ["2*3"] passes the check and holds no
    ["eval"]. *)
Lemma C8_dangerous_branch_unreachable_witness :
  contains "eval" (lower "2*3") = false.
Proof.
  apply (proj1 (C8_dangerous_branch_unreachable IntRuntime world_product p0 "2*3")).
  - reflexivity.
  - cbn. tauto.
Defined.

(** C9.  With [WEATHERSTACK_API_KEY] unset, [get_weather] of both files
    returns its key-not-configured message at once, whatever the location
    and the celsius flag: the state of the process, trace of requests
    included, is the one before the call. *)
Theorem C9_weather_without_key :
  forall (R : PyRuntime) (w : World) (p : Proc) (location : string)
         (celsius : bool) (celsius' : option bool),
    env_lookup "WEATHERSTACK_API_KEY" (environ p) = None ->
    DemoTools.get_weather location celsius w p
      = (Return (JStr DemoTools.no_key_message), p)
    /\ LocalMultipleTools.get_weather location celsius' w p
      = (Return (JStr LocalMultipleTools.no_key_message), p).
Proof.
  intros R w p location celsius celsius' Hkey.
  unfold DemoTools.get_weather, LocalMultipleTools.get_weather, bind, getenv.
  rewrite Hkey. split; reflexivity.
Qed.

(** C9 at a concrete input: an empty environment. *)
Lemma C9_weather_without_key_witness :
  DemoTools.get_weather "London" false world_down p0
    = (Return (JStr DemoTools.no_key_message), p0)
  /\ LocalMultipleTools.get_weather "New York" (Some false) world_down p0
    = (Return (JStr LocalMultipleTools.no_key_message), p0).
Proof.
  apply (C9_weather_without_key IntRuntime world_down p0 "London" false (Some false)).
  reflexivity.
Defined.




(** * Further properties of the tool modules *)

Section Requests.
Context {R : PyRuntime}.

Lemma pure_state {A} (c : M A) w p : pure c -> snd (c w p) = p.
Proof. intros Hc. destruct (Hc w) as [o Ho]. rewrite Ho. reflexivity. Qed.

(** The three request statements at the head of a tool body. *)
Lemma fetch_run {A} url headers timeout (k : json -> M A) w p :
  bind (requests_get url headers timeout)
       (fun response =>
          bind (raise_for_status response)
               (fun _ => bind (response_json response) k)) w p
  = match fetched w (mkRequest url headers timeout) with
    | Return data => k data w (log (EvHttpGet (mkRequest url headers timeout)) p)
    | Raise e => (Raise e, log (EvHttpGet (mkRequest url headers timeout)) p)
    end.
Proof.
  unfold bind, requests_get, raise_for_status, response_json, lift, fetched, raise, ret.
  destruct (http_get w _) as [resp | e]; [ | reflexivity ].
  destruct (status_error resp); [ reflexivity | ].
  destruct (json_body resp); reflexivity.
Qed.

Lemma answers_fetched w r data : answers w r data <-> fetched w r = Return data.
Proof.
  unfold answers, fetched. split.
  - intros (resp & -> & -> & Hb). exact Hb.
  - destruct (http_get w r) as [resp | e]; [ | discriminate ].
    destruct (status_error resp) eqn:Hs; [ discriminate | ].
    intros Hb. exists resp. repeat split; assumption.
Qed.

(** A [try] statement made of one request, statements that leave the
    state alone and a handler that does too: the state afterwards is the
    one before plus the request. *)
Lemma one_request_state {A} url headers timeout (k : response -> M A)
      catches handler w p :
  (forall resp, pure (k resp)) -> (forall e, pure (handler e)) ->
  snd (try_except (bind (requests_get url headers timeout) k) catches handler w p)
  = log (EvHttpGet (mkRequest url headers timeout)) p.
Proof.
  intros Hk Hh. unfold try_except, bind, requests_get.
  destruct (http_get w _) as [resp | e].
  - pose proof (pure_state (k resp) w
                  (log (EvHttpGet (mkRequest url headers timeout)) p) (Hk resp)) as Hs.
    destruct (k resp w _) as [[a | e] p']; cbn in Hs; subst p'; [ reflexivity | ].
    destruct (catches e); [ | reflexivity ].
    apply pure_state, Hh.
  - destruct (catches e); [ | reflexivity ].
    apply pure_state, Hh.
Qed.

Lemma replace_blank_no_blank q : has_blank (replace_char " " "_" q) = false.
Proof.
  unfold has_blank, char_in. induction q as [ | c q IH]; [ reflexivity | ].
  cbn [replace_char chars list_ascii_of_string existsb].
  fold (chars (replace_char " " "_" q)). rewrite IH.
  destruct (Ascii.eqb c " ") eqn:Hc; [ reflexivity | ].
  rewrite Ascii.eqb_sym, Hc. reflexivity.
Qed.

End Requests.

(** X1.  The one request of [search_wikipedia].  [demo_tools.py] asks for the
    query with every blank turned into an underscore, under its
    User-Agent and with a timeout of ten seconds; the path it sends has no
    blank.  [local_multiple_tools.py] sends the query as it is.  On
    every path the request is all that happens to the state. *)
Theorem search_wikipedia_request :
  forall (R : PyRuntime) (w : World) (p : Proc) (query : string),
    snd (DemoTools.search_wikipedia query w p)
      = log (EvHttpGet (mkRequest (summary_endpoint ++ replace_char " " "_" query)
                                  [("User-Agent", DemoTools.wikipedia_user_agent)]
                                  (Some 10))) p
    /\ has_blank (replace_char " " "_" query) = false
    /\ snd (LocalMultipleTools.search_wikipedia query w p)
      = log (EvHttpGet (mkRequest (summary_endpoint ++ query) [] None)) p.
Proof.
  intros R w p query. split; [ | split ].
  - unfold DemoTools.search_wikipedia. cbv zeta.
    apply one_request_state; intros; walk_pure.
  - apply replace_blank_no_blank.
  - unfold LocalMultipleTools.search_wikipedia. cbv zeta.
    apply one_request_state; intros; walk_pure.
Qed.

Lemma getenv_bind {R : PyRuntime} {A} name (k : option string -> M A) w p :
  bind (getenv name) k w p = k (env_lookup name (environ p)) w p.
Proof. reflexivity. Qed.

(** Runs a tool body on a fetched answer. *)
Ltac on_answer H :=
  cbv zeta; unfold try_except; rewrite fetch_run;
  first [ rewrite H | unfold demo_summary_request, local_summary_request,
                        demo_weather_request, local_weather_request, pair_request,
                        local_joke_request, ninjas_request, joke_request,
                        fact_request, rates_request, summary_endpoint,
                        weather_url in H; rewrite H ];
  run_tool.

(** X2.  [search_wikipedia] on an answer without a usable extract.  In
    [demo_tools.py] an object without ["extract"], or whose extract is
    falsy (empty, [null]), gets the no-summary message.  In
    [local_multiple_tools.py] only the presence of the member counts:
    whatever it holds is formatted into the summary line. *)
Theorem search_wikipedia_without_extract :
  forall (R : PyRuntime) (w : World) (p : Proc) (query : string)
         (kvs : list (string * json)),
    (fetched w (demo_summary_request query) = Return (JObj kvs) ->
     lookup "extract" kvs = None
     \/ (exists v, lookup "extract" kvs = Some v /\ py_truthy v = false) ->
     fst (DemoTools.search_wikipedia query w p)
       = Return (JStr ("❌ No Wikipedia summary found for '" ++ query ++ "'.")))
    /\ (fetched w (local_summary_request query) = Return (JObj kvs) ->
        fst (LocalMultipleTools.search_wikipedia query w p)
          = Return (JStr match lookup "extract" kvs with
                         | Some v => "Wikipedia summary for '" ++ query ++ "': "
                                       ++ py_str v
                         | None => "No Wikipedia summary found for '" ++ query ++ "'."
                         end)).
Proof.
  intros R w p query kvs. split.
  - intros Hf Hextract. unfold DemoTools.search_wikipedia. on_answer Hf.
    cbn [py_in py_getitem].
    destruct Hextract as [Hx | (v & Hx & Hv)]; rewrite Hx; cbv beta iota;
      [ | rewrite Hv ]; reflexivity.
  - intros Hf. unfold LocalMultipleTools.search_wikipedia. on_answer Hf.
    cbn [py_in py_getitem]. destruct (lookup "extract" kvs); reflexivity.
Qed.

(** X2 on an empty extract. *)
Lemma search_wikipedia_without_extract_witness :
  fst (DemoTools.search_wikipedia "Rocq" (world_body body_empty_extract) p0)
    = Return (JStr "❌ No Wikipedia summary found for 'Rocq'.")
  /\ fst (LocalMultipleTools.search_wikipedia "Rocq" (world_body body_empty_extract) p0)
     = Return (JStr "Wikipedia summary for 'Rocq': ").
Proof.
  split.
  - apply (proj1 (search_wikipedia_without_extract IntRuntime
                    (world_body body_empty_extract) p0 "Rocq"
                    [("extract", @JStr IntRuntime EmptyString)])).
    + reflexivity.
    + right. eexists. split; reflexivity.
  - apply (proj2 (search_wikipedia_without_extract IntRuntime
                    (world_body body_empty_extract) p0 "Rocq"
                    [("extract", @JStr IntRuntime EmptyString)])).
    reflexivity.
Defined.

(** X3.  [search_wikipedia] of [demo_tools.py] on an answer with a truthy
    extract.  The title falls back on the query, and the link on the
    empty string when ["content_urls"] is absent; but a ["content_urls"]
    that is [null] makes the chained [.get] raise, and the error line
    replaces the summary. *)
Theorem search_wikipedia_summary_defaults :
  forall (R : PyRuntime) (w : World) (p : Proc) (query : string)
         (kvs : list (string * json)) (extract : json),
    fetched w (demo_summary_request query) = Return (JObj kvs) ->
    lookup "extract" kvs = Some extract -> py_truthy extract = true ->
    (lookup "content_urls" kvs = None ->
     fst (DemoTools.search_wikipedia query w p)
       = Return (JStr ("📖 Wikipedia - "
                         ++ match lookup "title" kvs with
                            | Some title => py_str title
                            | None => query
                            end
                         ++ ":" ++ nl ++ py_str extract ++ nl ++ nl
                         ++ "🔗 Read more: ")))
    /\ (lookup "content_urls" kvs = Some JNull ->
        fst (DemoTools.search_wikipedia query w p)
          = Return (JStr "❌ Error searching Wikipedia: 'NoneType' object has no attribute 'get'")).
Proof.
  intros R w p query kvs extract Hf Hx Ht. split; intros Hc;
    unfold DemoTools.search_wikipedia; on_answer Hf;
    cbn [py_in py_getitem py_get]; rewrite Hx; cbv beta iota; rewrite Ht, Hc;
    cbv beta iota.
  - destruct (lookup "title" kvs); reflexivity.
  - reflexivity.
Qed.

(** X3 on two one-line summaries. *)
Lemma search_wikipedia_summary_defaults_witness :
  fst (DemoTools.search_wikipedia "Rocq" (world_body body_bare_summary) p0)
    = Return (JStr ("📖 Wikipedia - Rocq:" ++ nl ++ "Rocq is a proof assistant."
                      ++ nl ++ nl ++ "🔗 Read more: "))
  /\ fst (DemoTools.search_wikipedia "Rocq" (world_body body_null_urls) p0)
     = Return (JStr "❌ Error searching Wikipedia: 'NoneType' object has no attribute 'get'").
Proof.
  split.
  - refine (proj1 (search_wikipedia_summary_defaults IntRuntime
                     (world_body body_bare_summary) p0 "Rocq"
                     [("extract", @JStr IntRuntime "Rocq is a proof assistant.")]
                     (@JStr IntRuntime "Rocq is a proof assistant.") _ _ _) _);
      reflexivity.
  - refine (proj2 (search_wikipedia_summary_defaults IntRuntime
                     (world_body body_null_urls) p0 "Rocq"
                     [("extract", @JStr IntRuntime "Rocq is a proof assistant.");
                      ("content_urls", @JNull IntRuntime)]
                     (@JStr IntRuntime "Rocq is a proof assistant.") _ _ _) _);
      reflexivity.
Defined.

Section Weather.
Context {R : PyRuntime}.

Lemma py_getitem_not_request (d : json) k x :
  py_getitem d k = Raise x -> is_request_exception x = false.
Proof.
  destruct d as [ | b | n | s | xs | kvs]; cbn; try (intros [= <-]; reflexivity).
  destruct (lookup k kvs); [ discriminate | intros [= <-]; reflexivity ].
Qed.

End Weather.

(** Runs [get_weather] up to its request, with the key configured. *)
Ltac with_key Hkey :=
  unfold DemoTools.get_weather, LocalMultipleTools.get_weather;
  rewrite getenv_bind, Hkey; cbn [key_set].

(** X4.  [get_weather] with a key configured: on every path exactly one
    request is sent and nothing else happens to the state.  Its URL holds
    the key, the location as given and [units=m] for Celsius, [units=f]
    otherwise; in [local_multiple_tools.py] a [celsius] of [None] counts
    as Fahrenheit and no timeout is set. *)
Theorem get_weather_request :
  forall (R : PyRuntime) (w : World) (p : Proc) (location : string)
         (celsius : bool) (celsius' : option bool) (c : ascii) (key : string),
    env_lookup "WEATHERSTACK_API_KEY" (environ p) = Some (String c key) ->
    snd (DemoTools.get_weather location celsius w p)
      = log (EvHttpGet (demo_weather_request (String c key) location celsius)) p
    /\ snd (LocalMultipleTools.get_weather location celsius' w p)
      = log (EvHttpGet (local_weather_request (String c key) location celsius')) p.
Proof.
  intros R w p location celsius celsius' c key Hkey. split; with_key Hkey; cbv zeta;
    apply one_request_state; intros; walk_pure.
Qed.

(** X4 for London in Fahrenheit and in Celsius. *)
Lemma get_weather_request_witness :
  trace (snd (DemoTools.get_weather "London" false world_down p_key))
    = [EvHttpGet (mkRequest
         "http://api.weatherstack.com/current?access_key=k3y&query=London&units=f"
         [] (Some 10))]
  /\ trace (snd (LocalMultipleTools.get_weather "London" (Some true) world_down p_key))
     = [EvHttpGet (mkRequest
          "http://api.weatherstack.com/current?access_key=k3y&query=London&units=m"
          [] None)].
Proof.
  destruct (get_weather_request IntRuntime world_down p_key "London" false (Some true)
              "k" "3y" eq_refl) as [Hdemo Hlocal].
  rewrite Hdemo, Hlocal. split; reflexivity.
Defined.

(** X5.  A [WEATHERSTACK_API_KEY] set to the empty string counts as not
    configured: both [get_weather] functions return their message and
    send nothing. *)
Theorem get_weather_empty_key :
  forall (R : PyRuntime) (w : World) (p : Proc) (location : string)
         (celsius : bool) (celsius' : option bool),
    env_lookup "WEATHERSTACK_API_KEY" (environ p) = Some EmptyString ->
    DemoTools.get_weather location celsius w p
      = (Return (JStr DemoTools.no_key_message), p)
    /\ LocalMultipleTools.get_weather location celsius' w p
      = (Return (JStr LocalMultipleTools.no_key_message), p).
Proof.
  intros R w p location celsius celsius' Hkey. split; with_key Hkey; reflexivity.
Qed.

(** X5 on a process with an empty key. *)
Lemma get_weather_empty_key_witness :
  DemoTools.get_weather "London" true world_weather p_empty_key
    = (Return (JStr DemoTools.no_key_message), p_empty_key)
  /\ LocalMultipleTools.get_weather "London" None world_weather p_empty_key
    = (Return (JStr LocalMultipleTools.no_key_message), p_empty_key).
Proof.
  apply (get_weather_empty_key IntRuntime world_weather p_empty_key "London" true None).
  reflexivity.
Defined.

(** X6.  An answer with an ["error"] member is reported as the API's error,
    whatever else the body holds: both functions return the ["info"] of
    the error.  When the error has no ["info"] to read, [demo_tools.py]
    returns its fetch-error line with the exception's text, while
    [local_multiple_tools.py] lets the exception out. *)
Theorem get_weather_api_error :
  forall (R : PyRuntime) (w : World) (p : Proc) (location : string)
         (celsius : bool) (celsius' : option bool) (c : ascii) (key : string)
         (kvs : list (string * json)) (err : json),
    env_lookup "WEATHERSTACK_API_KEY" (environ p) = Some (String c key) ->
    lookup "error" kvs = Some err ->
    (fetched w (demo_weather_request (String c key) location celsius)
       = Return (JObj kvs) ->
     fst (DemoTools.get_weather location celsius w p)
       = Return (JStr match py_getitem err "info" with
                      | Return info => "❌ Weather API error: " ++ py_str info
                      | Raise x => "❌ Error fetching weather: " ++ exc_msg x
                      end))
    /\ (fetched w (local_weather_request (String c key) location celsius')
          = Return (JObj kvs) ->
        fst (LocalMultipleTools.get_weather location celsius' w p)
          = match py_getitem err "info" with
            | Return info => Return (JStr ("Error fetching weather data: "
                                             ++ py_str info))
            | Raise x => Raise x
            end).
Proof.
  intros R w p location celsius celsius' c key kvs err Hkey Herr. split; intros Hf;
    with_key Hkey; on_answer Hf; cbn [py_in py_getitem]; rewrite Herr; cbv beta iota.
  - destruct (py_getitem err "info"); reflexivity.
  - destruct (py_getitem err "info") as [info | x] eqn:Hinfo; [ reflexivity | ].
    rewrite (py_getitem_not_request err "info" x Hinfo). reflexivity.
Qed.

(** X6 on WeatherStack's error answer. *)
Lemma get_weather_api_error_witness :
  fst (DemoTools.get_weather "London" false (world_body body_weather_error) p_key)
    = Return (JStr "❌ Weather API error: Your API request failed.")
  /\ fst (LocalMultipleTools.get_weather "London" None
            (world_body body_weather_error) p_key)
     = Return (JStr "Error fetching weather data: Your API request failed.").
Proof.
  destruct (get_weather_api_error IntRuntime (world_body body_weather_error) p_key
              "London" false None "k" "3y"
              [ ("success", @JBool IntRuntime false);
                ("error", @JObj IntRuntime
                            [("code", @JNum IntRuntime 615%Z);
                             ("info", @JStr IntRuntime "Your API request failed.")]) ]
              (@JObj IntRuntime
                 [("code", @JNum IntRuntime 615%Z);
                  ("info", @JStr IntRuntime "Your API request failed.")])
              eq_refl eq_refl) as [Hdemo Hlocal].
  split; [ apply Hdemo | apply Hlocal ]; reflexivity.
Defined.

(** X7.  A report that lacks a member the code reads.  Without ["error"] and
    without ["current"], [demo_tools.py] returns its fetch-error line
    naming the key, [local_multiple_tools.py] raises the [KeyError]: its
    [except] clause names [RequestException] only. *)
Theorem get_weather_missing_current :
  forall (R : PyRuntime) (w : World) (p : Proc) (location : string)
         (celsius : bool) (celsius' : option bool) (c : ascii) (key : string)
         (kvs : list (string * json)),
    env_lookup "WEATHERSTACK_API_KEY" (environ p) = Some (String c key) ->
    lookup "error" kvs = None -> lookup "current" kvs = None ->
    (fetched w (demo_weather_request (String c key) location celsius)
       = Return (JObj kvs) ->
     fst (DemoTools.get_weather location celsius w p)
       = Return (JStr "❌ Error fetching weather: 'current'"))
    /\ (fetched w (local_weather_request (String c key) location celsius')
          = Return (JObj kvs) ->
        fst (LocalMultipleTools.get_weather location celsius' w p)
          = Raise (missing_key "current")).
Proof.
  intros R w p location celsius celsius' c key kvs Hkey Herr Hcur. split; intros Hf;
    with_key Hkey; on_answer Hf; cbn [py_in py_getitem]; rewrite Herr; cbv beta iota;
    rewrite Hcur; reflexivity.
Qed.

(** X7 on the body [{}]. *)
Lemma get_weather_missing_current_witness :
  fst (DemoTools.get_weather "London" false world_empty_object p_key)
    = Return (JStr "❌ Error fetching weather: 'current'")
  /\ fst (LocalMultipleTools.get_weather "London" None world_empty_object p_key)
     = Raise (mkExc KeyError "'current'").
Proof.
  destruct (get_weather_missing_current IntRuntime world_empty_object p_key
              "London" false None "k" "3y" [] eq_refl eq_refl eq_refl)
    as [Hdemo Hlocal].
  split; [ apply Hdemo | apply Hlocal ]; reflexivity.
Defined.

(** X8.  A report whose ["weather_descriptions"] is an empty list: the index
    [[0]] is out of range.  [demo_tools.py] returns its fetch-error line,
    [local_multiple_tools.py] raises the [IndexError]. *)
Theorem get_weather_no_description :
  forall (R : PyRuntime) (w : World) (p : Proc) (location : string)
         (celsius : bool) (celsius' : option bool) (c : ascii) (key : string)
         (kvs current location_info : list (string * json)) (name country : json),
    env_lookup "WEATHERSTACK_API_KEY" (environ p) = Some (String c key) ->
    lookup "error" kvs = None ->
    lookup "current" kvs = Some (JObj current) ->
    lookup "location" kvs = Some (JObj location_info) ->
    lookup "name" location_info = Some name ->
    lookup "country" location_info = Some country ->
    lookup "weather_descriptions" current = Some (JArr []) ->
    (fetched w (demo_weather_request (String c key) location celsius)
       = Return (JObj kvs) ->
     fst (DemoTools.get_weather location celsius w p)
       = Return (JStr "❌ Error fetching weather: list index out of range"))
    /\ (fetched w (local_weather_request (String c key) location celsius')
          = Return (JObj kvs) ->
        fst (LocalMultipleTools.get_weather location celsius' w p)
          = Raise (mkExc IndexError "list index out of range")).
Proof.
  intros R w p location celsius celsius' c key kvs current location_info name country
         Hkey Herr Hcur Hloc Hname Hcountry Hdesc.
  split; intros Hf; with_key Hkey; on_answer Hf; cbn [py_in py_getitem];
    rewrite Herr; cbv beta iota; rewrite Hcur; cbv beta iota; rewrite Hloc;
    cbv beta iota; cbn [py_getitem]; rewrite Hname; cbv beta iota; rewrite Hcountry;
    cbv beta iota; rewrite Hdesc; reflexivity.
Qed.

(** X8 on a report with an empty list. *)
Lemma get_weather_no_description_witness :
  fst (DemoTools.get_weather "London" false (world_body body_no_description) p_key)
    = Return (JStr "❌ Error fetching weather: list index out of range")
  /\ fst (LocalMultipleTools.get_weather "London" None
            (world_body body_no_description) p_key)
     = Raise (mkExc IndexError "list index out of range").
Proof.
  destruct (get_weather_no_description IntRuntime (world_body body_no_description)
              p_key "London" false None "k" "3y"
              [ ("location", @JObj IntRuntime
                   [ ("name", @JStr IntRuntime "London");
                     ("country", @JStr IntRuntime "United Kingdom") ]);
                ("current", @JObj IntRuntime
                   [("weather_descriptions", @JArr IntRuntime [])]) ]
              [("weather_descriptions", @JArr IntRuntime [])]
              [ ("name", @JStr IntRuntime "London");
                ("country", @JStr IntRuntime "United Kingdom") ]
              (@JStr IntRuntime "London") (@JStr IntRuntime "United Kingdom")
              eq_refl eq_refl eq_refl eq_refl eq_refl eq_refl eq_refl)
    as [Hdemo Hlocal].
  split; [ apply Hdemo | apply Hlocal ]; reflexivity.
Defined.




(** X10.  A failed request in [demo_tools.py]: whichever of [requests.get],
    [raise_for_status] and [json()] raises, and whatever the class of the
    exception, [convert_currency], [search_wikipedia] and [get_weather]
    return their error line ending in the text of the exception. *)
Theorem demo_request_failure :
  forall (R : PyRuntime) (w : World) (p : Proc) (e : exc),
    (forall amount from_currency to_currency,
       fetched w (rates_request from_currency (Some 10)) = Raise e ->
       fst (DemoTools.convert_currency amount from_currency to_currency w p)
         = Return (JStr ("❌ Error fetching exchange rate: " ++ exc_msg e)))
    /\ (forall query,
       fetched w (demo_summary_request query) = Raise e ->
       fst (DemoTools.search_wikipedia query w p)
         = Return (JStr ("❌ Error searching Wikipedia: " ++ exc_msg e)))
    /\ (forall location celsius c key,
       env_lookup "WEATHERSTACK_API_KEY" (environ p) = Some (String c key) ->
       fetched w (demo_weather_request (String c key) location celsius) = Raise e ->
       fst (DemoTools.get_weather location celsius w p)
         = Return (JStr ("❌ Error fetching weather: " ++ exc_msg e))).
Proof.
  intros R w p e. split; [ | split ].
  - intros amount f t Hf. unfold DemoTools.convert_currency. on_answer Hf. reflexivity.
  - intros query Hf. unfold DemoTools.search_wikipedia. on_answer Hf. reflexivity.
  - intros location celsius c key Hkey Hf. with_key Hkey. on_answer Hf. reflexivity.
Qed.

(** X10 on a 404 answer and on a refused
    connection. *)
Lemma demo_request_failure_witness :
  fst (DemoTools.search_wikipedia "No such page" world_not_found p0)
    = Return (JStr "❌ Error searching Wikipedia: 404 Client Error: Not Found")
  /\ fst (DemoTools.get_weather "London" false world_down p_key)
     = Return (JStr "❌ Error fetching weather: connection refused").
Proof.
  split.
  - apply (proj1 (proj2 (demo_request_failure IntRuntime world_not_found p0
                           (mkExc RequestException "404 Client Error: Not Found")))).
    reflexivity.
  - apply (proj2 (proj2 (demo_request_failure IntRuntime world_down p_key
                           (mkExc RequestException "connection refused")))
             "London" false "k"%char "3y"); reflexivity.
Defined.

(** X11.  A failed request in [local_multiple_tools.py]: the five network
    tools return their error line when the exception is a
    [RequestException], and raise the very exception otherwise (a
    [ValueError] of [json()], say). *)
Theorem local_request_failure :
  forall (R : PyRuntime) (w : World) (p : Proc) (e : exc),
    (forall amount from_currency to_currency,
       key_set (env_lookup "EXCHANGE_API_KEY" (environ p)) = None ->
       fetched w (rates_request from_currency None) = Raise e ->
       fst (LocalMultipleTools.convert_currency amount from_currency to_currency w p)
         = if is_request_exception e
           then Return (JStr ("Error fetching exchange rate: " ++ exc_msg e))
           else Raise e)
    /\ (fetched w local_joke_request = Raise e ->
        fst (LocalMultipleTools.get_joke w p)
          = if is_request_exception e
            then Return (JStr ("Error fetching joke: " ++ exc_msg e))
            else Raise e)
    /\ (fetched w (ninjas_request
                     match key_set (env_lookup "API_NINJAS_KEY" (environ p)) with
                     | Some key => [("X-Api-Key", key)]
                     | None => []
                     end) = Raise e ->
        fst (LocalMultipleTools.get_random_fact w p)
          = if is_request_exception e
            then Return (JStr ("Error fetching random fact: " ++ exc_msg e))
            else Raise e)
    /\ (forall query,
        fetched w (local_summary_request query) = Raise e ->
        fst (LocalMultipleTools.search_wikipedia query w p)
          = if is_request_exception e
            then Return (JStr ("Error searching Wikipedia: " ++ exc_msg e))
            else Raise e)
    /\ (forall location celsius c key,
        env_lookup "WEATHERSTACK_API_KEY" (environ p) = Some (String c key) ->
        fetched w (local_weather_request (String c key) location celsius) = Raise e ->
        fst (LocalMultipleTools.get_weather location celsius w p)
          = if is_request_exception e
            then Return (JStr ("Error fetching weather data: " ++ exc_msg e))
            else Raise e).
Proof.
  intros R w p e. repeat split.
  - intros amount f t Hkey Hf. unfold LocalMultipleTools.convert_currency.
    rewrite getenv_bind, Hkey. on_answer Hf.
    destruct (is_request_exception e); reflexivity.
  - intros Hf. unfold LocalMultipleTools.get_joke. on_answer Hf.
    destruct (is_request_exception e); reflexivity.
  - intros Hf. unfold LocalMultipleTools.get_random_fact. rewrite getenv_bind.
    on_answer Hf. destruct (is_request_exception e); reflexivity.
  - intros query Hf. unfold LocalMultipleTools.search_wikipedia. on_answer Hf.
    destruct (is_request_exception e); reflexivity.
  - intros location celsius c key Hkey Hf. with_key Hkey. on_answer Hf.
    destruct (is_request_exception e); reflexivity.
Qed.

(** X11 on a refused connection, and on a request
    that ends in an exception of another class. *)
Lemma local_request_failure_witness :
  fst (LocalMultipleTools.get_joke world_down p0)
    = Return (JStr "Error fetching joke: connection refused")
  /\ fst (LocalMultipleTools.search_wikipedia "Rocq"
            (world_raising (mkExc OtherException "Expecting value")) p0)
     = Raise (mkExc OtherException "Expecting value").
Proof.
  split.
  - apply (proj1 (proj2 (local_request_failure IntRuntime world_down p0
                           (mkExc RequestException "connection refused")))).
    reflexivity.
  - apply (proj1 (proj2 (proj2 (proj2
             (local_request_failure IntRuntime
                (world_raising (mkExc OtherException "Expecting value")) p0
                (mkExc OtherException "Expecting value")))))).
    reflexivity.
Defined.

(** X12.  [get_joke] of [demo_tools.py] on an object answer.  A truthy
    ["error"] flag gives the sorry line even when a joke is there; an
    absent or falsy flag gives the joke after ["😄 "], on one line for the
    type ["single"] and as setup and delivery on two lines for any other
    type.  On these paths the state gains the request only: no draw is
    taken from the random generator. *)
Theorem demo_get_joke_answer :
  forall (R : PyRuntime) (w : World) (p : Proc) (kvs : list (string * json)),
    fetched w joke_request = Return (JObj kvs) ->
    let flag := match lookup "error" kvs with
                | Some v => py_truthy v
                | None => false
                end in
    (flag = true ->
     DemoTools.get_joke w p
       = (Return (JStr "😅 Sorry, couldn't fetch a joke right now."),
          log (EvHttpGet joke_request) p))
    /\ (forall joke,
        flag = false -> lookup "type" kvs = Some (JStr "single") ->
        lookup "joke" kvs = Some joke ->
        DemoTools.get_joke w p
          = (Return (JStr ("😄 " ++ py_str joke)), log (EvHttpGet joke_request) p))
    /\ (forall type setup delivery,
        flag = false -> lookup "type" kvs = Some type ->
        json_is_str "single" type = false ->
        lookup "setup" kvs = Some setup -> lookup "delivery" kvs = Some delivery ->
        DemoTools.get_joke w p
          = (Return (JStr ("😄 " ++ py_str setup ++ nl ++ "   " ++ py_str delivery)),
             log (EvHttpGet joke_request) p)).
Proof.
  intros R w p kvs Hf flag. subst flag. repeat split.
  - intros Hflag. unfold DemoTools.get_joke. on_answer Hf. cbn [py_get].
    cbv beta iota. destruct (lookup "error" kvs); [ | discriminate Hflag ].
    rewrite Hflag. reflexivity.
  - intros joke Hflag Htype Hjoke. unfold DemoTools.get_joke. on_answer Hf.
    cbn [py_get]. cbv beta iota. cbn [py_getitem].
    destruct (lookup "error" kvs) as [v | ];
      [ rewrite Hflag | ]; cbn [py_truthy]; rewrite Htype; cbv beta iota;
      cbn [json_is_str String.eqb Ascii.eqb Bool.eqb]; rewrite Hjoke; reflexivity.
  - intros type setup delivery Hflag Htype Hsingle Hsetup Hdelivery.
    unfold DemoTools.get_joke. on_answer Hf.
    cbn [py_get]. cbv beta iota. cbn [py_getitem].
    destruct (lookup "error" kvs) as [v | ];
      [ rewrite Hflag | ]; cbn [py_truthy]; rewrite Htype; cbv beta iota;
      rewrite Hsingle, Hsetup; cbv beta iota; rewrite Hdelivery; reflexivity.
Qed.

(** X12 on a one-line joke, on a two-part joke and on
    an answer flagged as an error. *)
Lemma demo_get_joke_answer_witness :
  fst (DemoTools.get_joke (world_body body_single_joke) p0)
    = Return (JStr "😄 Knock knock.")
  /\ fst (DemoTools.get_joke (world_body body_twopart_joke) p0)
     = Return (JStr ("😄 Knock knock." ++ nl ++ "   Who is there?"))
  /\ fst (DemoTools.get_joke (world_body body_joke_error) p0)
     = Return (JStr "😅 Sorry, couldn't fetch a joke right now.").
Proof.
  split; [ | split ].
  - destruct (demo_get_joke_answer IntRuntime (world_body body_single_joke) p0
                [ ("error", @JBool IntRuntime false);
                  ("type", @JStr IntRuntime "single");
                  ("joke", @JStr IntRuntime "Knock knock.") ] eq_refl)
      as (_ & Hsingle & _).
    rewrite (Hsingle (@JStr IntRuntime "Knock knock.") eq_refl eq_refl eq_refl).
    reflexivity.
  - destruct (demo_get_joke_answer IntRuntime (world_body body_twopart_joke) p0
                [ ("error", @JBool IntRuntime false);
                  ("type", @JStr IntRuntime "twopart");
                  ("setup", @JStr IntRuntime "Knock knock.");
                  ("delivery", @JStr IntRuntime "Who is there?") ] eq_refl)
      as (_ & _ & Htwo).
    rewrite (Htwo (@JStr IntRuntime "twopart") (@JStr IntRuntime "Knock knock.")
               (@JStr IntRuntime "Who is there?")
               eq_refl eq_refl eq_refl eq_refl eq_refl).
    reflexivity.
  - destruct (demo_get_joke_answer IntRuntime (world_body body_joke_error) p0
                [ ("error", @JBool IntRuntime true);
                  ("type", @JStr IntRuntime "single");
                  ("joke", @JStr IntRuntime "Knock knock.") ] eq_refl)
      as (Herror & _).
    rewrite (Herror eq_refl). reflexivity.
Defined.

Lemma local_get_joke_missing_flag {R : PyRuntime} w p kvs :
  fetched w local_joke_request = Return (JObj kvs) -> lookup "error" kvs = None ->
  fst (LocalMultipleTools.get_joke w p) = Raise (missing_key "error").
Proof.
  intros Hf Hflag. unfold LocalMultipleTools.get_joke. on_answer Hf.
  cbn [py_getitem]. rewrite Hflag. reflexivity.
Qed.

(** X13.  [get_joke] of [local_multiple_tools.py] on an object answer.  It
    subscripts ["error"], so an answer without the flag raises the
    [KeyError] (where [demo_tools.py] reads it with [.get] and goes on).
    With a falsy flag and the type ["single"] it returns the ["joke"]
    member as it is, formatted by nothing: a string only if the API sent
    one.  A two-part joke is joined with [" - "]. *)
Theorem local_get_joke_answer :
  forall (R : PyRuntime) (w : World) (p : Proc) (kvs : list (string * json)),
    fetched w local_joke_request = Return (JObj kvs) ->
    (lookup "error" kvs = None ->
     fst (LocalMultipleTools.get_joke w p) = Raise (missing_key "error"))
    /\ (forall flag,
        lookup "error" kvs = Some flag -> py_truthy flag = true ->
        fst (LocalMultipleTools.get_joke w p)
          = Return (JStr "Sorry, couldn't fetch a joke right now."))
    /\ (forall flag joke,
        lookup "error" kvs = Some flag -> py_truthy flag = false ->
        lookup "type" kvs = Some (JStr "single") -> lookup "joke" kvs = Some joke ->
        fst (LocalMultipleTools.get_joke w p) = Return joke)
    /\ (forall flag type setup delivery,
        lookup "error" kvs = Some flag -> py_truthy flag = false ->
        lookup "type" kvs = Some type -> json_is_str "single" type = false ->
        lookup "setup" kvs = Some setup -> lookup "delivery" kvs = Some delivery ->
        fst (LocalMultipleTools.get_joke w p)
          = Return (JStr (py_str setup ++ " - " ++ py_str delivery))).
Proof.
  intros R w p kvs Hf. repeat split.
  - intros Hflag. apply (local_get_joke_missing_flag w p kvs Hf Hflag).
  - intros flag Hflag Ht. unfold LocalMultipleTools.get_joke. on_answer Hf.
    cbn [py_getitem]. rewrite Hflag. cbv beta iota. rewrite Ht. reflexivity.
  - intros flag joke Hflag Ht Htype Hjoke. unfold LocalMultipleTools.get_joke.
    on_answer Hf. cbn [py_getitem]. rewrite Hflag. cbv beta iota. rewrite Ht, Htype.
    cbv beta iota. cbn [json_is_str String.eqb Ascii.eqb Bool.eqb].
    rewrite Hjoke. reflexivity.
  - intros flag type setup delivery Hflag Ht Htype Hsingle Hsetup Hdelivery.
    unfold LocalMultipleTools.get_joke. on_answer Hf. cbn [py_getitem].
    rewrite Hflag. cbv beta iota. rewrite Ht, Htype. cbv beta iota.
    rewrite Hsingle, Hsetup. cbv beta iota. rewrite Hdelivery. reflexivity.
Qed.

(** X13 on a joke that is the number 42, returned as
    a number, and on an answer without the flag. *)
Lemma local_get_joke_answer_witness :
  fst (LocalMultipleTools.get_joke (world_body body_number_joke) p0)
    = Return (@JNum IntRuntime 42%Z)
  /\ fst (LocalMultipleTools.get_joke (world_body body_joke_no_flag) p0)
     = Raise (mkExc KeyError "'error'").
Proof.
  split.
  - destruct (local_get_joke_answer IntRuntime (world_body body_number_joke) p0
                [ ("error", @JBool IntRuntime false);
                  ("type", @JStr IntRuntime "single");
                  ("joke", @JNum IntRuntime 42%Z) ] eq_refl)
      as (_ & _ & Hsingle & _).
    exact (Hsingle (@JBool IntRuntime false) (@JNum IntRuntime 42%Z)
             eq_refl eq_refl eq_refl eq_refl).
  - destruct (local_get_joke_answer IntRuntime (world_body body_joke_no_flag) p0
                [ ("type", @JStr IntRuntime "single");
                  ("joke", @JStr IntRuntime "Knock knock.") ] eq_refl)
      as (Hmissing & _).
    exact (Hmissing eq_refl).
Defined.

(** X14.  [get_random_fact] of [demo_tools.py], all paths.  Either the answer
    is an object with a ["text"] member and the function returns it after
    ["🧠 Random Fact: "], the state gaining the request only; or it
    returns one of the five fallback facts after the same prefix and has
    taken exactly one draw from the random generator.  Either way the
    result is a string with that prefix. *)
Theorem demo_get_random_fact_cases :
  forall (R : PyRuntime) (w : World) (p : Proc),
    (exists kvs text,
       fetched w fact_request = Return (JObj kvs)
       /\ lookup "text" kvs = Some text
       /\ DemoTools.get_random_fact w p
          = (Return (JStr ("🧠 Random Fact: " ++ py_str text)),
             log (EvHttpGet fact_request) p))
    \/ (exists fact,
          In fact DemoTools.fallback_facts
          /\ fst (DemoTools.get_random_fact w p)
             = Return (JStr ("🧠 Random Fact: " ++ fact))
          /\ rng_pos (snd (DemoTools.get_random_fact w p)) = S (rng_pos p)).
Proof.
  intros R w p. remember (DemoTools.get_random_fact w p) as r eqn:Hr. revert Hr.
  unfold DemoTools.get_random_fact. cbv zeta.
  unfold bind at 1. unfold try_except. rewrite fetch_run.
  unfold fact_request. destruct (fetched w _) as [data | e] eqn:Hf.
  - run_tool. destruct (py_in "text" data) as [[ | ] | e] eqn:Hin; cbv beta iota.
    + destruct (py_getitem data "text") as [text | e] eqn:Hitem; cbv beta iota.
      * intros ->. left.
        destruct data as [ | b | n | s | xs | kvs]; try discriminate Hitem.
        exists kvs, text. cbn in Hitem.
        destruct (lookup "text" kvs) as [v | ]; [ | discriminate Hitem ].
        injection Hitem as ->. repeat split.
      * intros ->. right. unfold random_choice. cbn [DemoTools.fallback_facts].
        eexists. split; [ | split; reflexivity ].
        apply nth_In. apply Nat.mod_upper_bound. discriminate.
    + intros ->. right. unfold random_choice. cbn [DemoTools.fallback_facts].
      eexists. split; [ | split; reflexivity ].
      apply nth_In. apply Nat.mod_upper_bound. discriminate.
    + intros ->. right. unfold random_choice. cbn [DemoTools.fallback_facts].
      eexists. split; [ | split; reflexivity ].
      apply nth_In. apply Nat.mod_upper_bound. discriminate.
  - intros ->. right. run_tool. unfold random_choice. cbn [DemoTools.fallback_facts].
    eexists. split; [ | split; reflexivity ].
    apply nth_In. apply Nat.mod_upper_bound. discriminate.
Qed.

(** X15.  [get_random_fact] of [local_multiple_tools.py].  It always sends
    one request to API Ninjas, with the header [X-Api-Key] exactly when
    [API_NINJAS_KEY] is set and not empty.  A falsy answer (an empty
    list, [{}], [null]) gives the sorry line; a non-empty list gives the
    ["fact"] member of its first element as it is, or the exception of
    that subscription; a non-empty object raises [KeyError: 0], the
    index [[0]] being read as a key. *)
Theorem local_get_random_fact_answer :
  forall (R : PyRuntime) (w : World) (p : Proc),
    let headers := match key_set (env_lookup "API_NINJAS_KEY" (environ p)) with
                   | Some key => [("X-Api-Key", key)]
                   | None => []
                   end in
    snd (LocalMultipleTools.get_random_fact w p)
      = log (EvHttpGet (ninjas_request headers)) p
    /\ forall data,
         fetched w (ninjas_request headers) = Return data ->
         (py_truthy data = false ->
          fst (LocalMultipleTools.get_random_fact w p)
            = Return (JStr "Sorry, couldn't fetch a random fact right now."))
         /\ (forall first rest,
             data = JArr (first :: rest) ->
             fst (LocalMultipleTools.get_random_fact w p) = py_getitem first "fact")
         /\ (forall member members,
             data = JObj (member :: members) ->
             fst (LocalMultipleTools.get_random_fact w p) = Raise (mkExc KeyError "0")).
Proof.
  intros R w p headers. subst headers. split.
  - unfold LocalMultipleTools.get_random_fact. rewrite getenv_bind. cbv zeta.
    apply one_request_state; intros; walk_pure.
  - intros data Hf. repeat split.
    + intros Ht. unfold LocalMultipleTools.get_random_fact. rewrite getenv_bind.
      on_answer Hf. rewrite Ht. reflexivity.
    + intros first rest ->. unfold LocalMultipleTools.get_random_fact.
      rewrite getenv_bind. on_answer Hf. cbn [py_truthy py_len py_getitem0].
      cbv beta iota. cbn [List.length Nat.ltb Nat.leb].
      destruct (py_getitem first "fact") as [fact | x] eqn:Hfact; [ reflexivity | ].
      rewrite (py_getitem_not_request first "fact" x Hfact). reflexivity.
    + intros member members ->. unfold LocalMultipleTools.get_random_fact.
      rewrite getenv_bind. on_answer Hf. reflexivity.
Qed.

(** X15 with the key configured, on a list
    of one fact. *)
Lemma local_get_random_fact_answer_witness :
  LocalMultipleTools.get_random_fact (world_body body_fact_list) p_ninjas_key
    = (Return (JStr "Bananas are berries."),
       log (EvHttpGet (mkRequest "https://api.api-ninjas.com/v1/facts"
                                 [("X-Api-Key", "k3y")] None)) p_ninjas_key).
Proof.
  destruct (local_get_random_fact_answer IntRuntime (world_body body_fact_list)
              p_ninjas_key) as [Hstate Hresult].
  destruct (Hresult body_fact_list eq_refl) as (_ & Hlist & _).
  apply injective_projections; [ | exact Hstate ].
  rewrite (Hlist (@JObj IntRuntime [("fact", @JStr IntRuntime "Bananas are berries.")])
             [] eq_refl).
  reflexivity.
Defined.

(** * The demo drivers *)

Section PrintRules.
Context {R : PyRuntime}.
Variable L : string -> Prop.


Lemma prints_only_pure {A} (Q : A -> Prop) (c : M A) :
  pure c -> (forall w p a, fst (c w p) = Return a -> Q a) ->
  prints_only L Q anything c.
Proof.
  intros Hc HQ w p. split.
  - exists []. rewrite (pure_state c w p Hc). split; [ reflexivity | constructor ].
  - destruct (fst (c w p)) eqn:Hr; [ eauto | exact I ].
Qed.

Lemma prints_only_silent {A} (c : M A) : pure c -> prints_only L anything anything c.
Proof. intros Hc. apply prints_only_pure; [ exact Hc | intros; exact I ]. Qed.

Lemma prints_only_str (Q : json -> Prop) E s : Q (JStr s) -> prints_only L Q E (str s).
Proof.
  intros HQ w p. split; [ exists []; split; [ reflexivity | constructor ] | exact HQ ].
Qed.

Lemma prints_only_ret {A} (Q : A -> Prop) E (a : A) : Q a -> prints_only L Q E (ret a).
Proof.
  intros HQ w p. split; [ exists []; split; [ reflexivity | constructor ] | exact HQ ].
Qed.

Lemma prints_only_print (Q : unit -> Prop) E line :
  L line -> Q tt -> prints_only L Q E (print line).
Proof.
  intros HL HQ w p. split; [ | exact HQ ].
  exists [EvPrint line]. split; [ reflexivity | ]. cbn. constructor; [ exact HL | constructor ].
Qed.

Lemma prints_only_getenv E name : prints_only L anything E (getenv name).
Proof.
  intros w p. split; [ exists []; split; [ reflexivity | constructor ] | exact I ].
Qed.

Lemma prints_only_requests_get url headers timeout :
  prints_only L anything anything (requests_get url headers timeout).
Proof.
  intros w p. split.
  - exists [EvHttpGet (mkRequest url headers timeout)]. split; [ reflexivity | constructor ].
  - cbn. destruct (http_get w _); exact I.
Qed.

Lemma prints_only_py_eval expression :
  prints_only L anything anything (py_eval expression).
Proof.
  intros w p. split.
  - eexists. split; [ apply py_eval_state | ].
    rewrite printed_app, printed_stderr. constructor.
  - cbn. destruct (eval_plain w _); exact I.
Qed.

Lemma prints_only_random_choice E x l :
  prints_only L (fun s => In s (x :: l)) E (random_choice (x :: l)).
Proof.
  intros w p. split.
  - exists []. split; [ reflexivity | constructor ].
  - apply (sat_random_choice E x l w p).
Qed.

Lemma prints_only_weaken {A} (Q Q' : A -> Prop) (E E' : exc -> Prop) (c : M A) :
  (forall a, Q a -> Q' a) -> (forall e, E e -> E' e) ->
  prints_only L Q E c -> prints_only L Q' E' c.
Proof.
  intros HQ HE Hc w p. destruct (Hc w p) as [Hevs Hr]. split; [ exact Hevs | ].
  destruct (fst (c w p)); auto.
Qed.

Lemma prints_only_bind {A B} (P : A -> Prop) (Q : B -> Prop) E
      (c : M A) (k : A -> M B) :
  prints_only L P E c -> (forall a, P a -> prints_only L Q E (k a)) ->
  prints_only L Q E (bind c k).
Proof.
  intros Hc Hk w p. unfold bind. destruct (Hc w p) as [(evs & Ht & Hl) Hr].
  destruct (c w p) as [[a | e] p']; cbn in *.
  - destruct (Hk a Hr w p') as [(evs' & Ht' & Hl') Hr']. split; [ | exact Hr' ].
    exists (evs' ++ evs)%list. rewrite Ht', Ht, app_assoc. split; [ reflexivity | ].
    rewrite printed_app. apply Forall_app. split; assumption.
  - split; [ | exact Hr ]. exists evs. split; assumption.
Qed.

Lemma prints_only_try {A} (Q : A -> Prop) E E' (body : M A) catches handler :
  prints_only L Q E' body ->
  (forall e, E' e -> catches e = true -> prints_only L Q E (handler e)) ->
  (forall e, E' e -> catches e = false -> E e) ->
  prints_only L Q E (try_except body catches handler).
Proof.
  intros Hb Hh Hu w p. unfold try_except. destruct (Hb w p) as [(evs & Ht & Hl) Hr].
  destruct (body w p) as [[a | e] p']; cbn in *.
  - split; [ | exact Hr ]. exists evs. split; assumption.
  - destruct (catches e) eqn:Hc.
    + destruct (Hh e Hr Hc w p') as [(evs' & Ht' & Hl') Hr']. split; [ | exact Hr' ].
      exists (evs' ++ evs)%list. rewrite Ht', Ht, app_assoc. split; [ reflexivity | ].
      rewrite printed_app. apply Forall_app. split; assumption.
    + split; [ | cbn; apply Hu; assumption ]. exists evs. split; assumption.
Qed.

End PrintRules.

Ltac result_line := apply prints_only_str; eexists; split; reflexivity.

(** Walks a [try] body that prints nothing. *)
Ltac walk_print :=
  repeat first
    [ result_line
    | apply prints_only_bind with (P := anything);
      [ first [ apply prints_only_requests_get
              | apply prints_only_py_eval
              | apply prints_only_silent; walk_pure ]
      | intros ? _ ]
    | match goal with
      | |- prints_only _ _ _ (if ?b then _ else _) => destruct b
      | |- prints_only _ _ _ (match ?x with Some _ => _ | None => _ end) => destruct x
      end ].

Ltac guarded_tool :=
  apply prints_only_try with (E' := anything);
  [ cbv zeta; walk_print | intros; result_line | discriminate ].

Section DemoDriver.
Context {R : PyRuntime}.

Lemma convert_currency_line amount f t :
  prints_only tool_line tool_result nothing (DemoTools.convert_currency amount f t).
Proof. unfold DemoTools.convert_currency. guarded_tool. Qed.

Lemma get_weather_line location celsius :
  prints_only tool_line tool_result nothing (DemoTools.get_weather location celsius).
Proof.
  unfold DemoTools.get_weather.
  apply prints_only_bind with (P := anything); [ apply prints_only_getenv | ].
  intros k _. destruct (key_set k); [ guarded_tool | result_line ].
Qed.

Lemma get_joke_line : prints_only tool_line tool_result nothing DemoTools.get_joke.
Proof.
  unfold DemoTools.get_joke.
  apply prints_only_try with (E' := anything); [ cbv zeta; walk_print | | discriminate ].
  intros e _ _. eapply prints_only_bind; [ apply prints_only_random_choice | ].
  intros; result_line.
Qed.

Lemma get_random_fact_line :
  prints_only tool_line tool_result nothing DemoTools.get_random_fact.
Proof.
  unfold DemoTools.get_random_fact.
  apply prints_only_bind
    with (P := fun r => match r with Some v => tool_result v | None => True end).
  - apply prints_only_try with (E' := anything); [ cbv zeta | | discriminate ].
    + repeat (apply prints_only_bind with (P := anything);
              [ first [ apply prints_only_requests_get
                      | apply prints_only_silent; walk_pure ]
              | intros ? _ ]).
      match goal with |- prints_only _ _ _ (if ?b then _ else _) => destruct b end.
      * apply prints_only_bind with (P := anything);
          [ apply prints_only_silent; walk_pure | intros ? _ ].
        apply prints_only_ret. eexists. split; reflexivity.
      * apply prints_only_ret. exact I.
    + intros e _ _. apply prints_only_bind with (P := anything).
      * apply prints_only_print; [ reflexivity | exact I ].
      * intros; apply prints_only_ret; exact I.
  - intros [v | ] Hv.
    + apply prints_only_ret. exact Hv.
    + eapply prints_only_bind; [ apply prints_only_random_choice | ].
      intros; result_line.
Qed.

Lemma search_wikipedia_line query :
  prints_only tool_line tool_result nothing (DemoTools.search_wikipedia query).
Proof. unfold DemoTools.search_wikipedia. guarded_tool. Qed.

Lemma calculate_line expression :
  prints_only tool_line tool_result nothing (DemoTools.calculate expression).
Proof. unfold DemoTools.calculate. guarded_tool. Qed.

(** One turn of the loop: the [except] clause is never entered. *)
Lemma demo_turn_line title (func : M json) :
  prints_only tool_line tool_result nothing func ->
  prints_only tool_line (fun _ => True) nothing (demo_turn (title, func)).
Proof.
  intros Hfunc. unfold demo_turn.
  apply prints_only_bind with (P := anything);
    [ apply prints_only_print; [ reflexivity | exact I ] | intros ? _ ].
  apply prints_only_bind with (P := anything);
    [ apply prints_only_print; [ reflexivity | exact I ] | intros ? _ ].
  apply prints_only_try with (E' := nothing).
  - apply prints_only_bind with (P := tool_result); [ exact Hfunc | ].
    intros v (s & -> & Hs). apply prints_only_print; [ exact Hs | exact I ].
  - intros e [].
  - intros e [].
Qed.

End DemoDriver.

Section DemoDriverEffects.
Context {R : PyRuntime}.
Variable int_literal : Z -> num.

Lemma demo_calculate_tame expression : tame 0 0 0 (DemoTools.calculate expression).
Proof.
  unfold DemoTools.calculate.
  apply (tame_try 0 0 0 0 0 0); [ | intros; apply tame_pure; walk_pure ].
  destruct (negb _); [ apply tame_pure; walk_pure | ].
  destruct (existsb _ _); [ apply tame_pure; walk_pure | ].
  apply (tame_bind 0 0 0 0 0 0);
    [ apply tame_py_eval | intros; apply tame_pure; walk_pure ].
Qed.

Lemma demo_turn_tame h pr rnd title (func : M json) :
  tame h pr rnd func -> tame h (4 + pr) rnd (demo_turn (title, func)).
Proof.
  intros Hfunc. unfold demo_turn.
  apply (tame_mono (0 + (0 + ((h + 0) + 0))) (1 + (1 + ((pr + 1) + 1)))
                   (0 + (0 + ((rnd + 0) + 0)))); try lia.
  apply (tame_bind 0 1 0); [ apply tame_print | intros _ ].
  apply (tame_bind 0 1 0); [ apply tame_print | intros _ ].
  apply (tame_try (h + 0) (pr + 1) (rnd + 0) 0 1 0).
  - apply (tame_bind h pr rnd 0 1 0); [ exact Hfunc | intros; apply tame_print ].
  - intros e. apply tame_print.
Qed.

Lemma run_comprehensive_demo_tame : tame 5 30 2 (run_comprehensive_demo int_literal).
Proof.
  unfold run_comprehensive_demo, demos. cbn [for_each].
  apply (tame_bind 0 1 0 5 29 2); [ apply tame_print | intros _ ].
  apply (tame_bind 0 1 0 5 28 2); [ apply tame_print | intros _ ].
  apply (tame_bind 5 25 2 0 3 0).
  - apply (tame_bind 1 4 0 4 21 2);
      [ apply (demo_turn_tame 1 0 0), (tool_tame (Demo_convert_currency _ _ _))
      | intros _ ].
    apply (tame_bind 1 4 0 3 17 2);
      [ apply (demo_turn_tame 1 0 0), (tool_tame (Demo_get_weather _ _)) | intros _ ].
    apply (tame_bind 1 4 1 2 13 1);
      [ apply (demo_turn_tame 1 0 1), (tool_tame Demo_get_joke) | intros _ ].
    apply (tame_bind 1 5 1 1 8 0);
      [ apply (demo_turn_tame 1 1 1), (tool_tame Demo_get_random_fact) | intros _ ].
    apply (tame_bind 1 4 0 0 4 0);
      [ apply (demo_turn_tame 1 0 0), (tool_tame (Demo_search_wikipedia _))
      | intros _ ].
    apply (tame_bind 0 4 0 0 0 0);
      [ apply (demo_turn_tame 0 0 0), demo_calculate_tame | intros _ ].
    apply tame_pure, pure_ret.
  - intros _. apply (tame_bind 0 1 0 0 2 0); [ apply tame_print | intros _ ].
    apply (tame_bind 0 1 0 0 1 0); [ apply tame_print | intros _ ].
    apply tame_print.
Qed.

Lemma run_comprehensive_demo_lines :
  prints_only tool_line (fun _ => True) nothing (run_comprehensive_demo int_literal).
Proof.
  unfold run_comprehensive_demo, demos. cbn [for_each].
  apply prints_only_bind with (P := anything);
    [ apply prints_only_print; [ reflexivity | exact I ] | intros ? _ ].
  apply prints_only_bind with (P := anything);
    [ apply prints_only_print; [ reflexivity | exact I ] | intros ? _ ].
  apply prints_only_bind with (P := anything).
  - apply prints_only_bind with (P := anything);
      [ eapply prints_only_weaken;
        [ | | apply demo_turn_line, convert_currency_line ]; auto | intros ? _ ].
    apply prints_only_bind with (P := anything);
      [ eapply prints_only_weaken;
        [ | | apply demo_turn_line, get_weather_line ]; auto | intros ? _ ].
    apply prints_only_bind with (P := anything);
      [ eapply prints_only_weaken;
        [ | | apply demo_turn_line, get_joke_line ]; auto | intros ? _ ].
    apply prints_only_bind with (P := anything);
      [ eapply prints_only_weaken;
        [ | | apply demo_turn_line, get_random_fact_line ]; auto | intros ? _ ].
    apply prints_only_bind with (P := anything);
      [ eapply prints_only_weaken;
        [ | | apply demo_turn_line, search_wikipedia_line ]; auto | intros ? _ ].
    apply prints_only_bind with (P := anything);
      [ eapply prints_only_weaken;
        [ | | apply demo_turn_line, calculate_line ]; auto | intros ? _ ].
    apply prints_only_ret. exact I.
  - intros ? _.
    apply prints_only_bind with (P := anything);
      [ apply prints_only_print; [ reflexivity | exact I ] | intros ? _ ].
    apply prints_only_bind with (P := anything);
      [ apply prints_only_print; [ reflexivity | exact I ] | intros ? _ ].
    apply prints_only_print; [ reflexivity | exact I ].
Qed.

End DemoDriverEffects.

(** X16.  [run_comprehensive_demo] always runs to its end: it returns
    normally whatever the network and [eval] do, sends at most five GET
    requests (one per network tool; none for the calculator), takes at
    most two draws from the random generator and leaves the environment
    and the files as they were.  ([print] is taken not to raise.) *)
Theorem run_comprehensive_demo_effects :
  forall (R : PyRuntime) (int_literal : Z -> num) (w : World) (p : Proc),
    fst (run_comprehensive_demo int_literal w p) = Return tt
    /\ environ (snd (run_comprehensive_demo int_literal w p)) = environ p
    /\ files (snd (run_comprehensive_demo int_literal w p)) = files p
    /\ rng_pos (snd (run_comprehensive_demo int_literal w p)) <= rng_pos p + 2
    /\ exists evs,
         trace (snd (run_comprehensive_demo int_literal w p)) = (evs ++ trace p)%list
         /\ count is_http evs <= 5.
Proof.
  intros R int_literal w p.
  destruct (run_comprehensive_demo_tame int_literal w p)
    as (He & Hf & Hrng & (evs & Ht & Hh & _) & _).
  destruct (run_comprehensive_demo_lines int_literal w p) as [_ Hr].
  repeat split; trivial; try lia.
  - destruct (fst (run_comprehensive_demo int_literal w p)) as [[] | e];
      [ reflexivity | destruct Hr ].
  - exists evs. split; assumption.
Qed.


Section LocalDriver.
Context {R : PyRuntime}.
Variable int_literal : Z -> num.

Lemma local_calculate_tame expression :
  tame 0 0 0 (LocalMultipleTools.calculate expression).
Proof.
  unfold LocalMultipleTools.calculate.
  apply (tame_try 0 0 0 0 0 0); [ | intros; apply tame_pure; walk_pure ].
  destruct (negb _); [ apply tame_pure; walk_pure | ].
  apply (tame_bind 0 0 0 0 0 0);
    [ apply tame_py_eval | intros; apply tame_pure; walk_pure ].
Qed.

Lemma run_tool_demos_tame : tame 5 13 0 (run_tool_demos int_literal).
Proof.
  unfold run_tool_demos.
  repeat match goal with
         | |- tame ?h (S ?pr) ?r (bind (print _) _) =>
             apply (tame_bind 0 1 0 h pr r); [ apply tame_print | intros ? ]
         end.
  apply (tame_bind 1 0 0 4 11 0);
    [ apply (tool_tame (Local_convert_currency _ _ _)) | intros ? ].
  repeat match goal with
         | |- tame ?h (S ?pr) ?r (bind (print _) _) =>
             apply (tame_bind 0 1 0 h pr r); [ apply tame_print | intros ? ]
         end.
  apply (tame_bind 0 0 0 4 9 0); [ apply local_calculate_tame | intros ? ].
  repeat match goal with
         | |- tame ?h (S ?pr) ?r (bind (print _) _) =>
             apply (tame_bind 0 1 0 h pr r); [ apply tame_print | intros ? ]
         end.
  apply (tame_bind 1 0 0 3 7 0); [ apply (tool_tame Local_get_joke) | intros ? ].
  repeat match goal with
         | |- tame ?h (S ?pr) ?r (bind (print _) _) =>
             apply (tame_bind 0 1 0 h pr r); [ apply tame_print | intros ? ]
         end.
  apply (tame_bind 1 0 0 2 5 0); [ apply (tool_tame Local_get_random_fact) | intros ? ].
  repeat match goal with
         | |- tame ?h (S ?pr) ?r (bind (print _) _) =>
             apply (tame_bind 0 1 0 h pr r); [ apply tame_print | intros ? ]
         end.
  apply (tame_bind 1 0 0 1 3 0);
    [ apply (tool_tame (Local_search_wikipedia _)) | intros ? ].
  repeat match goal with
         | |- tame ?h (S ?pr) ?r (bind (print _) _) =>
             apply (tame_bind 0 1 0 h pr r); [ apply tame_print | intros ? ]
         end.
  apply (tame_bind 1 0 0 0 1 0);
    [ apply (tool_tame (Local_get_weather _ _)) | intros ? ].
  apply tame_print.
Qed.

Lemma run_tool_demos_no_request_exception :
  sat anything not_request (run_tool_demos int_literal).
Proof.
  unfold run_tool_demos.
  repeat first
    [ apply sat_print; exact I
    | apply sat_bind with (P := anything);
      [ first [ apply sat_print; exact I
              | apply (local_no_request_exception (Local_convert_currency _ _ _) eq_refl)
              | apply (local_no_request_exception (Local_calculate _) eq_refl)
              | apply (local_no_request_exception Local_get_joke eq_refl)
              | apply (local_no_request_exception Local_get_random_fact eq_refl)
              | apply (local_no_request_exception (Local_search_wikipedia _) eq_refl)
              | apply (local_no_request_exception (Local_get_weather _ _) eq_refl) ]
      | intros ? _ ] ].
Qed.

End LocalDriver.

(** X18.  [run_tool_demos] sends at most five GET requests, prints at most
    thirteen lines, takes no draw and leaves the environment and the
    files as they were; it has no [try] of its own, and the exception it
    may end in is never a [RequestException]. *)
Theorem run_tool_demos_effects :
  forall (R : PyRuntime) (int_literal : Z -> num) (w : World) (p : Proc),
    environ (snd (run_tool_demos int_literal w p)) = environ p
    /\ files (snd (run_tool_demos int_literal w p)) = files p
    /\ rng_pos (snd (run_tool_demos int_literal w p)) = rng_pos p
    /\ (exists evs,
          trace (snd (run_tool_demos int_literal w p)) = (evs ++ trace p)%list
          /\ count is_http evs <= 5
          /\ count is_print evs <= 13)
    /\ match fst (run_tool_demos int_literal w p) with
       | Return _ => True
       | Raise e => is_request_exception e = false
       end.
Proof.
  intros R int_literal w p.
  destruct (run_tool_demos_tame int_literal w p) as (He & Hf & Hrng & Hevs & _).
  pose proof (run_tool_demos_no_request_exception int_literal w p) as Hr.
  repeat split; trivial; lia.
Qed.

Section Steps.
Context {R : PyRuntime}.

Lemma print_bind {A} line (k : unit -> M A) w p :
  bind (print line) k w p = k tt w (log (EvPrint line) p).
Proof. reflexivity. Qed.

Lemma bind_returns {A B} (c : M A) (k : A -> M B) w p a :
  fst (c w p) = Return a -> bind c k w p = k a w (snd (c w p)).
Proof. unfold bind. destruct (c w p) as [o p']. cbn. intros ->. reflexivity. Qed.

Lemma bind_raises {A B} (c : M A) (k : A -> M B) w p e :
  fst (c w p) = Raise e -> bind c k w p = (Raise e, snd (c w p)).
Proof. unfold bind. destruct (c w p) as [o p']. cbn. intros ->. reflexivity. Qed.

End Steps.

(** X19.  With the network down [run_tool_demos] still runs to its end: each
    tool turns the [RequestException] into its error line, which the
    driver prints. *)
Theorem run_tool_demos_network_down :
  forall (R : PyRuntime) (int_literal : Z -> num) (w : World) (p : Proc),
    network_down w -> fst (run_tool_demos int_literal w p) = Return tt.
Proof.
  intros R int_literal w p Hdown. unfold run_tool_demos.
  rewrite !print_bind.
  match goal with |- context [bind _ _ w ?q] =>
    destruct (local_string_when_down (Local_convert_currency (int_literal 5000%Z)
                                        "USD" "EUR") w q eq_refl Hdown) as [s1 H1]
  end.
  rewrite (bind_returns _ _ _ _ _ H1), !print_bind.
  match goal with |- context [bind _ _ w ?q] =>
    destruct (local_string_when_down (Local_calculate "5000 * 0.85") w q
                eq_refl Hdown) as [s2 H2]
  end.
  rewrite (bind_returns _ _ _ _ _ H2), !print_bind.
  match goal with |- context [bind _ _ w ?q] =>
    destruct (local_string_when_down Local_get_joke w q eq_refl Hdown) as [s3 H3]
  end.
  rewrite (bind_returns _ _ _ _ _ H3), !print_bind.
  match goal with |- context [bind _ _ w ?q] =>
    destruct (local_string_when_down Local_get_random_fact w q eq_refl Hdown)
      as [s4 H4]
  end.
  rewrite (bind_returns _ _ _ _ _ H4), !print_bind.
  match goal with |- context [bind _ _ w ?q] =>
    destruct (local_string_when_down (Local_search_wikipedia
                                        "Python_programming_language") w q
                eq_refl Hdown) as [s5 H5]
  end.
  rewrite (bind_returns _ _ _ _ _ H5), !print_bind.
  match goal with |- context [bind _ _ w ?q] =>
    destruct (local_string_when_down (Local_get_weather "New York" (Some false)) w q
                eq_refl Hdown) as [s6 H6]
  end.
  rewrite (bind_returns _ _ _ _ _ H6). reflexivity.
Qed.

(** X19 on a world that refuses every
    connection. *)
Lemma run_tool_demos_network_down_witness :
  fst (run_tool_demos (R := IntRuntime) (fun z => z) world_down p0) = Return tt.
Proof.
  apply (run_tool_demos_network_down IntRuntime (fun z => z) world_down p0).
  intros r. eexists. split; reflexivity.
Defined.

Lemma local_get_joke_state {R : PyRuntime} w q :
  snd (LocalMultipleTools.get_joke w q) = log (EvHttpGet local_joke_request) q.
Proof.
  unfold LocalMultipleTools.get_joke. cbv zeta.
  apply one_request_state; intros; walk_pure.
Qed.

(** X20.  [run_tool_demos] has no [try] around its calls: when the currency
    step went through and the joke answer is an object without the
    ["error"] flag, the [KeyError] of [get_joke] ends the driver.  The
    joke request is the last thing it did and ["3. Random Joke:"] the
    last line it printed; the three demos after it never run. *)
Theorem run_tool_demos_stops_at_joke :
  forall (R : PyRuntime) (int_literal : Z -> num) (w : World) (p : Proc)
         (v : json) (kvs : list (string * json)),
    fst (LocalMultipleTools.convert_currency (int_literal 5000%Z) "USD" "EUR" w p)
      = Return v ->
    fetched w local_joke_request = Return (JObj kvs) ->
    lookup "error" kvs = None ->
    fst (run_tool_demos int_literal w p) = Raise (missing_key "error")
    /\ exists rest,
         trace (snd (run_tool_demos int_literal w p))
           = EvHttpGet local_joke_request :: EvPrint "3. Random Joke:" :: rest.
Proof.
  intros R int_literal w p v kvs Hconvert Hf Hflag. unfold run_tool_demos.
  rewrite !print_bind.
  match goal with |- context [bind _ _ w ?q] =>
    destruct (tool_tame (Local_convert_currency (int_literal 5000%Z) "USD" "EUR") w p)
      as (_ & _ & _ & _ & Hdet);
    destruct (Hdet q eq_refl eq_refl) as [H1 _]
  end.
  cbn [call] in H1. rewrite Hconvert in H1.
  rewrite (bind_returns _ _ _ _ _ H1), !print_bind.
  match goal with |- context [bind _ _ w ?q] =>
    assert (H2 : exists s, fst (LocalMultipleTools.calculate "5000 * 0.85" w q)
                           = Return s)
      by (rewrite local_calculate_run; cbn; eexists; reflexivity)
  end.
  destruct H2 as [s H2]. rewrite (bind_returns _ _ _ _ _ H2), !print_bind.
  match goal with |- context [bind _ _ w ?q] =>
    pose proof (local_get_joke_missing_flag w q kvs Hf Hflag) as H3
  end.
  rewrite (bind_raises _ _ _ _ _ H3). split; [ reflexivity | ].
  cbn [snd]. rewrite local_get_joke_state. eexists. reflexivity.
Qed.

(** X20 on a world that answers every request
    with [{}]. *)
Lemma run_tool_demos_stops_at_joke_witness :
  fst (run_tool_demos (R := IntRuntime) (fun z => z) world_empty_object p0)
    = Raise (mkExc KeyError "'error'").
Proof.
  apply (run_tool_demos_stops_at_joke IntRuntime (fun z => z) world_empty_object p0
           (@JStr IntRuntime "Error: Could not find exchange rate for USD to EUR") []);
    reflexivity.
Defined.

(** X21.  The request of [convert_currency] on the free tier: always one GET
    for the table of the source currency, in [demo_tools.py] with a
    timeout of ten seconds and in [local_multiple_tools.py], when
    [EXCHANGE_API_KEY] is unset or empty, without one.  Neither the amount
    nor the target currency is sent, and nothing else happens to the
    state on any path. *)
Theorem convert_currency_request :
  forall (R : PyRuntime) (w : World) (p : Proc) (amount : num)
         (from_currency to_currency : string),
    snd (DemoTools.convert_currency amount from_currency to_currency w p)
      = log (EvHttpGet (rates_request from_currency (Some 10))) p
    /\ (key_set (env_lookup "EXCHANGE_API_KEY" (environ p)) = None ->
        snd (LocalMultipleTools.convert_currency amount from_currency to_currency w p)
          = log (EvHttpGet (rates_request from_currency None)) p).
Proof.
  intros R w p amount f t. split.
  - unfold DemoTools.convert_currency. cbv zeta.
    apply one_request_state; intros; walk_pure.
  - intros Hkey. unfold LocalMultipleTools.convert_currency.
    rewrite getenv_bind, Hkey. cbv zeta.
    apply one_request_state; intros; walk_pure.
Qed.

(** X21 for 5000 USD without a key. *)
Lemma convert_currency_request_witness :
  trace (snd (LocalMultipleTools.convert_currency (R := IntRuntime) 5000%Z "USD" "EUR"
                world_rates p0))
    = [EvHttpGet (mkRequest "https://api.exchangerate-api.com/v4/latest/USD" [] None)].
Proof.
  rewrite (proj2 (convert_currency_request IntRuntime world_rates p0 5000%Z
                    "USD" "EUR") eq_refl).
  reflexivity.
Defined.

Section Slices.

Lemma take_chars_prefix n : forall s, exists rest, s = take_chars n s ++ rest.
Proof.
  intros s. revert n. induction s as [ | c s IH]; intros n; [ exists EmptyString; reflexivity | ].
  cbn [take_chars]. destruct (is_continuation c).
  - destruct (IH n) as [rest Hrest]. exists rest. cbn. rewrite <- Hrest. reflexivity.
  - destruct n as [ | n]; [ exists (String c s); reflexivity | ].
    destruct (IH n) as [rest Hrest]. exists rest. cbn. rewrite <- Hrest. reflexivity.
Qed.

Lemma take_chars_bound : forall s n, code_points (take_chars n s) <= n.
Proof.
  induction s as [ | c s IH]; intros n; cbn [take_chars code_points]; [ lia | ].
  destruct (is_continuation c) eqn:Hc.
  - cbn [code_points]. rewrite Hc. apply IH.
  - destruct n as [ | n]; cbn [code_points]; [ lia | ].
    rewrite Hc. specialize (IH n). lia.
Qed.

Lemma take_chars_all : forall s n, code_points s <= n -> take_chars n s = s.
Proof.
  induction s as [ | c s IH]; intros n Hn; cbn [take_chars code_points] in *;
    [ reflexivity | ].
  destruct (is_continuation c).
  - rewrite IH; [ reflexivity | lia ].
  - destruct n as [ | n]; [ lia | ]. rewrite IH; [ reflexivity | lia ].
Qed.

End Slices.

(** X22.  The slice [result[:200]] of [run_tool_demos], for any bound: it is a
    prefix of the string, holds at most that many characters, and is the
    whole string when the string is no longer than the bound. *)
Theorem take_chars_slice :
  forall (n : nat) (s : string),
    (exists rest, s = take_chars n s ++ rest)
    /\ code_points (take_chars n s) <= n
    /\ (code_points s <= n -> take_chars n s = s).
Proof.
  intros n s. split; [ apply take_chars_prefix | split ].
  - apply take_chars_bound.
  - apply take_chars_all.
Qed.

(** X22 on a short error line, and a cut inside a line
    with a two-byte character. *)
Lemma take_chars_slice_witness :
  take_chars 200 "Error searching Wikipedia: connection refused"
    = "Error searching Wikipedia: connection refused"
  /\ code_points (take_chars 3 "70°F today") <= 3.
Proof.
  split.
  - apply (proj2 (proj2 (take_chars_slice 200
                           "Error searching Wikipedia: connection refused"))).
    vm_compute. lia.
  - apply (proj1 (proj2 (take_chars_slice 3 "70°F today"))).
Defined.

Example take_chars_degree : take_chars 3 "70°F today" = "70°".
Proof. reflexivity. Qed.

(** X23.  [get_weather] on a full report.  The unit follows the flag: [°C]
    for Celsius, [°F] otherwise ([None] included).  [demo_tools.py]
    prints four lines and needs ["wind_speed"]: without it the report is
    lost to the fetch-error line.  [local_multiple_tools.py] prints one
    line and never reads ["wind_speed"]. *)
Theorem get_weather_report :
  forall (R : PyRuntime) (w : World) (p : Proc) (location : string)
         (celsius : bool) (celsius' : option bool) (c : ascii) (key : string)
         (kvs current location_info : list (string * json))
         (name country description temperature feelslike humidity : json)
         (others : list json),
    env_lookup "WEATHERSTACK_API_KEY" (environ p) = Some (String c key) ->
    lookup "error" kvs = None ->
    lookup "current" kvs = Some (JObj current) ->
    lookup "location" kvs = Some (JObj location_info) ->
    lookup "name" location_info = Some name ->
    lookup "country" location_info = Some country ->
    lookup "weather_descriptions" current = Some (JArr (description :: others)) ->
    lookup "temperature" current = Some temperature ->
    lookup "feelslike" current = Some feelslike ->
    lookup "humidity" current = Some humidity ->
    (fetched w (demo_weather_request (String c key) location celsius)
       = Return (JObj kvs) ->
     fst (DemoTools.get_weather location celsius w p)
       = Return (JStr
           match lookup "wind_speed" current with
           | Some wind_speed =>
               let temp_unit := if celsius then "°C" else "°F" in
               "🌤️ Weather in " ++ py_str name ++ ", " ++ py_str country ++ ":" ++ nl
                 ++ "   " ++ py_str description ++ nl
                 ++ "   Temperature: " ++ py_str temperature ++ temp_unit
                 ++ " (feels like " ++ py_str feelslike ++ temp_unit ++ ")" ++ nl
                 ++ "   Humidity: " ++ py_str humidity ++ "%, Wind: "
                 ++ py_str wind_speed ++ " km/h"
           | None => "❌ Error fetching weather: 'wind_speed'"
           end))
    /\ (fetched w (local_weather_request (String c key) location celsius')
          = Return (JObj kvs) ->
        fst (LocalMultipleTools.get_weather location celsius' w p)
          = Return (JStr
              (let temp_unit := match celsius' with
                                | Some true => "°C"
                                | _ => "°F"
                                end in
               "Weather in " ++ py_str name ++ ", " ++ py_str country ++ ": "
                 ++ py_str description ++ ", Temperature: " ++ py_str temperature
                 ++ temp_unit ++ ", Feels like: " ++ py_str feelslike ++ temp_unit
                 ++ ", Humidity: " ++ py_str humidity ++ "%"))).
Proof.
  intros R w p location celsius celsius' c key kvs current location_info
         name country description temperature feelslike humidity others
         Hkey Herr Hcur Hloc Hname Hcountry Hdesc Htemp Hfeels Hhum.
  split; intros Hf; with_key Hkey; on_answer Hf; cbn [py_in py_getitem];
    rewrite Herr; cbv beta iota; rewrite Hcur; cbv beta iota; rewrite Hloc;
    cbv beta iota; cbn [py_getitem]; rewrite Hname; cbv beta iota; rewrite Hcountry;
    cbv beta iota; rewrite Hdesc; cbv beta iota; cbn [py_getitem0]; rewrite Htemp;
    cbv beta iota; rewrite Hfeels; cbv beta iota; rewrite Hhum; cbv beta iota.
  - destruct (lookup "wind_speed" current); reflexivity.
  - destruct celsius' as [[ | ] | ]; reflexivity.
Qed.

(** X23 on a London report without ["wind_speed"]. *)
Lemma get_weather_report_witness :
  fst (DemoTools.get_weather "London" false (world_body body_no_wind) p_key)
    = Return (JStr "❌ Error fetching weather: 'wind_speed'")
  /\ fst (LocalMultipleTools.get_weather "London" (Some true)
            (world_body body_no_wind) p_key)
     = Return (JStr "Weather in London, United Kingdom: Sunny, Temperature: 21°C, Feels like: 20°C, Humidity: 40%").
Proof.
  destruct (get_weather_report IntRuntime (world_body body_no_wind) p_key
              "London" false (Some true) "k" "3y"
              [ ("location", @JObj IntRuntime
                   [ ("name", @JStr IntRuntime "London");
                     ("country", @JStr IntRuntime "United Kingdom") ]);
                ("current", @JObj IntRuntime
                   [ ("weather_descriptions", @JArr IntRuntime [@JStr IntRuntime "Sunny"]);
                     ("temperature", @JNum IntRuntime 21%Z);
                     ("feelslike", @JNum IntRuntime 20%Z);
                     ("humidity", @JNum IntRuntime 40%Z) ]) ]
              [ ("weather_descriptions", @JArr IntRuntime [@JStr IntRuntime "Sunny"]);
                ("temperature", @JNum IntRuntime 21%Z);
                ("feelslike", @JNum IntRuntime 20%Z);
                ("humidity", @JNum IntRuntime 40%Z) ]
              [ ("name", @JStr IntRuntime "London");
                ("country", @JStr IntRuntime "United Kingdom") ]
              (@JStr IntRuntime "London") (@JStr IntRuntime "United Kingdom")
              (@JStr IntRuntime "Sunny") (@JNum IntRuntime 21%Z)
              (@JNum IntRuntime 20%Z) (@JNum IntRuntime 40%Z) []
              eq_refl eq_refl eq_refl eq_refl eq_refl eq_refl eq_refl eq_refl
              eq_refl eq_refl)
    as [Hdemo Hlocal].
  split; [ apply Hdemo | apply Hlocal ]; reflexivity.
Defined.
